(** * BitNet operator scripts: response extraction, chat loops, thread settings

    A shallow embedding of the Python scripts under [python/chat] and
    [python/benchmarks] and the properties their specification states about
    them.

    Conventions of the embedding.
    - A Python [str] is a [text], a list of characters.  A character is a code
      point below 256 (the Latin-1 range), carried by [ascii]; the character
      predicates below are Python's restricted to that range.
    - A [dict] with string keys is a [gmap string _].
    - Code that reads the terminal, prints or launches the engine runs in the
      monad [Py.M]: explicit state passing with Python exceptions and with a
      distinguished outcome for a call that never returns.
    - The engine is an external program: what it prints and how long it runs
      is given by the world the scripts run in. *)

From Stdlib Require Import Ascii String ZArith NArith QArith Lia List.
From stdpp Require Import base option list gmap strings pretty.

Open Scope Z_scope.

(** ** Text *)

Definition text := list ascii.

(** A literal of the source. *)
Definition txt (s : string) : text := list_ascii_of_string s.

Definition NL : ascii := "010"%char.
Definition TAB : ascii := "009"%char.

Module Char.

Definition code (c : ascii) : N := N_of_ascii c.

Definition between (lo hi : N) (c : ascii) : bool :=
  ((lo <=? code c) && (code c <=? hi))%N.

(** [str.isspace] on one character, also the set [str.strip] removes and the
    class [\s] of [re] on [str] patterns: U+0009..U+000D, U+001C..U+0020,
    U+0085 and U+00A0. *)
Definition isspace (c : ascii) : bool :=
  between 9 13 c || between 28 32 c || (code c =? 133)%N || (code c =? 160)%N.

(** The class [\d] of [re] on [str] patterns (category Nd): below 256 these
    are the ASCII digits. *)
Definition isdecimal (c : ascii) : bool := between 48 57 c.

(** [str.isprintable] on one character: the space and every character that
    is not a control, a separator or a format character. *)
Definition isprintable (c : ascii) : bool :=
  between 32 126 c || (between 161 255 c && negb (code c =? 173)%N).

(** [str.lower] on one character. *)
Definition lower (c : ascii) : ascii :=
  if between 65 90 c || (between 192 222 c && negb (code c =? 215)%N)
  then ascii_of_N (code c + 32) else c.

(** [str.upper] on one character whose upper case is below 256. *)
Definition upper (c : ascii) : ascii :=
  if between 97 122 c || (between 224 254 c && negb (code c =? 247)%N)
  then ascii_of_N (code c - 32) else c.

Definition eqb (a b : ascii) : bool := Ascii.eqb a b.

End Char.

Module Str.

(** [s.startswith(p)]. *)
Fixpoint startswith (p s : text) : bool :=
  match p, s with
  | [], _ => true
  | _ :: _, [] => false
  | a :: p', b :: s' => Char.eqb a b && startswith p' s'
  end.

(** [sub in s]. *)
Fixpoint contains (sub s : text) : bool :=
  startswith sub s ||
  match s with
  | [] => false
  | _ :: s' => contains sub s'
  end.

(** The number of positions of [s] at which [sub] occurs. *)
Fixpoint occurrences (sub s : text) : nat :=
  ((if startswith sub s then 1 else 0) +
   match s with
   | [] => 0
   | _ :: s' => occurrences sub s'
   end)%nat.

(** [s.find(sub)]: the lowest index of an occurrence, or -1. *)
Fixpoint find (sub s : text) : Z :=
  if startswith sub s then 0
  else match s with
       | [] => -1
       | _ :: s' => let r := find sub s' in if r <? 0 then -1 else r + 1
       end.

(** [s.rfind(sub)]: the highest index of an occurrence, or -1. *)
Fixpoint rfind (sub s : text) : Z :=
  match s with
  | [] => if startswith sub [] then 0 else -1
  | _ :: s' =>
      let r := rfind sub s' in
      if 0 <=? r then r + 1
      else if startswith sub s then 0 else -1
  end.

(** [len(s)]. *)
Definition len (s : text) : Z := Z.of_nat (length s).

(** [s[i:]]; a negative [i] counts from the end. *)
Definition slice_from (i : Z) (s : text) : text :=
  if 0 <=? i then drop (Z.to_nat i) s
  else drop (Z.to_nat (len s + i)) s.

(** [s[:n]] for a non-negative literal [n]. *)
Definition slice_to (n : nat) (s : text) : text := take n s.

(** [s.split(sep)] for a non-empty [sep]: [skip] counts the characters of a
    separator still to be passed over, [cur] is the piece being built. *)
Fixpoint split_go (sep : text) (skip : nat) (cur s : text) : list text :=
  match s with
  | [] => [cur]
  | c :: s' =>
      match skip with
      | S k => split_go sep k cur s'
      | O =>
          if startswith sep s
          then cur :: split_go sep (length sep - 1) [] s'
          else split_go sep 0 (cur ++ [c]) s'
      end
  end.

Definition split (sep s : text) : list text := split_go sep 0 [] s.

(** [parts[0]] and [parts[-1]] of a list of pieces. *)
Definition first (parts : list text) : text := hd [] parts.
Definition final (parts : list text) : text := List.last parts [].

Fixpoint lstrip (s : text) : text :=
  match s with
  | c :: s' => if Char.isspace c then lstrip s' else s
  | [] => []
  end.

Definition rstrip (s : text) : text := rev (lstrip (rev s)).

Definition strip (s : text) : text := rstrip (lstrip s).

(** [s.isspace()]: non-empty and whitespace only. *)
Definition isspace (s : text) : bool :=
  match s with
  | [] => false
  | _ => forallb Char.isspace s
  end.

(** [s.lower()]. *)
Definition lower (s : text) : text := map Char.lower s.

(** [s.capitalize()], applied to the role names only. *)
Definition capitalize (s : text) : text :=
  match s with
  | [] => []
  | c :: s' => Char.upper c :: lower s'
  end.

(** [''.join(char for char in s if char.isprintable() or char in '\n\t')]. *)
Definition keep (c : ascii) : bool :=
  Char.isprintable c || Char.eqb c NL || Char.eqb c TAB.

Definition printable_only (s : text) : text := List.filter keep s.

(** [sep.join(parts)]. *)
Fixpoint join (sep : text) (parts : list text) : text :=
  match parts with
  | [] => []
  | [p] => p
  | p :: rest => p ++ sep ++ join sep rest
  end.

(** [s.split(maxsplit=1)]: the first word and, when something follows it,
    the rest with the whitespace in between removed. *)
Fixpoint word (s : text) : text :=
  match s with
  | c :: s' => if Char.isspace c then [] else c :: word s'
  | [] => []
  end.

Definition split_once (s : text) : list text :=
  match lstrip s with
  | [] => []
  | s1 =>
      let w := word s1 in
      match lstrip (drop (length w) s1) with
      | [] => [w]
      | rest => [w; rest]
      end
  end.

(** [bool(s)]. *)
Definition nonempty (s : text) : bool :=
  match s with [] => false | _ => true end.

Definition eqb (a b : text) : bool := bool_decide (a = b).

End Str.

(** ** Regular expressions

    The fragment of [re] the scripts use: literals, a greedy repetition of a
    character class, an optional character, sequencing and a capturing group.
    Matching is by backtracking: [matches r s] lists, in the order [re] tries
    them, the ways [r] can match a prefix of [s], each as the groups captured
    and the text left over. *)

Module Re.

Inductive regex :=
| Lit (s : text)
| Plus (cls : ascii -> bool)
| Star (cls : ascii -> bool)
| Opt (c : ascii)
| Seq (r1 r2 : regex)
| Group (r : regex).

(** Greedy [cls*]: the longest run first, then each shorter one. *)
Fixpoint star (cls : ascii -> bool) (s : text) : list text :=
  match s with
  | c :: s' => if cls c then star cls s' ++ [s] else [s]
  | [] => [[]]
  end.

Fixpoint matches (r : regex) (s : text) : list (list text * text) :=
  match r with
  | Lit l => if Str.startswith l s then [([], drop (length l) s)] else []
  | Star cls => map (fun rest => ([], rest)) (star cls s)
  | Plus cls =>
      match s with
      | c :: s' => if cls c then map (fun rest => ([], rest)) (star cls s') else []
      | [] => []
      end
  | Opt c =>
      match s with
      | c' :: s' => if Char.eqb c c' then [([], s'); ([], s)] else [([], s)]
      | [] => [([], s)]
      end
  | Seq r1 r2 =>
      flat_map (fun '(g1, rest1) =>
                  map (fun '(g2, rest2) => (g1 ++ g2, rest2)) (matches r2 rest1))
               (matches r1 s)
  | Group r' =>
      map (fun '(g, rest) => (take (length s - length rest) s :: g, rest))
          (matches r' s)
  end.

(** The match [re] reports at one start position: the first success. *)
Definition match_at (r : regex) (s : text) : option (list text * text) :=
  head (matches r s).

(** [re.search(r, s)]: the match at the leftmost position that has one, as
    its groups. *)
Fixpoint search (r : regex) (s : text) : option (list text) :=
  match match_at r s with
  | Some (groups, _) => Some groups
  | None => match s with
            | [] => None
            | _ :: s' => search r s'
            end
  end.

(** [re.findall(r, s)] for a pattern with one group: group 1 of every match,
    left to right, the scan resuming where the previous match ended.  [skip]
    counts the characters of the last match still to be passed over. *)
Fixpoint findall_go (r : regex) (skip : nat) (s : text) : list text :=
  match skip with
  | S k => match s with
           | [] => []
           | _ :: s' => findall_go r k s'
           end
  | O =>
      match match_at r s with
      | Some (groups, rest) =>
          hd [] groups ::
          match s with
          | [] => []
          | _ :: s' => findall_go r (length s - length rest - 1) s'
          end
      | None => match s with
                | [] => []
                | _ :: s' => findall_go r 0 s'
                end
      end
  end.

Definition findall (r : regex) (s : text) : list text := findall_go r 0 s.

(** [m.group(1)]. *)
Definition group1 (groups : list text) : text := hd [] groups.

End Re.

(** The pattern every script searches for: group 1 is one or more digits, an
    optional point and any number of digits; then any whitespace and the
    words [tokens per second]. *)
Definition perf_pattern : Re.regex :=
  Re.Seq (Re.Group (Re.Seq (Re.Plus Char.isdecimal)
                           (Re.Seq (Re.Opt "."%char) (Re.Star Char.isdecimal))))
         (Re.Seq (Re.Star Char.isspace) (Re.Lit (txt "tokens per second"))).

(** ** Numbers written in decimal

    [float(m.group(1))] is only applied to a text group 1 of [perf_pattern]
    matched: digits, then possibly a point and more digits.  Its result is
    modelled by the rational the numeral denotes, in lowest terms; [float]
    rounds that rational to the nearest double, which changes nothing for the
    numerals with few digits the engine prints. *)

Module Decimal.

Definition digit (c : ascii) : Z := Z.of_N (Char.code c) - 48.

(** [acc] is the numeral read so far as an integer, [scale] the power of ten
    to divide by, [frac] whether the point has been passed.  A character that
    is neither a digit nor the point does not occur in a text the group
    matched; it is passed over. *)
Fixpoint read (acc : Z) (scale : positive) (frac : bool) (s : text) : Q :=
  match s with
  | [] => Qred (acc # scale)
  | c :: s' =>
      if Char.isdecimal c
      then read (10 * acc + digit c) (if frac then 10 * scale else scale)%positive frac s'
      else read acc scale (frac || Char.eqb c "."%char) s'
  end.

Definition float (s : text) : Q := read 0 1 false s.

End Decimal.

(** ** Effects

    A computation of type [M S A] runs on a state [S] and either returns a
    value, raises a Python exception, or never returns ([Hang]: it waits on a
    process that does not exit).  Each outcome carries the state reached:
    changes made before an exception is raised are kept, as in Python.
    [KeyboardInterrupt], which a signal raises at any moment, is not
    modelled. *)

Module Py.

Inductive exn :=
| EOFError
| ValueError
| TimeoutExpired
| OSError (what : text)
| SystemExit (code : Z).

(** [str(e)]. *)
Definition str_exn (e : exn) : text :=
  match e with
  | OSError what => what
  | _ => []
  end.

(** What [except Exception] catches: everything but [SystemExit]. *)
Definition is_Exception (e : exn) : bool :=
  match e with
  | SystemExit _ => false
  | _ => true
  end.

Inductive res (S A : Type) :=
| Val (a : A) (s : S)
| Raise (e : exn) (s : S)
| Hang (s : S).

Arguments Val {S A} a s.
Arguments Raise {S A} e s.
Arguments Hang {S A} s.

Definition M (S A : Type) : Type := S -> res S A.

Definition ret {S A} (a : A) : M S A := fun s => Val a s.

Definition bind {S A B} (m : M S A) (k : A -> M S B) : M S B :=
  fun s => match m s with
           | Val a s' => k a s'
           | Raise e s' => Raise e s'
           | Hang s' => Hang s'
           end.

Definition raise {S A} (e : exn) : M S A := fun s => Raise e s.

(** [try: m  except ...: h e]: [h] returns the handler of the exceptions the
    [except] clauses catch and [None] for those they let through. *)
Definition try {S A} (m : M S A) (h : exn -> option (M S A)) : M S A :=
  fun s => match m s with
           | Raise e s' => match h e with
                           | Some handler => handler s'
                           | None => Raise e s'
                           end
           | r => r
           end.

Definition modify {S} (f : S -> S) : M S unit := fun s => Val tt (f s).

(** The state an outcome carries. *)
Definition state {S A} (r : res S A) : S :=
  match r with
  | Val _ s | Raise _ s | Hang s => s
  end.

(** The call came back, with a value or with an exception. *)
Definition returns {S A} (r : res S A) : bool :=
  match r with
  | Hang _ => false
  | _ => true
  end.

End Py.

(** The monad notations of stdpp: [x ← m; k] and [m;; k]. *)
#[global] Instance M_ret {S} : MRet (Py.M S) := fun A => @Py.ret S A.
#[global] Instance M_bind {S} : MBind (Py.M S) := fun A B k m => Py.bind m k.

(** ** The world the scripts run in

    The terminal, the clock, the environment variables and the engine are not
    part of the scripts: the state records what they will provide.  [stdin]
    holds the lines the user will type ([input()] raises [EOFError] when none
    is left), [engine k] tells how the [k]-th process launched behaves, and
    [clock k] is what the [k]-th reading of the time formats to.  [console]
    collects what is printed and [launches] the processes started, oldest
    first. *)

Inductive behaviour :=
| Exits (seconds : nat) (returncode : Z) (stdout stderr : text)
| NeverExits
| LaunchFails (what : text).

(** A printed line is recorded without its leading pictograph; the decorative
    blocks (banner, help text, table of settings, the progress word and the
    blanks that erase it) are recorded by name.  [CommandFailed command rc]
    is the line [Error occurred while running command: {e}] of the two
    inference runners, [e] being the [CalledProcessError] that
    [subprocess.run(command, check=True)] raises on the exit status [rc]:
    the text that Python makes of [e] is determined by the two. *)
Inductive msg :=
| Line (s : text)
| Banner
| HelpText
| SettingsTable
| Thinking
| Erase
| CommandFailed (command : list text) (returncode : Z).

(** The arguments of one [subprocess.run]: command line, [timeout=] in
    seconds when given, and the environment of the child. *)
Record launch := Launch {
  argv : list text;
  timeout : option nat;
  env : gmap string text;
}.

Record world (Obj : Type) := World {
  self : Obj;
  stdin : list text;
  console : list msg;
  engine : nat -> behaviour;
  launches : list launch;
  clock : nat -> text;
  ticks : nat;
  environ : gmap string text;
}.

Arguments World {Obj}.
Arguments self {Obj}.
Arguments stdin {Obj}.
Arguments console {Obj}.
Arguments engine {Obj}.
Arguments launches {Obj}.
Arguments clock {Obj}.
Arguments ticks {Obj}.
Arguments environ {Obj}.

(** [subprocess.CompletedProcess] with captured output. *)
Record completed := Completed {
  returncode : Z;
  stdout : text;
  stderr : text;
}.

(** [l[-n:]] for a positive literal [n]. *)
Definition last_n {A} (n : nat) (l : list A) : list A := drop (length l - n) l.

(** [str(n)] on an [int]. *)
Definition str_int (n : Z) : text := txt (pretty n).

Module Sys.
Section ops.
Context {Obj : Type}.

Local Abbreviation W := (world Obj).

Definition set_self (o : Obj) (w : W) : W :=
  World o (stdin w) (console w) (engine w) (launches w) (clock w) (ticks w) (environ w).

Definition set_stdin (l : list text) (w : W) : W :=
  World (self w) l (console w) (engine w) (launches w) (clock w) (ticks w) (environ w).

Definition set_console (c : list msg) (w : W) : W :=
  World (self w) (stdin w) c (engine w) (launches w) (clock w) (ticks w) (environ w).

Definition set_launches (l : list launch) (w : W) : W :=
  World (self w) (stdin w) (console w) (engine w) l (clock w) (ticks w) (environ w).

Definition set_ticks (n : nat) (w : W) : W :=
  World (self w) (stdin w) (console w) (engine w) (launches w) (clock w) n (environ w).

Definition set_environ (e : gmap string text) (w : W) : W :=
  World (self w) (stdin w) (console w) (engine w) (launches w) (clock w) (ticks w) e.

(** [input(...)]; the prompt it shows is not recorded. *)
Definition input : Py.M W text :=
  fun w => match stdin w with
           | line :: rest => Py.Val line (set_stdin rest w)
           | [] => Py.Raise Py.EOFError w
           end.

(** [print(...)]. *)
Definition print (m : msg) : Py.M W unit :=
  Py.modify (fun w => set_console (console w ++ [m]) w).

Definition say (s : string) : Py.M W unit := print (Line (txt s)).

(** [for x in xs: print(...)]. *)
Definition print_all (ms : list msg) : Py.M W unit :=
  Py.modify (fun w => set_console (console w ++ ms) w).

(** [datetime.now().strftime(...)]. *)
Definition now : Py.M W text :=
  fun w => Py.Val (clock w (ticks w)) (set_ticks (S (ticks w)) w).

(** [os.environ[k] = v]. *)
Definition setenv (k : string) (v : text) : Py.M W unit :=
  Py.modify (fun w => set_environ (<[k := v]> (environ w)) w).

(** [os.environ.copy()]. *)
Definition environ_copy : Py.M W (gmap string text) :=
  fun w => Py.Val (environ w) w.

Definition this : Py.M W Obj := fun w => Py.Val (self w) w.

Definition update (f : Obj -> Obj) : Py.M W unit :=
  Py.modify (fun w => set_self (f (self w)) w).

(** [subprocess.run(cmd, capture_output=True, text=True, timeout=t, env=e)]:
    starts the process and waits for it to exit.  With a timeout of [t]
    seconds a process still running after [t] seconds is killed and
    [TimeoutExpired] is raised; without one the call waits for as long as the
    process runs.  Without [env=] the child inherits [os.environ]. *)
Definition subprocess_run (cmd : list text) (t : option nat)
    (e : option (gmap string text)) : Py.M W completed :=
  fun w =>
    let l := Launch cmd t (default (environ w) e) in
    let w' := set_launches (launches w ++ [l]) w in
    match engine w (length (launches w)) with
    | LaunchFails what => Py.Raise (Py.OSError what) w'
    | Exits seconds rc out err =>
        match t with
        | Some t => if (t <? seconds)%nat then Py.Raise Py.TimeoutExpired w'
                    else Py.Val (Completed rc out err) w'
        | None => Py.Val (Completed rc out err) w'
        end
    | NeverExits =>
        match t with
        | Some _ => Py.Raise Py.TimeoutExpired w'
        | None => Py.Hang w'
        end
    end.

End ops.
End Sys.


(** What a [while True] loop body tells the loop. *)
Inductive ctl := Continue | Break.

(** The first [n] iterations of [while True: body]. *)
Fixpoint iterate {S} (body : Py.M S ctl) (n : nat) : Py.M S ctl :=
  match n with
  | O => mret Continue
  | S n' =>
      c ← body;
      match c with
      | Break => mret Break
      | Continue => iterate body n'
      end
  end.

(** The delimiter that starts the generated text. *)
Definition assistant_marker : text := txt "Assistant:".

(** [for marker in markers: if marker in response:
       response = response.split(marker)[0].strip()]. *)
Definition cut_at (marker response : text) : text :=
  if Str.contains marker response
  then Str.strip (Str.first (Str.split marker response))
  else response.

Definition clean_technical (markers : list text) (response : text) : text :=
  fold_left (fun r marker => cut_at marker r) markers response.

(** Two line feeds, the separator of the prompt's paragraphs. *)
Definition NLNL : text := [NL; NL].

(** ** Vocabulary of the properties *)

(** A property of the state that a computation keeps, however it ends. *)
Definition preserves {S A} (I : S -> Prop) (m : Py.M S A) : Prop :=
  forall s, I s -> I (Py.state (m s)).

(** A computation that comes back from every state. *)
Definition always_returns {S A} (m : Py.M S A) : Prop :=
  forall s, Py.returns (m s) = true.

(** A property of the object, read as a property of the world. *)
Definition on_self {Obj} (inv : Obj -> Prop) (w : world Obj) : Prop :=
  inv (self w).

(** ** [python/chat/chat_advanced.py] *)

Module Advanced.
Section advanced.

(** Python's floats and the builtins on them are taken as given: [py_float]
    and [py_int] are [float(s)] and [int(s)], with [None] where Python raises
    [ValueError]; [literal q] is the float a decimal literal of the source
    denotes and [str_float] is [str] on floats. *)
Context {F : Type}.
Variable py_float : text -> option F.
Variable py_int : text -> option Z.
Variable literal : Q -> F.
Variable str_float : F -> text.

Inductive value :=
| VInt (n : Z)
| VFloat (x : F).

(** An entry of the transcript: role, message, time. *)
Definition entry : Type := text * text * text.

(** The object.  [appended] is not an attribute of the class: it logs every
    entry passed to [conversation_history.append], so that properties can
    speak of the whole sequence of appends. *)
Record BitNetChatAdvanced := Chat {
  model_path : text;
  conversation_history : list entry;
  system_prompt : text;
  settings : gmap string value;
  appended : list entry;
}.

Definition set_history (h : list entry) (c : BitNetChatAdvanced) :=
  Chat (model_path c) h (system_prompt c) (settings c) (appended c).

Definition set_system_prompt (p : text) (c : BitNetChatAdvanced) :=
  Chat (model_path c) (conversation_history c) p (settings c) (appended c).

Definition set_settings (m : gmap string value) (c : BitNetChatAdvanced) :=
  Chat (model_path c) (conversation_history c) (system_prompt c) m (appended c).

(** [self.conversation_history.append(e)]. *)
Definition append (e : entry) (c : BitNetChatAdvanced) : BitNetChatAdvanced :=
  Chat (model_path c) (conversation_history c ++ [e]) (system_prompt c)
       (settings c) (appended c ++ [e]).

Local Abbreviation W := (world BitNetChatAdvanced).
Local Abbreviation M := (Py.M W).

Definition default_settings : gmap string value :=
  <["temperature" := VFloat (literal 0.7)]>
  (<["max_tokens" := VInt 200]>
  (<["threads" := VInt 10]>
  (<["top_k" := VInt 40]>
  (<["top_p" := VFloat (literal 0.95)]>
  (<["repeat_penalty" := VFloat (literal 1.1)]> ∅))))).

Definition str_value (v : value) : text :=
  match v with
  | VInt n => str_int n
  | VFloat x => str_float x
  end.

(** [self.settings.get(k, d)]; also [self.settings[k]], whose key is always
    there: no code removes a key. *)
Definition setting (c : BitNetChatAdvanced) (k : string) (d : value) : value :=
  default d (settings c !! k).

(** [__init__]. *)
Definition init (path : text) : M unit :=
  Sys.update (fun _ => Chat path [] (txt "You are a helpful AI assistant.")
                            default_settings []);;
  Sys.setenv "OMP_NUM_THREADS" (str_int 10);;
  Sys.setenv "MKL_NUM_THREADS" (str_int 10).

Definition print_banner : M unit := Sys.print Banner.

Definition show_settings : M unit := Sys.print SettingsTable.

Definition float_settings : list text :=
  [txt "temperature"; txt "top_p"; txt "repeat_penalty"].

(** The names of the settings: the keys of [default_settings]. *)
Definition numeric_settings : list text :=
  [txt "temperature"; txt "max_tokens"; txt "threads"; txt "top_k";
   txt "top_p"; txt "repeat_penalty"].

Definition key (name : text) : string := string_of_list_ascii name.

(** [float(s)] for the three float settings and [int(s)] for the others;
    [None] where Python raises [ValueError]. *)
Definition parse_value (name line : text) : option value :=
  if bool_decide (name ∈ float_settings)
  then VFloat <$> py_float line
  else VInt <$> py_int line.

(** [float(input(...))] or [int(input(...))]. *)
Definition read_value (name : text) : M value :=
  line ← Sys.input;
  match parse_value name line with
  | Some v => mret v
  | None => Py.raise Py.ValueError
  end.

Definition change_settings : M unit :=
  show_settings;;
  Sys.say "Which setting would you like to change?";;
  Sys.say "(Enter setting name or 'cancel' to go back)";;
  line ← Sys.input;
  let name := Str.lower (Str.strip line) in
  if Str.eqb name (txt "cancel") || negb (Str.nonempty name) then mret tt
  else
    c ← Sys.this;
    (if Str.eqb name (txt "system_prompt") then
       Sys.print (Line (txt "Current: " ++ system_prompt c));;
       answer ← Sys.input;
       let new_value := Str.strip answer in
       if Str.nonempty new_value
       then Sys.update (set_system_prompt new_value);;
            Sys.say "System prompt updated!"
       else mret tt
     else
       match settings c !! key name with
       | Some current =>
           Sys.print (Line (txt "Current " ++ name ++ txt ": " ++ str_value current));;
           Py.try
             (new_value ← read_value name;
              Sys.update (fun c => set_settings (<[key name := new_value]> (settings c)) c);;
              (if Str.eqb name (txt "threads")
               then Sys.setenv "OMP_NUM_THREADS" (str_value new_value);;
                    Sys.setenv "MKL_NUM_THREADS" (str_value new_value)
               else mret tt);;
              Sys.print (Line (name ++ txt " updated to " ++ str_value new_value ++ txt "!")))
             (fun e => match e with
                       | Py.ValueError => Some (Sys.say "Invalid value!")
                       | _ => None
                       end)
       | None => Sys.print (Line (txt "Unknown setting: " ++ name))
       end);;
    _ ← Sys.input;
    mret tt.

(** [export_conversation]: the file it writes, named and dated by the clock,
    is outside the model; its name is printed and the user is asked to press
    Enter. *)
Definition export_conversation (format : text) : M unit :=
  Sys.now;; Sys.now;;
  Sys.say "Conversation exported";;
  _ ← Sys.input;
  mret tt.

Definition show_help : M unit :=
  Sys.print HelpText;;
  _ ← Sys.input;
  mret tt.

(** What [generate_response] returns: the keys [response] and [success], and
    [tokens_per_second] where the dictionary has it.  The two keys that hold a
    wall-clock duration and a word count scaled by a float are left out. *)
Record result := Result {
  response : text;
  tokens_per_second : option Q;
  success : bool;
}.

Definition tech_markers : list text :=
  [txt "build:"; txt "main:"; txt "llama_"; txt "llm_"; txt "warning:"; txt "ggml_"].

(** The body of [generate_response] after [subprocess.run] has returned. *)
Definition extract (p : completed) : result :=
  if returncode p =? 0 then
    let output := stdout p in
    if Str.contains assistant_marker output then
      let response_start :=
        Str.rfind assistant_marker output + Str.len assistant_marker in
      let response := Str.strip (Str.slice_from response_start output) in
      let response := clean_technical tech_markers response in
      let response := Str.printable_only response in
      let perf_match := Re.search perf_pattern (stderr p ++ stdout p) in
      let tokens_per_sec :=
        match perf_match with
        | Some m => Decimal.float (Re.group1 m)
        | None => 0%Q
        end in
      Result (Str.strip response) (Some tokens_per_sec) true
    else
      Result (txt "I couldn't generate a proper response. Please try again.")
             None false
  else
    Result (txt "Error generating response: " ++ Str.slice_to 200 (stderr p))
           None false.

(** The prompt: system prompt, the last six entries, the new question. *)
Definition full_prompt (c : BitNetChatAdvanced) (prompt : text) : text :=
  let context_messages :=
    map (fun '(role, msg, _) => Str.capitalize role ++ txt ": " ++ msg)
        (last_n 6 (conversation_history c)) in
  (system_prompt c ++ NLNL)
  ++ (if bool_decide (context_messages = []) then []
      else Str.join NLNL context_messages ++ NLNL)
  ++ txt "User: " ++ prompt ++ NLNL ++ txt "Assistant:".

Definition cmd (c : BitNetChatAdvanced) (prompt : text) : list text :=
  [txt "python3"; txt "run_inference.py";
   txt "-m"; model_path c;
   txt "-p"; full_prompt c prompt;
   txt "-n"; str_value (setting c "max_tokens" (VInt 0));
   txt "-temp"; str_value (setting c "temperature" (VInt 0));
   txt "-t"; str_value (setting c "threads" (VInt 0));
   txt "-top_k"; str_value (setting c "top_k" (VInt 40));
   txt "-top_p"; str_value (setting c "top_p" (VFloat (literal 0.95)));
   txt "-repeat_penalty"; str_value (setting c "repeat_penalty" (VFloat (literal 1.1)))].

Definition timed_out : result :=
  Result (txt "Response generation timed out. Try reducing max_tokens or simplifying your prompt.")
         None false.

Definition unexpected (e : Py.exn) : result :=
  Result (txt "Unexpected error: " ++ Py.str_exn e) None false.

Definition generate_response (prompt : text) : M result :=
  c ← Sys.this;
  Py.try
    (Sys.print Thinking;;
     p ← Sys.subprocess_run (cmd c prompt) (Some 120%nat) None;
     Sys.print Erase;;
     mret (extract p))
    (fun e => match e with
              | Py.TimeoutExpired => Some (Sys.print Erase;; mret timed_out)
              | _ => if Py.is_Exception e
                     then Some (Sys.print Erase;; mret (unexpected e))
                     else None
              end).

(** [result.get('tokens_per_second', 0) > 0]. *)
Definition shows_speed (r : result) : bool :=
  match tokens_per_second r with
  | Some q => negb (Qle_bool q 0)
  | None => false
  end.

(** [parts = user_input.split(maxsplit=1)]: [parts[0].lower()], and
    [parts[1]] when there is one. *)
Definition command_word (user_input : text) : text :=
  Str.lower (Str.first (Str.split_once user_input)).

Definition command_args (user_input : text) : text :=
  let parts := Str.split_once user_input in
  if (1 <? length parts)%nat then nth 1 parts [] else [].

(** The branch of the loop for an input that starts with a slash. *)
Definition command (user_input : text) : M ctl :=
  let command := command_word user_input in
  let args := command_args user_input in
  if Str.eqb command (txt "/exit") then
    Sys.say "Goodbye! Thanks for chatting!";; mret Break
  else
    (if Str.eqb command (txt "/help") then show_help;; print_banner
     else if Str.eqb command (txt "/settings") then change_settings;; print_banner
     else if Str.eqb command (txt "/clear") then
       Sys.update (set_history []);; print_banner;; Sys.say "Conversation cleared!"
     else if Str.eqb command (txt "/save") then
       export_conversation (txt "text");; print_banner
     else if Str.eqb command (txt "/export") then
       let format_type :=
         if bool_decide (args ∈ [txt "json"; txt "markdown"])
         then Str.lower args else txt "json" in
       export_conversation format_type;; print_banner
     else if Str.eqb command (txt "/system") then
       if Str.nonempty args
       then Sys.update (set_system_prompt args);; Sys.say "System prompt updated!"
       else c ← Sys.this; Sys.print (Line (txt "Current: " ++ system_prompt c))
     else if Str.eqb command (txt "/temp") then
       match py_float args with
       | Some x =>
           Sys.update (fun c => set_settings (<["temperature" := VFloat x]> (settings c)) c);;
           Sys.print (Line (txt "Temperature set to " ++ str_float x))
       | None => Sys.say "Invalid temperature value"
       end
     else if Str.eqb command (txt "/tokens") then
       match py_int args with
       | Some n =>
           Sys.update (fun c => set_settings (<["max_tokens" := VInt n]> (settings c)) c);;
           Sys.print (Line (txt "Max tokens set to " ++ str_int n))
       | None => Sys.say "Invalid token count"
       end
     else Sys.print (Line (txt "Unknown command: " ++ command)));;
    mret Continue.

(** The branch of the loop for a question: the response is printed (wrapped
    to the width of the screen, which the record omits) and, when the call
    succeeded, question and response are appended to the transcript. *)
Definition ask (user_input : text) : M ctl :=
  r ← generate_response user_input;
  (if success r then
     Sys.print (Line (response r));;
     (if shows_speed r then Sys.say "[tokens, s, tok/s]" else mret tt);;
     timestamp ← Sys.now;
     Sys.update (append (txt "user", user_input, timestamp));;
     Sys.update (append (txt "assistant", response r, timestamp))
   else Sys.print (Line (response r)));;
  mret Continue.

(** One iteration of the loop of [run]. *)
Definition turn : M ctl :=
  Py.try
    (line ← Sys.input;
     let user_input := Str.strip line in
     if negb (Str.nonempty user_input) then mret Continue
     else if Str.startswith (txt "/") user_input then command user_input
     else ask user_input)
    (fun e => match e with
              | Py.EOFError => Some (Sys.say "Goodbye! Thanks for chatting!";; mret Break)
              | _ => if Py.is_Exception e
                     then Some (Sys.print (Line (txt "Error: " ++ Py.str_exn e));;
                                mret Continue)
                     else None
              end).

(** [run], cut after [n] iterations of its loop. *)
Definition run (n : nat) : M ctl := print_banner;; iterate turn n.

(** The transcript holds the most recent of the entries appended. *)
Definition fifo (c : BitNetChatAdvanced) : Prop :=
  conversation_history c `suffix_of` appended c.


End advanced.
End Advanced.

(** ** [python/chat/chat.py] *)

Module Basic.

(** An entry of the transcript: role and message. *)
Definition entry : Type := text * text.

(** The object; [appended] logs the entries passed to
    [conversation_history.append] and is not an attribute of the class. *)
Record BitNetChat := Chat {
  model_path : text;
  conversation_history : list entry;
  system_prompt : text;
  appended : list entry;
}.

Definition set_history (h : list entry) (c : BitNetChat) :=
  Chat (model_path c) h (system_prompt c) (appended c).

Definition set_system_prompt (p : text) (c : BitNetChat) :=
  Chat (model_path c) (conversation_history c) p (appended c).

(** [self.conversation_history.append(e)]. *)
Definition append (e : entry) (c : BitNetChat) : BitNetChat :=
  Chat (model_path c) (conversation_history c ++ [e]) (system_prompt c)
       (appended c ++ [e]).

Local Abbreviation W := (world BitNetChat).
Local Abbreviation M := (Py.M W).

(** [__init__]. *)
Definition init (path : text) : M unit :=
  Sys.update (fun _ => Chat path [] (txt "You are a helpful AI assistant.") []);;
  Sys.setenv "OMP_NUM_THREADS" (txt "10");;
  Sys.setenv "MKL_NUM_THREADS" (txt "10").

(** [print_header] clears the screen and prints the header, which shows the
    time. *)
Definition print_header : M unit := Sys.now;; Sys.print Banner.

Definition tech_markers : list text :=
  [txt "build:"; txt "main:"; txt "llama_"; txt "llm_"; txt "warning:"].

(** The body of [generate_response] after [subprocess.run] has returned: the
    response and the text that shows the speed. *)
Definition extract (p : completed) : text * text :=
  if returncode p =? 0 then
    let output := stdout p in
    let response_start :=
      Str.find assistant_marker output + Str.len assistant_marker in
    if Str.len assistant_marker - 1 <? response_start then
      let response := Str.strip (Str.slice_from response_start output) in
      let response := clean_technical tech_markers response in
      let response := Str.strip response in
      let response := Str.printable_only response in
      let perf_match := Re.search perf_pattern (stderr p ++ stdout p) in
      let perf_info :=
        match perf_match with
        | Some m => txt " [" ++ Re.group1 m ++ txt " tok/s]"
        | None => []
        end in
      (response, perf_info)
    else (txt "I couldn't generate a response. Please try again.", [])
  else (txt "Error: " ++ Str.slice_to 200 (stderr p), []).

(** The prompt: system prompt, the last five entries, the new question. *)
Definition full_prompt (c : BitNetChat) (prompt : text) : text :=
  fold_left
    (fun acc '(role, message) =>
       if Str.eqb role (txt "user")
       then acc ++ NLNL ++ txt "User: " ++ message
       else acc ++ NLNL ++ txt "Assistant: " ++ message)
    (last_n 5 (conversation_history c)) (system_prompt c)
  ++ NLNL ++ txt "User: " ++ prompt ++ NLNL ++ txt "Assistant:".

(** The command line; [max_tokens] and [temperature] keep their defaults, 200
    and 0.7, in every call of the script. *)
Definition cmd (c : BitNetChat) (prompt : text) : list text :=
  [txt "python3"; txt "../benchmarks/run_inference.py";
   txt "-m"; model_path c;
   txt "-p"; full_prompt c prompt;
   txt "-n"; str_int 200;
   txt "-temp"; txt "0.7";
   txt "-t"; txt "10"].

Definition generate_response (prompt : text) : M (text * text) :=
  c ← Sys.this;
  Py.try
    (p ← Sys.subprocess_run (cmd c prompt) (Some 60%nat) None;
     mret (extract p))
    (fun e => match e with
              | Py.TimeoutExpired =>
                  Some (mret (txt "Response generation timed out. Please try a shorter prompt.", []))
              | _ => if Py.is_Exception e
                     then Some (mret (txt "Error: " ++ Py.str_exn e, []))
                     else None
              end).

(** [save_conversation]: the file it writes, named and dated by the clock,
    is outside the model. *)
Definition save_conversation : M unit :=
  Sys.now;; Sys.now;;
  Sys.say "Conversation saved";;
  _ ← Sys.input;
  mret tt.

Definition change_system_prompt : M unit :=
  c ← Sys.this;
  Sys.say "Current system prompt:";;
  Sys.print (Line (system_prompt c));;
  answer ← Sys.input;
  let new_prompt := Str.strip answer in
  (if Str.nonempty new_prompt
   then Sys.update (set_system_prompt new_prompt);; Sys.say "System prompt updated!"
   else Sys.say "System prompt unchanged.");;
  _ ← Sys.input;
  mret tt.

Definition show_system : M unit :=
  c ← Sys.this; Sys.print (Line (txt "System: " ++ system_prompt c)).

(** The branch of the loop for an input that starts with a slash. *)
Definition command (user_input : text) : M ctl :=
  let command := Str.lower user_input in
  if Str.eqb command (txt "/exit") then Sys.say "Goodbye!";; mret Break
  else
    (if Str.eqb command (txt "/clear") then
       Sys.update (set_history []);;
       print_header;; show_system;; Sys.say "Conversation history cleared!"
     else if Str.eqb command (txt "/help") then print_header;; show_system
     else if Str.eqb command (txt "/save") then
       save_conversation;; print_header;; show_system;;
       c ← Sys.this;
       Sys.print_all
         (map (fun '(role, message) =>
                 if Str.eqb role (txt "user")
                 then Line (txt "You: " ++ message)
                 else Line (txt "BitNet: " ++ message))
              (last_n 3 (conversation_history c)))
     else if Str.eqb command (txt "/system") then
       change_system_prompt;; print_header;; show_system
     else Sys.print (Line (txt "Unknown command: " ++ command)));;
    mret Continue.

(** [if len(h) > 20: h = h[-20:]]. *)
Definition truncate (c : BitNetChat) : BitNetChat :=
  if (20 <? length (conversation_history c))%nat
  then set_history (last_n 20 (conversation_history c)) c
  else c.

(** The branch of the loop for a question. *)
Definition ask (user_input : text) : M ctl :=
  Sys.print Thinking;;
  '(response, perf_info) ← generate_response user_input;
  Sys.print Erase;;
  Sys.print (Line (txt "BitNet: " ++ response));;
  (if Str.nonempty perf_info
   then Sys.print (Line (txt "Performance: " ++ perf_info)) else mret tt);;
  Sys.update (append (txt "user", user_input));;
  Sys.update (append (txt "assistant", response));;
  Sys.update truncate;;
  mret Continue.

(** One iteration of the loop of [run]: only the first [input] is guarded. *)
Definition turn : M ctl :=
  got ← Py.try (line ← Sys.input; mret (Some (Str.strip line)))
               (fun e => match e with
                         | Py.EOFError => Some (Sys.say "Goodbye!";; mret None)
                         | _ => None
                         end);
  match got with
  | None => mret Break
  | Some user_input =>
      if negb (Str.nonempty user_input) then mret Continue
      else if Str.startswith (txt "/") user_input then command user_input
      else ask user_input
  end.

(** [run], cut after [n] iterations of its loop. *)
Definition run (n : nat) : M ctl :=
  print_header;; show_system;; iterate turn n.

(** At most twenty entries, and the most recent ones of those appended. *)
Definition bounded (c : BitNetChat) : Prop :=
  (length (conversation_history c) <= 20)%nat /\
  conversation_history c `suffix_of` appended c.

End Basic.

(** ** [python/chat/chat_streaming.py]: [extract_response_streaming] *)

Module Streaming.

(** The local variables of the reading loop, and what it has printed. *)
Record scan := Scan {
  response_started : bool;
  response_lines : list text;
  current_line : text;
  assistant_found : bool;
  tokens_count : nat;
  printed : text;
}.

Definition start : scan := Scan false [] [] false 0 [].

Definition tech_markers : list text :=
  [txt "build:"; txt "main:"; txt "llama_"; txt "llm_"; txt "warning:"; txt "ggml_"].

(** [current_line += char]. *)
Definition add_char (char : ascii) (st : scan) : scan :=
  Scan (response_started st) (response_lines st) (current_line st ++ [char])
       (assistant_found st) (tokens_count st) (printed st).

(** The test for the delimiter: once found, the line restarts after it. *)
Definition find_assistant (st : scan) : scan :=
  if negb (assistant_found st) && Str.contains assistant_marker (current_line st)
  then
    let parts := Str.split assistant_marker (current_line st) in
    if (1 <? length parts)%nat
    then Scan true (response_lines st) (Str.final parts) true
              (tokens_count st) (printed st)
    else Scan (response_started st) (response_lines st) (current_line st) true
              (tokens_count st) (printed st)
  else st.

(** The first marker of the list that the line contains. *)
Definition marker_in (line : text) : option text :=
  List.find (fun marker => Str.contains marker line) tech_markers.

(** What is kept of a line in which a marker was found: the part before it. *)
Definition before_marker (marker : text) (st : scan) : scan :=
  let parts := Str.split marker (current_line st) in
  if Str.nonempty (Str.strip (Str.first parts)) then
    let remaining := Str.rstrip (Str.first parts) in
    if Str.nonempty remaining && negb (Str.isspace remaining)
    then Scan (response_started st) (response_lines st ++ [remaining])
              (current_line st) (assistant_found st) (tokens_count st)
              (printed st ++ remaining)
    else st
  else st.

(** [char in ' \n\t'] for a single character. *)
Definition is_separator (char : ascii) : bool :=
  Char.eqb char " "%char || Char.eqb char NL || Char.eqb char TAB.

(** The character is echoed when printable, and counted when a separator. *)
Definition echo (char : ascii) (st : scan) : scan :=
  if Str.keep char
  then Scan (response_started st) (response_lines st) (current_line st)
            (assistant_found st)
            (if is_separator char then S (tokens_count st) else tokens_count st)
            (printed st ++ [char])
  else st.

Definition end_line (char : ascii) (st : scan) : scan :=
  if Char.eqb char NL
  then Scan (response_started st)
            (response_lines st ++ [Str.rstrip (current_line st)]) []
            (assistant_found st) (tokens_count st) (printed st)
  else st.

(** The [while True] loop over [process.stdout.read(1)]: the state at the end
    and the part of the stream not read. *)
Fixpoint read_loop (st : scan) (stream : text) : scan * text :=
  match stream with
  | [] => (st, [])
  | char :: rest =>
      let st := find_assistant (add_char char st) in
      if response_started st then
        match marker_in (current_line st) with
        | Some marker => (before_marker marker st, rest)
        | None => read_loop (end_line char (echo char st)) rest
        end
      else read_loop st rest
  end.

Record result := Result {
  response : text;
  tokens_per_second : Q;
  token_count : nat;
  success : bool;
}.

(** [extract_response_streaming(process)]: [out] is what the process writes
    to its standard output and [err] its standard error when it has one.  The
    wall-clock duration in the result is left out. *)
Definition extract_response_streaming (out : text) (err : option text) : result :=
  let '(st, remaining_output) := read_loop start out in
  let lines :=
    if Str.nonempty (Str.strip (current_line st)) && response_started st
    then response_lines st ++ [Str.rstrip (current_line st)]
    else response_lines st in
  let all_output := remaining_output ++ default [] err in
  let perf_match := Re.search perf_pattern all_output in
  let tokens_per_sec :=
    match perf_match with
    | Some m => Decimal.float (Re.group1 m)
    | None => 0%Q
    end in
  let full_response := Str.strip (Str.join [NL] lines) in
  let full_response := Str.printable_only full_response in
  Result full_response tokens_per_sec (tokens_count st)
         (Str.nonempty full_response).

End Streaming.

(** ** [python/benchmarks/benchmark_optimized.py]: [run_single_benchmark] *)

Module Benchmark.
Section benchmark.
Context {Obj : Type}.

Record sample := Sample {
  tokens_per_sec : Q;
  output : text;
}.

Definition cmd (prompt : text) (threads num_tokens : Z) (performance_mode : bool)
    : list text :=
  [txt "python3"; txt "run_inference_optimized.py";
   txt "-m"; txt "models/BitNet-b1.58-2B-4T/ggml-model-i2_s.gguf";
   txt "-p"; prompt;
   txt "-n"; str_int num_tokens;
   txt "-temp"; txt "0";
   txt "-t"; str_int threads]
  ++ (if performance_mode then [txt "--performance-mode"] else []).

Definition child_env (threads : Z) (e : gmap string text) : gmap string text :=
  <["OMP_PLACES" := txt "cores"]>
  (<["OMP_PROC_BIND" := txt "true"]>
  (<["OPENBLAS_NUM_THREADS" := str_int threads]>
  (<["MKL_NUM_THREADS" := str_int threads]>
  (<["OMP_NUM_THREADS" := str_int threads]> e)))).

(** [matches[-1]]. *)
Definition last_match (matches : list text) : option text := List.last (map Some matches) None.

(** The parsing of the captured output. *)
Definition parse (p : completed) : sample :=
  let output := stdout p ++ stderr p in
  let matches := Re.findall perf_pattern output in
  let tokens_per_sec :=
    match last_match matches with
    | Some m => Decimal.float m
    | None => 0%Q
    end in
  Sample tokens_per_sec output.

(** [run_single_benchmark]; the duration it measures is left out. *)
Definition run_single_benchmark (prompt : text) (threads num_tokens : Z)
    (performance_mode : bool) : Py.M (world Obj) sample :=
  e ← Sys.environ_copy;
  p ← Sys.subprocess_run (cmd prompt threads num_tokens performance_mode)
        None (Some (child_env threads e));
  mret (parse p).

End benchmark.
End Benchmark.

(** ** [python/benchmarks/parallel_inference.py] *)

Module Parallel.
Section parallel.
Context {Obj : Type}.

Record outcome := Outcome {
  prompt_of : text;
  output : text;
  success : bool;
  threads : Z;
}.

Definition cmd (prompt : text) (max_tokens threads_per_process : Z) : list text :=
  [txt "python3"; txt "run_inference.py";
   txt "-m"; txt "models/BitNet-b1.58-2B-4T/ggml-model-i2_s.gguf";
   txt "-p"; prompt;
   txt "-n"; str_int max_tokens;
   txt "-t"; str_int threads_per_process;
   txt "-temp"; txt "0.7"].

Definition child_env (threads_per_process : Z) (e : gmap string text)
    : gmap string text :=
  <["OMP_PLACES" := txt "cores"]>
  (<["OMP_PROC_BIND" := txt "true"]>
  (<["OMP_NUM_THREADS" := str_int threads_per_process]> e)).

(** [output.split(prompt, 1)[1]]: what follows the first occurrence. *)
Definition after_first (sep s : text) : text :=
  drop (Z.to_nat (Str.find sep s) + length sep) s.

(** [run_single_inference]; the duration in the result is left out.  An empty
    prompt is contained in any output and [split] rejects an empty separator
    with [ValueError]. *)
Definition run_single_inference (prompt : text) (max_tokens threads_per_process : Z)
    : Py.M (world Obj) outcome :=
  e ← Sys.environ_copy;
  Py.try
    (p ← Sys.subprocess_run (cmd prompt max_tokens threads_per_process)
           (Some 60%nat) (Some (child_env threads_per_process e));
     output ← (if Str.contains prompt (stdout p)
               then if Str.nonempty prompt
                    then mret (Str.strip (after_first prompt (stdout p)))
                    else Py.raise Py.ValueError
               else mret (stdout p));
     mret (Outcome prompt (Str.slice_to 200 output) (returncode p =? 0)
                   threads_per_process))
    (fun e => match e with
              | Py.TimeoutExpired =>
                  Some (mret (Outcome prompt (txt "Timeout") false threads_per_process))
              | _ => None
              end).

End parallel.

(** The table of strategies: workers and threads per worker. *)
Definition strategies : gmap string (nat * nat) :=
  <["balanced" := (3, 4)%nat]>
  (<["concurrent" := (6, 2)%nat]>
  (<["power" := (2, 6)%nat]> ∅)).

(** [strategies.get(strategy, (3, 4))]. *)
Definition plan (strategy : string) : nat * nat :=
  default (3, 4)%nat (strategies !! strategy).

Definition max_workers (strategy : string) : nat := fst (plan strategy).
Definition threads_per_worker (strategy : string) : nat := snd (plan strategy).

Definition total_threads (strategy : string) : nat :=
  (max_workers strategy * threads_per_worker strategy)%nat.

(** The budget in the line the script prints:
    [Total threads used: {total_threads}/10]. *)
Definition thread_budget : nat := 10.

Definition configuration_line (strategy : string) : msg :=
  Line (txt "   Total threads used: " ++ str_int (Z.of_nat (total_threads strategy))
        ++ txt "/" ++ str_int (Z.of_nat thread_budget)).

End Parallel.

(** ** [python/chat/chat_streaming.py]: the class and its loop *)

Module StreamingChat.
Section chat.

(** The host: [windows] tells whether [os.name] is [nt] and [path_exists] is
    [os.path.exists]; floats are taken as in [Advanced]. *)
Context {F : Type}.
Variable py_float : text -> option F.
Variable py_int : text -> option Z.
Variable literal : Q -> F.
Variable str_float : F -> text.
Variable windows : bool.
Variable path_exists : text -> bool.

(** [BitNetStreamingChat] has the attributes of [BitNetChatAdvanced] and the
    same [__init__]; its [change_settings], [show_settings], [show_help] and
    the prompt built at the head of [generate_response_streaming] are, but
    for the text printed, the statements of [chat_advanced.py].  The record
    and those functions of [Advanced] stand for them. *)
Local Abbreviation BitNetStreamingChat := (Advanced.BitNetChatAdvanced (F := F)).
Local Abbreviation W := (world BitNetStreamingChat).
Local Abbreviation M := (Py.M W).

Definition init (path : text) : M unit := Advanced.init literal path.

Definition print_banner : M unit := Sys.print Banner.

Definition llama_cli : text :=
  if windows then
    if path_exists (txt "build/bin/Release/llama-cli.exe")
    then txt "build/bin/Release/llama-cli.exe"
    else txt "build/bin/llama-cli.exe"
  else txt "build/bin/llama-cli".

Definition cmd (c : BitNetStreamingChat) (prompt : text) : list text :=
  [llama_cli;
   txt "-m"; Advanced.model_path c;
   txt "-p"; Advanced.full_prompt c prompt;
   txt "-n"; Advanced.str_value str_float (Advanced.setting c "max_tokens" (Advanced.VInt 0));
   txt "--temp"; Advanced.str_value str_float (Advanced.setting c "temperature" (Advanced.VInt 0));
   txt "-t"; Advanced.str_value str_float (Advanced.setting c "threads" (Advanced.VInt 0));
   txt "--top-k"; Advanced.str_value str_float (Advanced.setting c "top_k" (Advanced.VInt 40));
   txt "--top-p";
   Advanced.str_value str_float (Advanced.setting c "top_p" (Advanced.VFloat (literal 0.95)));
   txt "--repeat-penalty";
   Advanced.str_value str_float
     (Advanced.setting c "repeat_penalty" (Advanced.VFloat (literal 1.1)));
   txt "-ngl"; txt "0";
   txt "-c"; txt "2048";
   txt "-b"; txt "1"].

(** The result of the handler of [generate_response_streaming]. *)
Definition failed (e : Py.exn) : Streaming.result :=
  Streaming.Result (txt "Error: " ++ Py.str_exn e) 0 0 false.

(** [generate_response_streaming]: [subprocess.Popen], then the extractor,
    which reads the output of the process up to its end and waits for the
    process: together they come back when [subprocess.run] without a timeout
    does, with the same streams.  What the extractor echoes while it reads
    is printed. *)
Definition generate_response_streaming (prompt : text) : M Streaming.result :=
  c ← Sys.this;
  Py.try
    (p ← Sys.subprocess_run (cmd c prompt) None None;
     Sys.print (Line (Streaming.printed (fst (Streaming.read_loop Streaming.start (stdout p)))));;
     mret (Streaming.extract_response_streaming (stdout p) (Some (stderr p))))
    (fun e => if Py.is_Exception e then Some (mret (failed e)) else None).

(** [save_conversation]: the file it writes, named and dated by the clock,
    is outside the model. *)
Definition save_conversation : M unit :=
  Sys.now;; Sys.now;;
  Sys.say "Conversation saved";;
  _ ← Sys.input;
  mret tt.

(** The branch of the loop for an input that starts with a slash. *)
Definition command (user_input : text) : M ctl :=
  let command := Advanced.command_word user_input in
  let args := Advanced.command_args user_input in
  if Str.eqb command (txt "/exit") then
    Sys.say "Goodbye! Thanks for chatting!";; mret Break
  else
    (if Str.eqb command (txt "/help") then Advanced.show_help;; print_banner
     else if Str.eqb command (txt "/settings") then
       Advanced.change_settings py_float py_int str_float;; print_banner
     else if Str.eqb command (txt "/clear") then
       Sys.update (Advanced.set_history []);; print_banner;;
       Sys.say "Conversation cleared!"
     else if Str.eqb command (txt "/save") then save_conversation;; print_banner
     else if Str.eqb command (txt "/system") then
       if Str.nonempty args
       then Sys.update (Advanced.set_system_prompt args);;
            Sys.say "System prompt updated!"
       else c ← Sys.this; Sys.print (Line (txt "Current: " ++ Advanced.system_prompt c))
     else if Str.eqb command (txt "/temp") then
       match py_float args with
       | Some x =>
           Sys.update (fun c => Advanced.set_settings
                                  (<["temperature" := Advanced.VFloat x]> (Advanced.settings c)) c);;
           Sys.print (Line (txt "Temperature set to " ++ str_float x))
       | None => Sys.say "Invalid temperature value"
       end
     else if Str.eqb command (txt "/tokens") then
       match py_int args with
       | Some n =>
           Sys.update (fun c => Advanced.set_settings
                                  (<["max_tokens" := Advanced.VInt n]> (Advanced.settings c)) c);;
           Sys.print (Line (txt "Max tokens set to " ++ str_int n))
       | None => Sys.say "Invalid token count"
       end
     else Sys.print (Line (txt "Unknown command: " ++ command)));;
    mret Continue.

(** [self.conversation_history = self.conversation_history[-20:]] when the
    transcript has more than twenty entries. *)
Definition truncate (c : BitNetStreamingChat) : BitNetStreamingChat :=
  if (20 <? length (Advanced.conversation_history c))%nat
  then Advanced.set_history (last_n 20 (Advanced.conversation_history c)) c
  else c.

(** The branch of the loop for a question. *)
Definition ask (user_input : text) : M ctl :=
  r ← generate_response_streaming user_input;
  (if Streaming.success r then
     Sys.print (Line []);;
     (if negb (Qle_bool (Streaming.tokens_per_second r) 0)
      then Sys.say "[tokens, s, tok/s]" else mret tt);;
     timestamp ← Sys.now;
     Sys.update (Advanced.append (txt "user", user_input, timestamp));;
     Sys.update (Advanced.append (txt "assistant", Streaming.response r, timestamp));;
     Sys.update truncate
   else Sys.print (Line (Streaming.response r)));;
  mret Continue.

(** One iteration of the loop of [run]. *)
Definition turn : M ctl :=
  Py.try
    (line ← Sys.input;
     let user_input := Str.strip line in
     if negb (Str.nonempty user_input) then mret Continue
     else if Str.startswith (txt "/") user_input then command user_input
     else ask user_input)
    (fun e => match e with
              | Py.EOFError => Some (Sys.say "Goodbye! Thanks for chatting!";; mret Break)
              | _ => if Py.is_Exception e
                     then Some (Sys.print (Line (txt "Error: " ++ Py.str_exn e));;
                                mret Continue)
                     else None
              end).

(** [run], cut after [n] iterations of its loop. *)
Definition run (n : nat) : M ctl :=
  print_banner;;
  Sys.say "Tip: Text will appear as it's being generated!";;
  iterate turn n.

End chat.
End StreamingChat.

(** ** [python/benchmarks/run_inference.py] *)

Module RunInference.
Section run_inference.

(** The host: [cpu_count] is [multiprocessing.cpu_count()], [windows] tells
    whether [platform.system()] is Windows and [path_exists] is
    [os.path.exists]; [str_float] is [str] on floats. *)
Context {F : Type}.
Variable str_float : F -> text.
Variable cpu_count : Z.
Variable windows : bool.
Variable path_exists : text -> bool.

(** The parsed command line, the global [args]. *)
Record args := Args {
  model : text;
  n_predict : Z;
  prompt : text;
  threads : Z;
  ctx_size : Z;
  temperature : F;
  conversation : bool;
}.

Definition set_threads (n : Z) (a : args) : args :=
  Args (model a) (n_predict a) (prompt a) n (ctx_size a) (temperature a)
       (conversation a).

Local Abbreviation M := (Py.M (world args)).

(** [run_command]: [subprocess.run(command, check=True)], with no timeout; a
    non-zero exit status is reported and ends the script. *)
Definition run_command (command : list text) : M unit :=
  p ← Sys.subprocess_run command None None;
  if returncode p =? 0 then mret tt
  else Sys.print (CommandFailed command (returncode p));;
       Py.raise (Py.SystemExit 1).

(** [os.path.join]. *)
Definition path_join (parts : list text) : text :=
  Str.join (if windows then txt "\" else txt "/") parts.

Definition main_path : text :=
  if windows then
    let p := path_join [txt "build"; txt "bin"; txt "Release"; txt "llama-cli.exe"] in
    if path_exists p then p else path_join [txt "build"; txt "bin"; txt "llama-cli"]
  else path_join [txt "build"; txt "bin"; txt "llama-cli"].

Definition command (a : args) : list text :=
  [main_path;
   txt "-m"; model a;
   txt "-n"; str_int (n_predict a);
   txt "-t"; str_int (threads a);
   txt "-p"; prompt a;
   txt "-ngl"; txt "0";
   txt "-c"; str_int (ctx_size a);
   txt "--temp"; str_float (temperature a);
   txt "-b"; txt "1"]
  ++ (if conversation a then [txt "-cnv"] else []).

(** [min(multiprocessing.cpu_count(), 10)]. *)
Definition optimal_threads : Z := Z.min cpu_count 10.

(** The first statement of [run_inference]: the automatic thread count. *)
Definition detect_threads : M unit :=
  a ← Sys.this;
  if threads a <=? 0 then
    Sys.setenv "OMP_NUM_THREADS" (str_int optimal_threads);;
    Sys.setenv "MKL_NUM_THREADS" (str_int optimal_threads);;
    Sys.setenv "OPENBLAS_NUM_THREADS" (str_int optimal_threads);;
    Sys.update (set_threads optimal_threads)
  else mret tt.

Definition run_inference : M unit :=
  detect_threads;;
  a ← Sys.this;
  run_command (command a).

End run_inference.
End RunInference.

(** ** [python/benchmarks/run_inference_optimized.py] *)

Module RunOptimized.
Section run_inference.

(** The host: [cpu_count] is [multiprocessing.cpu_count()], [system] is
    [platform.system()] and [path_exists] is [os.path.exists]; [str_float]
    is [str] on floats and [truthy] is [bool]. *)
Context {F : Type}.
Variable str_float : F -> text.
Variable truthy : F -> bool.
Variable cpu_count : Z.
Variable system : text.
Variable path_exists : text -> bool.

(** The parsed command line, the global [args]; the three sampling options
    are [None] when they are not given. *)
Record args := Args {
  model : text;
  n_predict : Z;
  prompt : text;
  threads : Z;
  ctx_size : Z;
  temperature : F;
  conversation : bool;
  performance_mode : bool;
  top_k : option Z;
  top_p : option F;
  repeat_penalty : option F;
}.

Local Abbreviation M := (Py.M (world args)).

(** [min(multiprocessing.cpu_count(), 12)]. *)
Definition get_optimal_thread_count : Z := Z.min cpu_count 12.

(** [set_performance_env]: the variables are set in the order of the
    dictionary. *)
Definition set_performance_env : M Z :=
  let optimal_threads := get_optimal_thread_count in
  Sys.setenv "OMP_NUM_THREADS" (str_int optimal_threads);;
  Sys.setenv "MKL_NUM_THREADS" (str_int optimal_threads);;
  Sys.setenv "OPENBLAS_NUM_THREADS" (str_int optimal_threads);;
  Sys.setenv "VECLIB_MAXIMUM_THREADS" (str_int optimal_threads);;
  Sys.setenv "NUMEXPR_NUM_THREADS" (str_int optimal_threads);;
  Sys.setenv "TF_CPP_MIN_LOG_LEVEL" (txt "2");;
  Sys.setenv "OMP_PROC_BIND" (txt "true");;
  Sys.setenv "OMP_PLACES" (txt "cores");;
  mret optimal_threads.

Definition governor_probe : list text :=
  [txt "cat"; txt "/sys/devices/system/cpu/cpu0/cpufreq/scaling_governor"].

(** [check_cpu_governor]: a bare [except] around the probe, which runs
    without a timeout. *)
Definition check_cpu_governor : M unit :=
  if Str.eqb system (txt "Linux") then
    Py.try
      (p ← Sys.subprocess_run governor_probe None None;
       if returncode p =? 0 then
         let current_governor := Str.strip (stdout p) in
         if negb (Str.eqb current_governor (txt "performance")) then
           Sys.print (Line (txt "Tip: CPU governor is '" ++ current_governor
                            ++ txt "'. For best performance, run:"));;
           Sys.say "   sudo cpupower frequency-set -g performance";;
           Sys.print (Line [])
         else mret tt
       else mret tt)
      (fun _ => Some (mret tt))
  else mret tt.

(** [run_command], as in [run_inference.py]. *)
Definition run_command (command : list text) : M unit :=
  p ← Sys.subprocess_run command None None;
  if returncode p =? 0 then mret tt
  else Sys.print (CommandFailed command (returncode p));;
       Py.raise (Py.SystemExit 1).

(** [os.path.join]. *)
Definition path_join (parts : list text) : text :=
  Str.join (if Str.eqb system (txt "Windows") then txt "\" else txt "/") parts.

Definition main_path : text :=
  if Str.eqb system (txt "Windows") then
    let p := path_join [txt "build"; txt "bin"; txt "Release"; txt "llama-cli.exe"] in
    if path_exists p then p else path_join [txt "build"; txt "bin"; txt "llama-cli"]
  else path_join [txt "build"; txt "bin"; txt "llama-cli"].

(** [if args.top_k:] and the like: given and not zero. *)
Definition given_int (o : option Z) : bool :=
  match o with Some n => negb (n =? 0) | None => false end.

Definition given_float (o : option F) : bool :=
  match o with Some x => truthy x | None => false end.

Definition command (a : args) (optimal_threads : Z) : list text :=
  [main_path;
   txt "-m"; model a;
   txt "-n"; str_int (n_predict a);
   txt "-t"; str_int optimal_threads;
   txt "-p"; prompt a;
   txt "-ngl"; txt "0";
   txt "-c"; str_int (ctx_size a);
   txt "--temp"; str_float (temperature a);
   txt "-b"; txt "1"]
  ++ (if performance_mode a then [txt "--no-mmap"; txt "--keep"; txt "-1"] else [])
  ++ (if conversation a then [txt "-cnv"] else [])
  ++ (if given_int (top_k a)
      then [txt "--top-k"; from_option str_int [] (top_k a)] else [])
  ++ (if given_float (top_p a)
      then [txt "--top-p"; from_option str_float [] (top_p a)] else [])
  ++ (if given_float (repeat_penalty a)
      then [txt "--repeat-penalty"; from_option str_float [] (repeat_penalty a)]
      else []).

(** The thread count of the run: the one given when it is positive, the
    automatic one otherwise. *)
Definition choose_threads (a : args) (optimal_threads : Z) : M Z :=
  if 0 <? threads a then
    Sys.setenv "OMP_NUM_THREADS" (str_int (threads a));;
    Sys.setenv "MKL_NUM_THREADS" (str_int (threads a));;
    mret (threads a)
  else mret optimal_threads.

(** [run_inference]; the line that names the model file is printed without
    the name. *)
Definition run_inference : M unit :=
  optimal_threads ← set_performance_env;
  a ← Sys.this;
  optimal_threads ← choose_threads a optimal_threads;
  Sys.print (Line (txt "Running BitNet inference with " ++ str_int optimal_threads
                   ++ txt " threads"));;
  Sys.say "Model";;
  Sys.print (Line []);;
  check_cpu_governor;;
  run_command (command a optimal_threads).

End run_inference.
End RunOptimized.

(** ** [python/chat/chat_advanced.py]: [format_response] *)

Module Format.

(** [s.split()]: the maximal runs of characters that are not whitespace;
    [cur] is the run being read. *)
Fixpoint words_go (cur s : text) : list text :=
  match s with
  | [] => if Str.nonempty cur then [cur] else []
  | c :: s' =>
      if Char.isspace c
      then (if Str.nonempty cur then [cur] else []) ++ words_go [] s'
      else words_go (cur ++ [c]) s'
  end.

Definition words (s : text) : list text := words_go [] s.

(** The variables of the loop. *)
Record wrap := Wrap {
  lines : list text;
  current_line : list text;
  line_length : Z;
}.

(** The body of the loop over the words. *)
Definition step (st : wrap) (word : text) : wrap :=
  if 80 <? line_length st + Str.len word + 1
  then Wrap (lines st ++ [Str.join (txt " ") (current_line st)]) [word] (Str.len word)
  else Wrap (lines st) (current_line st ++ [word])
            (line_length st + Str.len word + 1).

(** The list [lines] at the end of [format_response]. *)
Definition format_lines (text : list ascii) : list (list ascii) :=
  let text := Str.join (txt " ") (words text) in
  let st := fold_left step (words text) (Wrap [] [] 0) in
  match current_line st with
  | [] => lines st
  | _ => lines st ++ [Str.join (txt " ") (current_line st)]
  end.

Definition format_response (text : list ascii) : list ascii :=
  Str.join [NL] (format_lines text).

End Format.

(** ** Concrete hosts, used in the examples

    Floats are read and shown as rationals written in decimal; this stands
    in for Python's floats on the unsigned numerals the examples use. *)

Module Example.

Definition numeral (s : text) : bool :=
  Str.nonempty s && forallb Char.isdecimal s.

Definition py_int (s : text) : option Z :=
  if numeral s then Some (Qnum (Decimal.float s)) else None.

Definition py_float (s : text) : option Q :=
  match Str.split (txt ".") s with
  | [whole] => if numeral whole then Some (Decimal.float s) else None
  | [whole; frac] =>
      if numeral whole && numeral frac then Some (Decimal.float s) else None
  | _ => None
  end.

Definition literal (q : Q) : Q := q.

Definition str_float (q : Q) : text :=
  str_int (Qnum q) ++ txt "/" ++ str_int (Zpos (Qden q)).

(** A terminal on which [lines] will be typed and an engine whose every run
    behaves as [b]. *)
Definition host {Obj} (o : Obj) (lines : list text) (b : behaviour) : world Obj :=
  World o lines [] (fun _ => b) [] (fun _ => txt "12:00:00") 0 ∅.

(** An engine that answers [ok] within a second. *)
Definition answers : behaviour := Exits 1 0 (txt "Assistant: ok") [].

Definition blank : Advanced.BitNetChatAdvanced (F := Q) :=
  Advanced.Chat [] [] [] ∅ [].

(** A session of [chat_advanced.py] in which eleven questions are asked. *)
Definition eleven_questions : world (Advanced.BitNetChatAdvanced (F := Q)) :=
  Py.state
    ((Advanced.init literal (txt "model.gguf");;
      Advanced.run py_float py_int literal str_float 11)
       (host blank (replicate 11 (txt "hi")) answers)).

(** A session of [chat_advanced.py], started, with [lines] to be typed. *)
Definition advanced_session (lines : list text) (b : behaviour)
    : world (Advanced.BitNetChatAdvanced (F := Q)) :=
  Py.state (Advanced.init literal (txt "model.gguf") (host blank lines b)).


(** A session of [chat.py] in which twelve questions are asked. *)
Definition twelve_questions : world Basic.BitNetChat :=
  Py.state
    ((Basic.init (txt "model.gguf");; Basic.run 12)
       (host (Basic.Chat [] [] [] []) (replicate 12 (txt "hi")) answers)).

(** The output of the end-to-end scenario of the specification. *)
Definition paris : text :=
  txt "...Assistant: Paris is the capital.
llama_perf: eval time = 10 ms / 5 tokens (2 ms per token, 50.00 tokens per second)".

(** [run_inference.py] started with its default arguments, hence with a
    thread count of 0, on the prompt [Hello]. *)
Definition default_args : RunInference.args (F := Q) :=
  RunInference.Args (txt "models/BitNet-b1.58-2B-4T/ggml-model-i2_s.gguf")
    128 (txt "Hello") 0 2048 (4 # 5) false.

End Example.

(** ** Further vocabulary of the properties *)

(** The text of a number as group 1 of the pattern reads it: digits, then
    possibly a point, then possibly more digits. *)
Definition numeral_parts (t whole point frac : text) : Prop :=
  t = whole ++ point ++ frac /\
  whole <> [] /\ forallb Char.isdecimal whole = true /\
  (point = [] \/ point = ["."%char]) /\
  forallb Char.isdecimal frac = true.

(** A computation that comes back from every state, with a value or with an
    exception that [except Exception] catches. *)
Definition tame {S A} (m : Py.M S A) : Prop :=
  forall s, match m s with
            | Py.Val _ _ => True
            | Py.Raise e _ => Py.is_Exception e = true
            | Py.Hang _ => False
            end.

(** A computation that returns a value from every state. *)
Definition total {S A} (m : Py.M S A) : Prop :=
  forall s, exists a s', m s = Py.Val a s'.

(** At most [n] typed lines are left to read. *)
Definition stdin_at_most {Obj} (n : nat) (w : world Obj) : Prop :=
  (length (stdin w) <= n)%nat.

(** A transcript of [chat.py] made of questions each followed by its
    answer. *)
Fixpoint paired (h : list Basic.entry) : bool :=
  match h with
  | [] => true
  | (asker, _) :: (answerer, _) :: h' =>
      Str.eqb asker (txt "user") && Str.eqb answerer (txt "assistant") && paired h'
  | _ => false
  end.

(** Settings in which each of the six names has a value of its kind: a float
    for the three float settings, an integer for the others. *)
Definition typed {F} (m : gmap string (Advanced.value (F := F))) : Prop :=
  forall name, name ∈ Advanced.numeric_settings ->
    match m !! Advanced.key name with
    | Some (Advanced.VFloat _) => name ∈ Advanced.float_settings
    | Some (Advanced.VInt _) => name ∉ Advanced.float_settings
    | None => False
    end.

(** The transcript of a [chat.py] object is made of pairs. *)
Definition pairs (c : Basic.BitNetChat) : Prop :=
  paired (Basic.conversation_history c) = true.

(** A value of the kind that the setting [name] holds. *)
Definition kind_ok {F} (name : text) (v : Advanced.value (F := F)) : Prop :=
  match v with
  | Advanced.VFloat _ => name ∈ Advanced.float_settings
  | Advanced.VInt _ => name ∉ Advanced.float_settings
  end.

(** The settings of a [chat_advanced.py] object are [typed]. *)
Definition kinds {F} (c : Advanced.BitNetChatAdvanced (F := F)) : Prop :=
  typed (Advanced.settings c).

(** An invariant of the world that only looks at the object, the environment
    and the launches. *)
Definition framed {Obj} (I : world Obj -> Prop) : Prop :=
  forall w w', self w' = self w -> environ w' = environ w ->
    launches w' = launches w -> I w -> I w'.

(** The text that [chat_advanced.py] passes after [-t]. *)
Definition threads_text {F} (str_float : F -> text)
    (c : Advanced.BitNetChatAdvanced (F := F)) : text :=
  Advanced.str_value str_float (Advanced.setting c "threads" (Advanced.VInt 0)).

(** The two thread variables of the environment hold the thread setting. *)
Definition synced {F} (str_float : F -> text)
    (w : world (Advanced.BitNetChatAdvanced (F := F))) : Prop :=
  environ w !! "OMP_NUM_THREADS" = Some (threads_text str_float (self w)) /\
  environ w !! "MKL_NUM_THREADS" = Some (threads_text str_float (self w)).

(** A launch of the chat scripts whose [-t] argument, the eleventh and
    twelfth word of the command, is the thread count of its environment. *)
Definition launch_agrees (l : launch) : Prop :=
  exists v, argv l !! 10%nat = Some (txt "-t") /\ argv l !! 11%nat = Some v /\
            env l !! "OMP_NUM_THREADS" = Some v /\
            env l !! "MKL_NUM_THREADS" = Some v.

(** The environment is in step with the setting, and every launch from the
    [k]-th on agrees with its environment. *)
Definition agree_from {F} (str_float : F -> text) (k : nat)
    (w : world (Advanced.BitNetChatAdvanced (F := F))) : Prop :=
  synced str_float w /\ (k <= length (launches w))%nat /\
  Forall launch_agrees (drop k (launches w)).

(** A word: not empty and without whitespace. *)
Definition solid (w : text) : Prop :=
  w <> [] /\ forallb (fun c => negb (Char.isspace c)) w = true.

(** A line of at most eighty characters. *)
Definition fits (l : text) : Prop := (length l <= 80)%nat.

(** A transcript of [chat_streaming.py] within its bound: at most twenty
    entries, the most recent of those appended, none with an empty
    message. *)
Definition tidy {F} (c : Advanced.BitNetChatAdvanced (F := F)) : Prop :=
  (length (Advanced.conversation_history c) <= 20)%nat /\
  Advanced.fifo c /\
  Forall (fun e : Advanced.entry => e.1.2 <> []) (Advanced.conversation_history c).

(** An invariant of the world that only looks at the object and the
    environment. *)
Definition steady {Obj} (I : world Obj -> Prop) : Prop :=
  forall w w', self w' = self w -> environ w' = environ w -> I w -> I w'.

(** The object and the environment are the given ones. *)
Definition settled {Obj} (o : Obj) (e : gmap string text) (w : world Obj) : Prop :=
  self w = o /\ environ w = e.

(** The environment that [set_performance_env] of
    [run_inference_optimized.py] leaves, for the automatic thread count
    [auto], and the one its [run_inference] leaves when [given] threads are
    asked for. *)
Definition tuned (auto : Z) (e : gmap string text) : gmap string text :=
  <["OMP_PLACES" := txt "cores"]>
  (<["OMP_PROC_BIND" := txt "true"]>
  (<["TF_CPP_MIN_LOG_LEVEL" := txt "2"]>
  (<["NUMEXPR_NUM_THREADS" := str_int auto]>
  (<["VECLIB_MAXIMUM_THREADS" := str_int auto]>
  (<["OPENBLAS_NUM_THREADS" := str_int auto]>
  (<["MKL_NUM_THREADS" := str_int auto]>
  (<["OMP_NUM_THREADS" := str_int auto]> e))))))).

Definition tuned_for (auto given : Z) (e : gmap string text) : gmap string text :=
  if 0 <? given
  then <["MKL_NUM_THREADS" := str_int given]>
         (<["OMP_NUM_THREADS" := str_int given]> (tuned auto e))
  else tuned auto e.


(** ** Further examples *)

Module Sample.

(** [run_inference_optimized.py] started on the prompt [Hello] with four
    threads asked for. *)
Definition optimized_args : RunOptimized.args (F := Q) :=
  RunOptimized.Args (txt "models/BitNet-b1.58-2B-4T/ggml-model-i2_s.gguf")
    128 (txt "Hello") 4 2048 (4 # 5) false false None None None.

(** A host on which nothing can be launched. *)
Definition barren {Obj} (o : Obj) : world Obj :=
  Example.host o [] (LaunchFails (txt "No such file or directory")).

End Sample.

(** * Properties *)

(** ** Text *)

Module StrFacts.
Import Str.

Lemma startswith_app (p s : text) : startswith p (p ++ s) = true.
Proof.
  induction p as [|a p IH]; simpl; [reflexivity|].
  unfold Char.eqb. rewrite Ascii.eqb_refl. exact IH.
Qed.

Lemma startswith_prefix (p s : text) :
  startswith p s = true -> exists rest, s = p ++ rest.
Proof.
  revert s. induction p as [|a p IH]; intros s H.
  - exists s. reflexivity.
  - destruct s as [|b s]; simpl in H; [discriminate|].
    apply andb_prop in H as [Hab Hp].
    apply Ascii.eqb_eq in Hab. subst b.
    destruct (IH _ Hp) as [rest ->]. exists rest. reflexivity.
Qed.

Lemma startswith_weaken (p s rest : text) :
  startswith p s = true -> startswith p (s ++ rest) = true.
Proof.
  intros H. destruct (startswith_prefix _ _ H) as [r ->].
  rewrite <- app_assoc. apply startswith_app.
Qed.

Lemma contains_cons (sub : text) (c : ascii) (s : text) :
  contains sub (c :: s) = startswith sub (c :: s) || contains sub s.
Proof. reflexivity. Qed.

Lemma contains_app_r (sub a s : text) :
  contains sub s = true -> contains sub (a ++ s) = true.
Proof.
  intros H. induction a as [|c a IH]; [exact H|].
  simpl app. rewrite contains_cons, IH. apply orb_true_r.
Qed.

Lemma contains_app_l (sub s b : text) :
  contains sub s = true -> contains sub (s ++ b) = true.
Proof.
  induction s as [|c s IH]; intros H.
  - simpl in H. rewrite orb_false_r in H.
    destruct sub; [|discriminate]. destruct b; reflexivity.
  - rewrite contains_cons in H. simpl app. rewrite contains_cons.
    apply orb_prop in H as [H|H].
    + change (c :: s ++ b) with ((c :: s) ++ b).
      rewrite (startswith_weaken _ _ _ H). reflexivity.
    + rewrite (IH H). apply orb_true_r.
Qed.

(** A text that lacks [sub] lacks it in every part. *)
Lemma contains_false_app (sub a b : text) :
  contains sub (a ++ b) = false -> contains sub a = false /\ contains sub b = false.
Proof.
  intros H. split.
  - destruct (contains sub a) eqn:E; [|reflexivity].
    rewrite (contains_app_l _ _ b E) in H. discriminate.
  - destruct (contains sub b) eqn:E; [|reflexivity].
    rewrite (contains_app_r _ a _ E) in H. discriminate.
Qed.

Lemma occurrences_zero (sub s : text) :
  occurrences sub s = 0%nat <-> contains sub s = false.
Proof.
  induction s as [|c s IH]; simpl.
  - destruct (startswith sub []); simpl; split; (discriminate || reflexivity).
  - destruct (startswith sub (c :: s)); simpl.
    + split; discriminate.
    + exact IH.
Qed.

Lemma occurrences_startswith (sub s : text) :
  startswith sub s = true -> (1 <= occurrences sub s)%nat.
Proof. intros H. destruct s; simpl occurrences; rewrite H; lia. Qed.

Lemma occurrences_here (sub pre rest : text) :
  (1 <= occurrences sub (pre ++ sub ++ rest))%nat.
Proof.
  induction pre as [|c pre IH].
  - simpl app. apply occurrences_startswith. apply startswith_app.
  - simpl. lia.
Qed.

Lemma rfind_cons (sub : text) (c : ascii) (s : text) :
  rfind sub (c :: s) =
  if 0 <=? rfind sub s then rfind sub s + 1
  else if startswith sub (c :: s) then 0 else -1.
Proof. reflexivity. Qed.

Lemma find_cons (sub : text) (c : ascii) (s : text) :
  find sub (c :: s) =
  if startswith sub (c :: s) then 0
  else if find sub s <? 0 then -1 else find sub s + 1.
Proof. reflexivity. Qed.

Lemma occurrences_cons (sub : text) (c : ascii) (s : text) :
  occurrences sub (c :: s) =
  ((if startswith sub (c :: s) then 1 else 0) + occurrences sub s)%nat.
Proof. reflexivity. Qed.

Lemma rfind_absent (sub s : text) :
  contains sub s = false -> rfind sub s = -1.
Proof.
  induction s as [|c s IH]; intros H.
  - simpl in H. rewrite orb_false_r in H. simpl. rewrite H. reflexivity.
  - rewrite contains_cons in H. apply orb_false_elim in H as [H1 H2].
    rewrite rfind_cons, (IH H2), H1. reflexivity.
Qed.

Lemma find_absent (sub s : text) :
  contains sub s = false -> find sub s = -1.
Proof.
  induction s as [|c s IH]; intros H.
  - simpl in H. rewrite orb_false_r in H. simpl. rewrite H. reflexivity.
  - rewrite contains_cons in H. apply orb_false_elim in H as [H1 H2].
    rewrite find_cons, (IH H2), H1. reflexivity.
Qed.

(** With a single occurrence, both searches give its position. *)
Lemma single_occurrence (sub pre rest : text) :
  sub <> [] ->
  occurrences sub (pre ++ sub ++ rest) = 1%nat ->
  rfind sub (pre ++ sub ++ rest) = Z.of_nat (length pre) /\
  find sub (pre ++ sub ++ rest) = Z.of_nat (length pre).
Proof.
  intros Hne. induction pre as [|c pre IH]; intros H.
  - simpl app in *. destruct sub as [|a sub]; [congruence|].
    change ((a :: sub) ++ rest) with (a :: (sub ++ rest)) in *.
    assert (Hs : startswith (a :: sub) (a :: (sub ++ rest)) = true)
      by apply (startswith_app (a :: sub) rest).
    rewrite occurrences_cons, Hs in H.
    assert (H0 : contains (a :: sub) (sub ++ rest) = false)
      by (apply occurrences_zero; lia).
    split.
    + rewrite rfind_cons, (rfind_absent _ _ H0), Hs. reflexivity.
    + rewrite find_cons, Hs. reflexivity.
  - change ((c :: pre) ++ sub ++ rest) with (c :: (pre ++ sub ++ rest)) in *.
    pose proof (occurrences_here sub pre rest) as Hge.
    rewrite occurrences_cons in H.
    destruct (startswith sub (c :: (pre ++ sub ++ rest))) eqn:Hs; [lia|].
    simpl in H. destruct (IH H) as [IHr IHf].
    split.
    + rewrite rfind_cons, IHr.
      destruct (0 <=? Z.of_nat (length pre)) eqn:E; [|lia].
      simpl length. lia.
    + rewrite find_cons, Hs, IHf.
      destruct (Z.of_nat (length pre) <? 0) eqn:E; [lia|].
      simpl length. lia.
Qed.

Lemma slice_from_app (pre s : text) :
  slice_from (Z.of_nat (length pre)) (pre ++ s) = s.
Proof.
  unfold slice_from.
  destruct (Z.leb_spec 0 (Z.of_nat (length pre))) as [_|E]; [|lia].
  rewrite Nat2Z.id. apply drop_app_length.
Qed.

(** [lstrip] drops a prefix, [rstrip] a suffix. *)
Lemma lstrip_suffix (s : text) : exists ws, s = ws ++ lstrip s.
Proof.
  induction s as [|c s [ws IH]]; [exists []; reflexivity|].
  simpl. destruct (Char.isspace c).
  - exists (c :: ws). simpl. f_equal. exact IH.
  - exists []. reflexivity.
Qed.

Lemma rstrip_prefix (s : text) : exists ws, s = rstrip s ++ ws.
Proof.
  unfold rstrip. destruct (lstrip_suffix (rev s)) as [ws H].
  exists (rev ws). rewrite <- rev_app_distr, <- H, rev_involutive. reflexivity.
Qed.

Lemma strip_middle (s : text) : exists a b, s = a ++ strip s ++ b.
Proof.
  destruct (lstrip_suffix s) as [a Ha].
  destruct (rstrip_prefix (lstrip s)) as [b Hb].
  exists a, b. unfold strip. rewrite <- Hb. exact Ha.
Qed.

Lemma lstrip_idempotent (s : text) : lstrip (lstrip s) = lstrip s.
Proof.
  induction s as [|c s IH]; [reflexivity|].
  simpl. destruct (Char.isspace c) eqn:E; [exact IH|].
  simpl. rewrite E. reflexivity.
Qed.

Lemma lstrip_fixed (c : ascii) (s : text) :
  Char.isspace c = false -> lstrip (c :: s) = c :: s.
Proof. intros E. simpl. rewrite E. reflexivity. Qed.

Lemma lstrip_snoc (l : text) (c : ascii) :
  Char.isspace c = false -> exists u, lstrip (l ++ [c]) = u ++ [c].
Proof.
  intros E. induction l as [|a l [u IH]].
  - exists []. simpl. rewrite E. reflexivity.
  - simpl. destruct (Char.isspace a).
    + exists u. exact IH.
    + exists (a :: l). reflexivity.
Qed.

Lemma rstrip_idempotent (s : text) : rstrip (rstrip s) = rstrip s.
Proof.
  unfold rstrip. rewrite rev_involutive, lstrip_idempotent. reflexivity.
Qed.

Lemma lstrip_rstrip_lstrip (s : text) :
  lstrip (rstrip (lstrip s)) = rstrip (lstrip s).
Proof.
  destruct (lstrip s) as [|c t] eqn:E; [reflexivity|].
  assert (Hc : Char.isspace c = false).
  { clear -E. induction s as [|a s IH]; [discriminate|].
    simpl in E. destruct (Char.isspace a) eqn:Ea; [exact (IH E)|].
    injection E as -> _. exact Ea. }
  unfold rstrip. simpl rev.
  destruct (lstrip_snoc (rev t) c Hc) as [u ->].
  rewrite rev_app_distr. simpl. rewrite Hc. reflexivity.
Qed.

Lemma strip_idempotent (s : text) : strip (strip s) = strip s.
Proof.
  unfold strip. rewrite lstrip_rstrip_lstrip. apply rstrip_idempotent.
Qed.

Lemma contains_strip (sub s : text) :
  contains sub s = false -> contains sub (strip s) = false.
Proof.
  intros H. destruct (strip_middle s) as (a & b & E).
  rewrite E in H. apply contains_false_app in H as [_ H].
  apply contains_false_app in H as [H _]. exact H.
Qed.

Lemma printable_only_id (s : text) :
  forallb keep s = true -> printable_only s = s.
Proof.
  unfold printable_only. induction s as [|c s IH]; intros H; [reflexivity|].
  simpl in H. apply andb_prop in H as [Hc Hs].
  simpl. rewrite Hc, (IH Hs). reflexivity.
Qed.

Lemma forallb_strip (f : ascii -> bool) (s : text) :
  forallb f s = true -> forallb f (strip s) = true.
Proof.
  intros H. destruct (strip_middle s) as (a & b & E).
  rewrite E in H. rewrite !forallb_app in H.
  apply andb_prop in H as [_ H]. apply andb_prop in H as [H _]. exact H.
Qed.

End StrFacts.

(** ** The embedding on small inputs *)

Module Checks.

Example split_keeps_empty_pieces :
  Str.split (txt ":") (txt "a::") = [txt "a"; []; []].
Proof. reflexivity. Qed.

Example strip_both_ends :
  Str.strip (TAB :: txt " hi there " ++ [NL]) = txt "hi there".
Proof. reflexivity. Qed.

Example rfind_last_find_first :
  Str.rfind (txt "ab") (txt "xxabyyab") = 6 /\
  Str.find (txt "ab") (txt "xxabyyab") = 2 /\
  Str.find (txt "q") (txt "xxabyyab") = -1.
Proof. repeat split. Qed.

Example search_skips_other_numbers :
  Re.search perf_pattern (txt "10 ms / 5 tokens (2 ms per token, 50.00 tokens per second)")
  = Some [txt "50.00"].
Proof. reflexivity. Qed.

Example findall_left_to_right :
  Re.findall perf_pattern
    (txt "a 1.5 tokens per second b 22  tokens per second 3.tokens per second")
  = [txt "1.5"; txt "22"; txt "3."].
Proof. reflexivity. Qed.

Example float_of_numerals :
  Decimal.float (txt "50.00") = 50%Q /\ Decimal.float (txt "3.") = 3%Q /\
  Decimal.float (txt "12.5") = (25 # 2)%Q.
Proof. repeat split. Qed.

(** The streaming extractor on the scenario: the line in which the
    diagnostic prefix was met is still added after the loop. *)
Example streaming_on_paris :
  Streaming.response (Streaming.extract_response_streaming Example.paris (Some []))
  = txt "Paris is the capital." ++ [NL] ++ txt "llama_".
Proof. vm_compute. reflexivity. Qed.

Example chat_extracts_paris :
  Basic.extract (Completed 0 Example.paris [])
  = (txt "Paris is the capital.", txt " [50.00 tok/s]").
Proof. vm_compute. reflexivity. Qed.

(** Twelve questions to [chat.py]: twenty-four entries appended, the last
    twenty kept. *)
Example chat_keeps_twenty :
  let c := self Example.twelve_questions in
  length (Basic.appended c) = 24%nat /\
  Basic.conversation_history c = last_n 20 (Basic.appended c).
Proof. vm_compute. split; reflexivity. Qed.

Example default_strategy : Parallel.plan "unknown" = (3, 4)%nat.
Proof. reflexivity. Qed.

End Checks.

(** ** The response extractors *)

Lemma cut_at_absent (marker response : text) :
  Str.contains marker response = false -> cut_at marker response = response.
Proof. intros H. unfold cut_at. rewrite H. reflexivity. Qed.

Lemma clean_technical_absent (markers : list text) (response : text) :
  forallb (fun marker => negb (Str.contains marker response)) markers = true ->
  clean_technical markers response = response.
Proof.
  unfold clean_technical. induction markers as [|m ms IH]; intros H; [reflexivity|].
  simpl in H. apply andb_prop in H as [Hm Hms].
  simpl. rewrite cut_at_absent; [exact (IH Hms)|].
  destruct (Str.contains m response); [discriminate|reflexivity].
Qed.

Lemma markers_absent_strip (markers : list text) (body : text) :
  forallb (fun marker => negb (Str.contains marker body)) markers = true ->
  forallb (fun marker => negb (Str.contains marker (Str.strip body))) markers = true.
Proof.
  induction markers as [|m ms IH]; intros H; [reflexivity|].
  simpl in *. apply andb_prop in H as [Hm Hms].
  rewrite (IH Hms), andb_true_r.
  rewrite StrFacts.contains_strip; [reflexivity|].
  destruct (Str.contains m body); [discriminate|reflexivity].
Qed.

Lemma assistant_marker_nonempty : assistant_marker <> [].
Proof. discriminate. Qed.

Lemma contains_of_occurrence (sub pre rest : text) :
  Str.contains sub (pre ++ sub ++ rest) = true.
Proof.
  apply StrFacts.contains_app_r.
  destruct (sub ++ rest) eqn:E.
  - destruct sub; [reflexivity|discriminate].
  - rewrite <- E. destruct (sub ++ rest) eqn:E'; [discriminate|].
    rewrite StrFacts.contains_cons, <- E', StrFacts.startswith_app. reflexivity.
Qed.

(** The reading loop of the streaming extractor stays in its first state for
    as long as the delimiter has not been read in full. *)
Lemma read_loop_not_found (stream pre : text) :
  Str.contains assistant_marker (pre ++ stream) = false ->
  Streaming.read_loop (Streaming.Scan false [] pre false 0 []) stream =
  (Streaming.Scan false [] (pre ++ stream) false 0 [], []).
Proof.
  revert pre. induction stream as [|c stream IH]; intros pre H.
  - rewrite app_nil_r. reflexivity.
  - assert (Hpre : Str.contains assistant_marker (pre ++ [c]) = false).
    { replace (pre ++ c :: stream) with ((pre ++ [c]) ++ stream) in H
        by (rewrite <- app_assoc; reflexivity).
      apply StrFacts.contains_false_app in H as [H _]. exact H. }
    unfold Streaming.read_loop; fold Streaming.read_loop.
    unfold Streaming.add_char, Streaming.find_assistant.
    cbn [Streaming.assistant_found Streaming.current_line
         Streaming.response_started Streaming.response_lines
         Streaming.tokens_count Streaming.printed negb andb].
    rewrite Hpre.
    cbn [Streaming.response_started].
    rewrite IH; [|rewrite <- app_assoc; exact H].
    rewrite <- app_assoc. reflexivity.
Qed.

(** C5.  On the output of the end-to-end scenario, with exit code 0 and
    nothing on the error stream, [generate_response] of [chat_advanced.py]
    extracts the response [Paris is the capital.] and the speed 50. *)
Theorem paris_scenario :
  Example.paris =
    txt "...Assistant: Paris is the capital." ++ [NL] ++
    txt "llama_perf: eval time = 10 ms / 5 tokens (2 ms per token, 50.00 tokens per second)" /\
  Advanced.extract (Completed 0 Example.paris []) =
  Advanced.Result (txt "Paris is the capital.") (Some 50%Q) true.
Proof. split; vm_compute; reflexivity. Qed.

(** C1.  With two speeds in the captured output, [generate_response] of
    [chat_advanced.py] reports the first one, and [run_single_benchmark] of
    [benchmark_optimized.py] the last one. *)
Theorem first_speed_reported :
  let p := Completed 0 (txt "Assistant: ok")
             (txt "prompt eval: 10.00 tokens per second
eval: 20.00 tokens per second") in
  Advanced.tokens_per_second (Advanced.extract p) = Some 10%Q /\
  Benchmark.tokens_per_sec (Benchmark.parse p) = 20%Q.
Proof. vm_compute. split; reflexivity. Qed.

(** C2, as stated, fails for [chat_advanced.py]: without the delimiter the
    response is a fixed apology, not the empty text. *)
Lemma apology_not_empty :
  Str.contains assistant_marker (txt "hello") = false /\
  Advanced.response (Advanced.extract (Completed 0 (txt "hello") [])) <> [].
Proof. split; [reflexivity | vm_compute; discriminate]. Qed.

(** C2, amended.  When the delimiter never appears in the output, the
    streaming extractor returns the empty response with [success] false;
    [generate_response] of [chat_advanced.py] returns [success] false too, its
    response being the fixed apology when the exit code is 0. *)
Theorem no_delimiter_no_success (out : text) (err : option text) (rc : Z) (err' : text) :
  Str.contains assistant_marker out = false ->
  Streaming.response (Streaming.extract_response_streaming out err) = [] /\
  Streaming.success (Streaming.extract_response_streaming out err) = false /\
  Advanced.success (Advanced.extract (Completed rc out err')) = false /\
  (rc = 0 ->
   Advanced.response (Advanced.extract (Completed rc out err')) =
   txt "I couldn't generate a proper response. Please try again.").
Proof.
  intros H.
  unfold Streaming.extract_response_streaming, Streaming.start.
  rewrite (read_loop_not_found out [] H).
  cbn [Streaming.response_started Streaming.response_lines andb].
  rewrite andb_false_r.
  repeat split.
  - unfold Advanced.extract. cbn [returncode stdout stderr].
    rewrite H. destruct (rc =? 0); reflexivity.
  - intros ->. unfold Advanced.extract. cbn [returncode stdout stderr].
    rewrite H. reflexivity.
Qed.

Lemma no_delimiter_no_success_witness :
  Str.contains assistant_marker (txt "loading model") = false /\
  Streaming.response
    (Streaming.extract_response_streaming (txt "loading model") (Some [])) = [].
Proof.
  split; [reflexivity|].
  apply (no_delimiter_no_success (txt "loading model") (Some []) 0 []).
  reflexivity.
Defined.

(** C4, as stated, fails: printable text that contains one of the prefixes of
    the engine's diagnostic lines is cut there. *)
Lemma marker_in_text_cuts_response :
  Str.occurrences assistant_marker (txt "Assistant: the main: point") = 1%nat /\
  forallb Str.keep (txt " the main: point") = true /\
  Advanced.response
    (Advanced.extract (Completed 0 (txt "Assistant: the main: point") []))
  <> Str.strip (txt " the main: point").
Proof. repeat split; [vm_compute; discriminate]. Qed.

(** C4, amended.  When the output contains the delimiter exactly once,
    followed by printable text in which none of the diagnostic prefixes
    occurs, [generate_response] of [chat_advanced.py] and of [chat.py] return
    exactly the text after the delimiter, trimmed of leading and trailing
    whitespace. *)
Theorem single_delimiter_response (pre body err : text) :
  Str.occurrences assistant_marker (pre ++ assistant_marker ++ body) = 1%nat ->
  forallb Str.keep body = true ->
  forallb (fun marker => negb (Str.contains marker body)) Advanced.tech_markers = true ->
  let p := Completed 0 (pre ++ assistant_marker ++ body) err in
  Advanced.response (Advanced.extract p) = Str.strip body /\
  Advanced.success (Advanced.extract p) = true /\
  fst (Basic.extract p) = Str.strip body.
Proof.
  intros Hone Hkeep Hmark p.
  destruct (StrFacts.single_occurrence _ pre body assistant_marker_nonempty Hone)
    as [Hr Hf].
  assert (Hslice : Str.slice_from (Z.of_nat (length pre) + Str.len assistant_marker)
                     (pre ++ assistant_marker ++ body) = body).
  { unfold Str.len. rewrite <- Nat2Z.inj_add, <- length_app, app_assoc.
    apply StrFacts.slice_from_app. }
  pose proof (markers_absent_strip _ _ Hmark) as Hmark'.
  assert (HmarkB : forallb (fun marker => negb (Str.contains marker (Str.strip body)))
                     Basic.tech_markers = true).
  { unfold Advanced.tech_markers in Hmark'. cbn [forallb] in Hmark'.
    unfold Basic.tech_markers. cbn [forallb].
    repeat (apply andb_prop in Hmark' as [? Hmark']).
    repeat (apply andb_true_intro; split); assumption. }
  assert (Hclean : Str.printable_only (Str.strip body) = Str.strip body)
    by (apply StrFacts.printable_only_id, StrFacts.forallb_strip, Hkeep).
  unfold p, Advanced.extract, Basic.extract. cbn [returncode stdout stderr].
  rewrite contains_of_occurrence, Hr, Hf, Hslice.
  change (0 =? 0) with true. cbv iota.
  rewrite (clean_technical_absent _ _ Hmark'), (clean_technical_absent _ _ HmarkB).
  rewrite StrFacts.strip_idempotent, Hclean.
  cbn [Advanced.response Advanced.success].
  rewrite StrFacts.strip_idempotent.
  repeat split.
  destruct (Z.ltb_spec (Str.len assistant_marker - 1)
              (Z.of_nat (length pre) + Str.len assistant_marker)) as [_|E].
  - reflexivity.
  - unfold Str.len in E. lia.
Qed.

Lemma single_delimiter_response_witness :
  Str.occurrences assistant_marker
    (txt "User: hi" ++ assistant_marker ++ txt " Hello there. ") = 1%nat /\
  Advanced.response
    (Advanced.extract
       (Completed 0 (txt "User: hi" ++ assistant_marker ++ txt " Hello there. ") []))
  = txt "Hello there.".
Proof.
  split; [reflexivity|].
  apply (single_delimiter_response (txt "User: hi") (txt " Hello there. ") []);
    reflexivity.
Defined.

(** C10.  For every output of the process, the streaming extractor reports
    success exactly when the response it returns is not empty. *)
Theorem streaming_success_iff_response (out : text) (err : option text) :
  Streaming.success (Streaming.extract_response_streaming out err) = true <->
  Streaming.response (Streaming.extract_response_streaming out err) <> [].
Proof.
  unfold Streaming.extract_response_streaming.
  destruct (Streaming.read_loop Streaming.start out) as [st remaining].
  cbn [Streaming.success Streaming.response].
  destruct (Str.printable_only _); simpl; split; congruence.
Qed.

(** ** Reasoning about computations *)

Module Run.
Section run.
Context {S : Type}.

Lemma bind_val {A B} (m : Py.M S A) (k : A -> Py.M S B) (s s' : S) (a : A) :
  m s = Py.Val a s' -> (m ≫= k) s = k a s'.
Proof. intros H. unfold mbind, M_bind, Py.bind. rewrite H. reflexivity. Qed.

Lemma bind_raise {A B} (m : Py.M S A) (k : A -> Py.M S B) (s s' : S) (e : Py.exn) :
  m s = Py.Raise e s' -> (m ≫= k) s = Py.Raise e s'.
Proof. intros H. unfold mbind, M_bind, Py.bind. rewrite H. reflexivity. Qed.

Lemma bind_hang {A B} (m : Py.M S A) (k : A -> Py.M S B) (s s' : S) :
  m s = Py.Hang s' -> (m ≫= k) s = Py.Hang s'.
Proof. intros H. unfold mbind, M_bind, Py.bind. rewrite H. reflexivity. Qed.

Lemma ret_val {A} (a : A) (s : S) : (mret a : Py.M S A) s = Py.Val a s.
Proof. reflexivity. Qed.

Lemma try_val {A} (m : Py.M S A) h (s s' : S) (a : A) :
  m s = Py.Val a s' -> Py.try m h s = Py.Val a s'.
Proof. intros H. unfold Py.try. rewrite H. reflexivity. Qed.

Lemma try_caught {A} (m : Py.M S A) h handler (s s' : S) (e : Py.exn) :
  m s = Py.Raise e s' -> h e = Some handler -> Py.try m h s = handler s'.
Proof. intros H He. unfold Py.try. rewrite H, He. reflexivity. Qed.

Section invariant.
Variable I : S -> Prop.

Lemma preserves_ret {A} (a : A) : preserves I (mret a : Py.M S A).
Proof. intros s H. exact H. Qed.

Lemma preserves_raise {A} (e : Py.exn) : preserves I (Py.raise e : Py.M S A).
Proof. intros s H. exact H. Qed.

Lemma preserves_bind {A B} (m : Py.M S A) (k : A -> Py.M S B) :
  preserves I m -> (forall a, preserves I (k a)) -> preserves I (m ≫= k).
Proof.
  intros Hm Hk s H. specialize (Hm s H).
  unfold mbind, M_bind, Py.bind.
  destruct (m s) as [a s'|e s'|s']; simpl in *; [apply Hk|..]; exact Hm.
Qed.

Lemma preserves_try {A} (m : Py.M S A) (h : Py.exn -> option (Py.M S A)) :
  preserves I m ->
  (forall e handler, h e = Some handler -> preserves I handler) ->
  preserves I (Py.try m h).
Proof.
  intros Hm Hh s H. specialize (Hm s H). unfold Py.try.
  destruct (m s) as [a s'|e s'|s']; simpl in *; try exact Hm.
  destruct (h e) as [handler|] eqn:E; [|exact Hm].
  exact (Hh e handler E s' Hm).
Qed.

Lemma preserves_modify (f : S -> S) :
  (forall s, I s -> I (f s)) -> preserves I (Py.modify f).
Proof. intros Hf s H. exact (Hf s H). Qed.

Lemma preserves_iterate (body : Py.M S ctl) (n : nat) :
  preserves I body -> preserves I (iterate body n).
Proof.
  intros Hb. induction n as [|n IH]; [apply preserves_ret|].
  simpl. apply preserves_bind; [exact Hb|].
  intros [|]; [exact IH | apply preserves_ret].
Qed.

End invariant.

Lemma returns_ret {A} (a : A) : always_returns (mret a : Py.M S A).
Proof. intros s. reflexivity. Qed.

Lemma returns_raise {A} (e : Py.exn) : always_returns (Py.raise e : Py.M S A).
Proof. intros s. reflexivity. Qed.

Lemma returns_modify (f : S -> S) : always_returns (Py.modify f).
Proof. intros s. reflexivity. Qed.

Lemma returns_bind {A B} (m : Py.M S A) (k : A -> Py.M S B) :
  always_returns m -> (forall a, always_returns (k a)) -> always_returns (m ≫= k).
Proof.
  intros Hm Hk s. specialize (Hm s). unfold mbind, M_bind, Py.bind.
  destruct (m s) as [a s'|e s'|s']; [apply Hk|reflexivity|discriminate].
Qed.

Lemma returns_try {A} (m : Py.M S A) (h : Py.exn -> option (Py.M S A)) :
  always_returns m ->
  (forall e handler, h e = Some handler -> always_returns handler) ->
  always_returns (Py.try m h).
Proof.
  intros Hm Hh s. specialize (Hm s). unfold Py.try.
  destruct (m s) as [a s'|e s'|s']; [reflexivity| |discriminate].
  destruct (h e) as [handler|] eqn:E; [|reflexivity].
  exact (Hh e handler E s').
Qed.

Lemma returns_iterate (body : Py.M S ctl) (n : nat) :
  always_returns body -> always_returns (iterate body n).
Proof.
  intros Hb. induction n as [|n IH]; [apply returns_ret|].
  simpl. apply returns_bind; [exact Hb|].
  intros [|]; [exact IH | apply returns_ret].
Qed.

End run.

(** A property of the object alone is kept by everything that only touches
    the terminal, the clock, the environment or the engine. *)
Section world.
Context {Obj : Type}.
Variable inv : Obj -> Prop.

Lemma keeps_input : preserves (on_self inv) (@Sys.input Obj).
Proof. intros w H. unfold Sys.input. destruct (stdin w); exact H. Qed.

Lemma keeps_print (m : msg) : preserves (on_self inv) (@Sys.print Obj m).
Proof. intros w H. exact H. Qed.

Lemma keeps_say (s : string) : preserves (on_self inv) (@Sys.say Obj s).
Proof. intros w H. exact H. Qed.

Lemma keeps_print_all (ms : list msg) : preserves (on_self inv) (@Sys.print_all Obj ms).
Proof. intros w H. exact H. Qed.

Lemma keeps_now : preserves (on_self inv) (@Sys.now Obj).
Proof. intros w H. exact H. Qed.

Lemma keeps_setenv (k : string) (v : text) : preserves (on_self inv) (@Sys.setenv Obj k v).
Proof. intros w H. exact H. Qed.

Lemma keeps_environ_copy : preserves (on_self inv) (@Sys.environ_copy Obj).
Proof. intros w H. exact H. Qed.

Lemma keeps_this : preserves (on_self inv) (@Sys.this Obj).
Proof. intros w H. exact H. Qed.

Lemma keeps_subprocess_run cmd t e :
  preserves (on_self inv) (@Sys.subprocess_run Obj cmd t e).
Proof.
  intros w H. unfold Sys.subprocess_run.
  destruct (engine w _) as [seconds rc out err| |what]; [|destruct t|]; try exact H.
  destruct t as [t|]; [destruct (t <? seconds)%nat|]; exact H.
Qed.

Lemma keeps_update (f : Obj -> Obj) :
  (forall c, inv c -> inv (f c)) -> preserves (on_self inv) (Sys.update f).
Proof. intros Hf w H. exact (Hf _ H). Qed.

End world.

Section system.
Context {Obj : Type}.

Lemma returns_input : always_returns (@Sys.input Obj).
Proof. intros w. unfold Sys.input. destruct (stdin w); reflexivity. Qed.

Lemma returns_print (m : msg) : always_returns (@Sys.print Obj m).
Proof. intros w. reflexivity. Qed.

Lemma returns_say (s : string) : always_returns (@Sys.say Obj s).
Proof. intros w. reflexivity. Qed.

Lemma returns_now : always_returns (@Sys.now Obj).
Proof. intros w. reflexivity. Qed.

Lemma returns_setenv (k : string) (v : text) : always_returns (@Sys.setenv Obj k v).
Proof. intros w. reflexivity. Qed.

Lemma returns_environ_copy : always_returns (@Sys.environ_copy Obj).
Proof. intros w. reflexivity. Qed.

Lemma returns_this : always_returns (@Sys.this Obj).
Proof. intros w. reflexivity. Qed.

Lemma returns_update (f : Obj -> Obj) : always_returns (Sys.update f).
Proof. intros w. reflexivity. Qed.

(** With a timeout, [subprocess.run] comes back whatever the process does. *)
Lemma returns_subprocess_run cmd (t : nat) e :
  always_returns (@Sys.subprocess_run Obj cmd (Some t) e).
Proof.
  intros w. unfold Sys.subprocess_run.
  destruct (engine w _) as [seconds rc out err| |what]; try reflexivity.
  destruct (t <? seconds)%nat; reflexivity.
Qed.


(** When the process exits within the timeout, its output is returned. *)
Lemma subprocess_run_completed (w : world Obj) cmd (t : nat) e seconds rc out err :
  engine w (length (launches w)) = Exits seconds rc out err ->
  (seconds <= t)%nat ->
  Sys.subprocess_run cmd (Some t) e w =
  Py.Val (Completed rc out err)
    (Sys.set_launches
       (launches w ++ [Launch cmd (Some t) (default (environ w) e)]) w).
Proof.
  intros H Hle. unfold Sys.subprocess_run. rewrite H.
  destruct (Nat.ltb_spec t seconds); [lia|reflexivity].
Qed.

(** Without a timeout, a process that never exits is waited for forever. *)
Lemma subprocess_run_hangs (w : world Obj) cmd e :
  engine w (length (launches w)) = NeverExits ->
  Py.returns (Sys.subprocess_run cmd None e w) = false.
Proof. intros H. unfold Sys.subprocess_run. rewrite H. reflexivity. Qed.

End system.
End Run.

Create HintDb keeps.

#[global] Hint Resolve Run.preserves_ret Run.preserves_raise Run.keeps_input
  Run.keeps_print Run.keeps_say Run.keeps_print_all Run.keeps_now
  Run.keeps_setenv Run.keeps_environ_copy Run.keeps_this
  Run.keeps_subprocess_run : keeps.

Create HintDb returns.

#[global] Hint Resolve Run.returns_ret Run.returns_raise Run.returns_modify
  Run.returns_input Run.returns_print Run.returns_say Run.returns_now
  Run.returns_setenv Run.returns_environ_copy Run.returns_this
  Run.returns_update Run.returns_subprocess_run : returns.

(** Splits a computation along its binds, handlers and tests, and closes the
    primitive steps with the [keeps] hints. *)
Ltac keeps :=
  repeat first
    [ apply Run.preserves_bind; [|intros]
    | apply Run.preserves_try; [|intros ? ? ?]
    | solve [auto with keeps]
    | match goal with
      | |- preserves _ (if ?b then _ else _) => destruct b
      | |- preserves _ (match ?x with _ => _ end) => destruct x
      | |- preserves _ (let '(_, _) := ?x in _) => destruct x
      | H : (match ?e with _ => _ end) = Some _ |- _ => destruct e; simplify_eq
      | H : (if ?b then _ else _) = Some _ |- _ => destruct b; simplify_eq
      end ].

Ltac returns :=
  repeat first
    [ apply Run.returns_bind; [|intros]
    | apply Run.returns_try; [|intros ? ? ?]
    | solve [auto with returns]
    | match goal with
      | |- always_returns (if ?b then _ else _) => destruct b
      | |- always_returns (match ?x with _ => _ end) => destruct x
      | H : (match ?e with _ => _ end) = Some _ |- _ => destruct e; simplify_eq
      | H : (if ?b then _ else _) = Some _ |- _ => destruct b; simplify_eq
      end ].

(** ** The transcript of [chat.py] *)

Module BasicFacts.
Import Basic Run.

Lemma last_n_length {A} (n : nat) (l : list A) : (length (last_n n l) <= n)%nat.
Proof. unfold last_n. rewrite length_drop. lia. Qed.

Lemma truncate_bounded (c : BitNetChat) :
  conversation_history c `suffix_of` appended c -> bounded (truncate c).
Proof.
  intros Hs. unfold truncate, bounded.
  destruct (Nat.ltb_spec 20 (length (conversation_history c))) as [Hlt|Hle].
  - simpl. split; [apply last_n_length|].
    etrans; [apply suffix_drop | exact Hs].
  - split; [lia | exact Hs].
Qed.

Lemma append_suffix (e : entry) (c : BitNetChat) :
  conversation_history c `suffix_of` appended c ->
  conversation_history (append e c) `suffix_of` appended (append e c).
Proof. intros Hs. simpl. apply suffix_app, Hs. Qed.

(** Appending question and answer and truncating restores the bound. *)
Lemma keeps_record (e1 e2 : entry) :
  preserves (on_self bounded)
    (Sys.update (append e1);; Sys.update (append e2);; Sys.update truncate;;
     (mret Continue : Py.M (world BitNetChat) ctl)).
Proof.
  intros w [_ Hs]. unfold on_self. cbn.
  apply truncate_bounded, append_suffix, append_suffix, Hs.
Qed.

Lemma clear_bounded (c : BitNetChat) : bounded (set_history [] c).
Proof. split; [simpl; lia | apply suffix_nil]. Qed.

Lemma keeps_generate_response (prompt : text) :
  preserves (on_self bounded) (generate_response prompt).
Proof. unfold generate_response. keeps. Qed.

Lemma keeps_ask (user_input : text) :
  preserves (on_self bounded) (ask user_input).
Proof.
  unfold ask.
  apply preserves_bind; [keeps|intros _].
  apply preserves_bind; [apply keeps_generate_response|intros [response perf_info]].
  apply preserves_bind; [keeps|intros _].
  apply preserves_bind; [keeps|intros _].
  apply preserves_bind; [keeps|intros _].
  apply keeps_record.
Qed.

Lemma keeps_command (user_input : text) :
  preserves (on_self bounded) (command user_input).
Proof.
  unfold command, save_conversation, change_system_prompt, show_system, print_header.
  keeps; apply keeps_update; intros c Hc; try exact Hc; apply clear_bounded.
Qed.

Lemma keeps_turn : preserves (on_self bounded) turn.
Proof.
  unfold turn.
  apply preserves_bind; [keeps|intros [user_input|]]; [|keeps].
  destruct (negb _); [keeps|].
  destruct (Str.startswith _ _); [apply keeps_command | apply keeps_ask].
Qed.

Lemma keeps_run (n : nat) : preserves (on_self bounded) (run n).
Proof.
  unfold run, print_header, show_system. keeps.
  apply preserves_iterate, keeps_turn.
Qed.

Lemma init_bounded (path : text) (w : world BitNetChat) :
  on_self bounded (Py.state (init path w)).
Proof. split; [simpl; lia | apply suffix_nil]. Qed.

End BasicFacts.


(** ** Timeouts *)

Module AdvancedFacts.
Section facts.
Import Advanced Run.
Context {F : Type}.
Variable py_float : text -> option F.
Variable py_int : text -> option Z.
Variable literal : Q -> F.
Variable str_float : F -> text.

Local Abbreviation W := (world (BitNetChatAdvanced (F := F))).
Local Abbreviation generate_response := (generate_response literal str_float).
Local Abbreviation turn := (turn py_float py_int literal str_float).
Local Abbreviation command := (command py_float py_int str_float).
Local Abbreviation change_settings := (change_settings py_float py_int str_float).
Local Abbreviation cmd := (cmd literal str_float).

Lemma returns_generate_response (prompt : text) :
  always_returns (generate_response prompt).
Proof. unfold Advanced.generate_response. returns. Qed.

Lemma returns_turn : always_returns turn.
Proof.
  unfold Advanced.turn, Advanced.ask, Advanced.command, Advanced.change_settings,
    Advanced.read_value, Advanced.export_conversation, Advanced.show_help,
    Advanced.print_banner, Advanced.show_settings.
  returns; apply returns_generate_response.
Qed.

(** When the engine exits in time, [generate_response] returns what [extract]
    makes of its output. *)
Lemma generate_response_completed (prompt : text) (w : W) seconds rc out err :
  engine w (length (launches w)) = Exits seconds rc out err ->
  (seconds <= 120)%nat ->
  exists w',
    generate_response prompt w = Py.Val (extract (Completed rc out err)) w' /\
    self w' = self w.
Proof.
  intros H Hle. eexists. split.
  - unfold Advanced.generate_response.
    erewrite bind_val by reflexivity.
    erewrite try_val; [reflexivity|].
    erewrite bind_val by reflexivity.
    erewrite bind_val; cycle 1.
    { eapply subprocess_run_completed; [exact H | exact Hle]. }
    erewrite bind_val by reflexivity.
    reflexivity.
  - reflexivity.
Qed.



(** Nothing in [chat_advanced.py] removes entries but [/clear]. *)
Lemma keeps_turn_fifo : preserves (on_self fifo) turn.
Proof.
  unfold Advanced.turn, Advanced.ask, Advanced.command, Advanced.change_settings,
    Advanced.read_value, Advanced.export_conversation, Advanced.show_help,
    Advanced.print_banner, Advanced.show_settings, Advanced.generate_response.
  keeps; apply keeps_update; intros c Hc; try exact Hc;
    solve [apply suffix_nil | apply suffix_app, Hc].
Qed.

Lemma keeps_run_fifo (n : nat) :
  preserves (on_self fifo) (run py_float py_int literal str_float n).
Proof.
  unfold Advanced.run, Advanced.print_banner. keeps.
  apply preserves_iterate, keeps_turn_fifo.
Qed.

Lemma init_fifo (path : text) (w : W) :
  on_self fifo (Py.state (init literal path w)).
Proof. apply suffix_nil. Qed.

End facts.
End AdvancedFacts.

Module ParallelFacts.
Section facts.
Import Parallel Run.
Context {Obj : Type}.



End facts.
End ParallelFacts.

(** C3, as stated, fails for [chat_advanced.py], which never truncates: after
    eleven answered questions its transcript holds twenty-two entries. *)
Lemma advanced_transcript_exceeds_limit :
  length (Advanced.conversation_history (self Example.eleven_questions)) = 22%nat /\
  ~ (length (Advanced.conversation_history (self Example.eleven_questions)) <= 20)%nat.
Proof.
  assert (H : length (Advanced.conversation_history (self Example.eleven_questions))
              = 22%nat) by (vm_compute; reflexivity).
  split; [exact H | rewrite H; lia].
Qed.

(** C3, amended.  In a session of [chat.py], after every iteration of the
    loop (each appends question and answer and then truncates) the transcript
    holds at most twenty entries, and it is a suffix of the sequence of all
    entries appended so far: entries are only lost from the old end, in
    order.  In a session of [chat_advanced.py], whose loop has no truncation
    step, the transcript is a suffix of that sequence as well. *)
Theorem transcript_bounded_fifo {F : Type}
    (py_float : text -> option F) (py_int : text -> option Z)
    (literal : Q -> F) (str_float : F -> text)
    (path : text) (n : nat)
    (w : world Basic.BitNetChat) (wa : world (Advanced.BitNetChatAdvanced (F := F))) :
  let c := self (Py.state ((Basic.init path;; Basic.run n) w)) in
  let a := self (Py.state ((Advanced.init literal path;;
                            Advanced.run py_float py_int literal str_float n) wa)) in
  ((length (Basic.conversation_history c) <= 20)%nat /\
   Basic.conversation_history c `suffix_of` Basic.appended c) /\
  Advanced.conversation_history a `suffix_of` Advanced.appended a.
Proof.
  intros c a. subst c a. unfold mbind, M_bind, Py.bind. split.
  - pose proof (BasicFacts.init_bounded path w) as Hinit.
    destruct (Basic.init path w) as [[] w'|e w'|w'] eqn:E; [|discriminate E..].
    exact (BasicFacts.keeps_run n w' Hinit).
  - pose proof (AdvancedFacts.init_fifo literal path wa) as Hinit.
    destruct (Advanced.init literal path wa) as [[] w'|e w'|w'] eqn:E;
      [|discriminate E..].
    exact (AdvancedFacts.keeps_run_fifo py_float py_int literal str_float n w' Hinit).
Qed.

(** ** Settings of [chat_advanced.py] *)

Module SettingsFacts.
Section facts.
Import Advanced Run.
Context {F : Type}.
Variable py_float : text -> option F.
Variable py_int : text -> option Z.
Variable str_float : F -> text.

Local Abbreviation W := (world (BitNetChatAdvanced (F := F))).
Local Abbreviation change_settings := (change_settings py_float py_int str_float).
Local Abbreviation command := (command py_float py_int str_float).
Local Abbreviation parse_value := (parse_value py_float py_int).

(** A setting's name is none of the other words the dialogue understands. *)
Lemma numeric_name_tests (name : text) :
  name ∈ numeric_settings ->
  Str.eqb name (txt "cancel") || negb (Str.nonempty name) = false /\
  Str.eqb name (txt "system_prompt") = false.
Proof.
  unfold numeric_settings. rewrite !elem_of_cons, elem_of_nil.
  intros [->|[->|[->|[->|[->|[->|[]]]]]]]; split; reflexivity.
Qed.

(** The dialogue of [change_settings] on a value that does not parse. *)
Lemma change_settings_invalid (w : W) (name_line value_line : text)
    (rest : list text) (current : value) :
  stdin w = name_line :: value_line :: rest ->
  Str.lower (Str.strip name_line) ∈ numeric_settings ->
  settings (self w) !! key (Str.lower (Str.strip name_line)) = Some current ->
  parse_value (Str.lower (Str.strip name_line)) value_line = None ->
  let w' := Py.state (change_settings w) in
  self w' = self w /\ environ w' = environ w /\
  console w' = console w ++
    [SettingsTable;
     Line (txt "Which setting would you like to change?");
     Line (txt "(Enter setting name or 'cancel' to go back)");
     Line (txt "Current " ++ Str.lower (Str.strip name_line) ++ txt ": "
           ++ str_value str_float current);
     Line (txt "Invalid value!")].
Proof.
  intros Hin Hname Hcur Hparse.
  destruct (numeric_name_tests _ Hname) as [Hcancel Hprompt].
  set (name := Str.lower (Str.strip name_line)) in *.
  unfold Advanced.change_settings, show_settings.
  do 3 (erewrite bind_val by reflexivity).
  erewrite bind_val; cycle 1.
  { unfold Sys.input. cbn [stdin Sys.set_console]. rewrite Hin. reflexivity. }
  cbv zeta. fold name. rewrite Hcancel.
  erewrite bind_val by reflexivity.
  rewrite Hprompt.
  cbn [self Sys.set_stdin Sys.set_console]. rewrite Hcur.
  erewrite (bind_val (_ ≫= _)); cycle 1.
  { erewrite bind_val by reflexivity.
    erewrite try_caught; cycle 1.
    { erewrite bind_raise; [reflexivity|].
      unfold read_value. erewrite bind_val by reflexivity.
      rewrite Hparse. reflexivity. }
    { reflexivity. }
    reflexivity. }
  unfold mbind, M_bind, Py.bind, Sys.input.
  cbn [stdin Sys.set_stdin Sys.set_console].
  destruct rest as [|enter rest]; cbn; rewrite <- !app_assoc; repeat split.
Qed.

(** The quick command [/temp] on an argument that is not a float. *)
Lemma temp_invalid (w : W) (user_input : text) :
  command_word user_input = txt "/temp" ->
  py_float (command_args user_input) = None ->
  command user_input w =
  Py.Val Continue
    (Sys.set_console (console w ++ [Line (txt "Invalid temperature value")]) w).
Proof.
  intros Hword Hparse. unfold Advanced.command. cbv zeta.
  rewrite Hword, Hparse. reflexivity.
Qed.

(** The quick command [/tokens] on an argument that is not an integer. *)
Lemma tokens_invalid (w : W) (user_input : text) :
  command_word user_input = txt "/tokens" ->
  py_int (command_args user_input) = None ->
  command user_input w =
  Py.Val Continue
    (Sys.set_console (console w ++ [Line (txt "Invalid token count")]) w).
Proof.
  intros Hword Hparse. unfold Advanced.command. cbv zeta.
  rewrite Hword, Hparse. reflexivity.
Qed.

End facts.
End SettingsFacts.

(** C6.  In [chat_advanced.py], when the value typed for one of the six
    numeric settings does not parse as the setting's type (float for
    temperature, top_p and repeat_penalty, int for the others), the dialogue
    of [change_settings] leaves the whole object unchanged, hence that
    setting and every other one, and prints [Invalid value!]; the quick
    commands [/temp] and [/tokens] do the same with their own messages. *)
Theorem invalid_setting_rejected {F : Type}
    (py_float : text -> option F) (py_int : text -> option Z)
    (str_float : F -> text) (w : world (Advanced.BitNetChatAdvanced (F := F))) :
  (forall (name_line value_line : text) (rest : list text) (current : Advanced.value),
     stdin w = name_line :: value_line :: rest ->
     Str.lower (Str.strip name_line) ∈ Advanced.numeric_settings ->
     Advanced.settings (self w) !! Advanced.key (Str.lower (Str.strip name_line))
       = Some current ->
     Advanced.parse_value py_float py_int (Str.lower (Str.strip name_line)) value_line
       = None ->
     let w' := Py.state (Advanced.change_settings py_float py_int str_float w) in
     Advanced.settings (self w') = Advanced.settings (self w) /\
     self w' = self w /\
     last (console w') = Some (Line (txt "Invalid value!"))) /\
  (forall user_input : text,
     Advanced.command_word user_input = txt "/temp" ->
     py_float (Advanced.command_args user_input) = None ->
     let w' := Py.state (Advanced.command py_float py_int str_float user_input w) in
     Advanced.settings (self w') = Advanced.settings (self w) /\
     self w' = self w /\
     last (console w') = Some (Line (txt "Invalid temperature value"))) /\
  (forall user_input : text,
     Advanced.command_word user_input = txt "/tokens" ->
     py_int (Advanced.command_args user_input) = None ->
     let w' := Py.state (Advanced.command py_float py_int str_float user_input w) in
     Advanced.settings (self w') = Advanced.settings (self w) /\
     self w' = self w /\
     last (console w') = Some (Line (txt "Invalid token count"))).
Proof.
  split; [|split].
  - intros name_line value_line rest current Hin Hname Hcur Hparse w'.
    destruct (SettingsFacts.change_settings_invalid py_float py_int str_float
                w name_line value_line rest current Hin Hname Hcur Hparse)
      as (Hself & _ & Hconsole).
    fold w' in Hself, Hconsole.
    rewrite Hself, Hconsole. split; [reflexivity|split; [reflexivity|]].
    rewrite last_app. reflexivity.
  - intros user_input Hword Hparse w'. subst w'.
    rewrite (SettingsFacts.temp_invalid py_float py_int str_float w user_input
               Hword Hparse).
    cbn. rewrite last_snoc. repeat split.
  - intros user_input Hword Hparse w'. subst w'.
    rewrite (SettingsFacts.tokens_invalid py_float py_int str_float w user_input
               Hword Hparse).
    cbn. rewrite last_snoc. repeat split.
Qed.

Lemma invalid_setting_rejected_witness :
  let w := Example.advanced_session [txt " Temperature"; txt "hot"] Example.answers in
  Advanced.parse_value Example.py_float Example.py_int (txt "temperature") (txt "hot")
    = None /\
  Advanced.settings
    (self (Py.state
             (Advanced.change_settings Example.py_float Example.py_int
                Example.str_float w)))
  = Advanced.settings (self w).
Proof.
  intros w. split; [reflexivity|].
  apply (proj1 (invalid_setting_rejected Example.py_float Example.py_int
                  Example.str_float w)
           (txt " Temperature") (txt "hot") [] (Advanced.VFloat (7 # 10))).
  - reflexivity.
  - vm_compute. left.
  - vm_compute. reflexivity.
  - reflexivity.
Defined.


(** ** Thread counts *)

Module RunInferenceFacts.
Section facts.
Import RunInference Run.
Context {F : Type}.
Variable str_float : F -> text.
Variable cpu_count : Z.
Variable windows : bool.
Variable path_exists : text -> bool.

Local Abbreviation W := (world (args (F := F))).
Local Abbreviation command := (command str_float windows path_exists).
Local Abbreviation run_inference := (run_inference str_float cpu_count windows path_exists).
Local Abbreviation optimal_threads := (optimal_threads cpu_count).

(** However the engine ends, [run_command] has launched it once, without a
    timeout and with [os.environ]. *)
Lemma run_command_state (cmd : list text) (w : W) :
  let w' := Py.state (run_command cmd w) in
  self w' = self w /\ environ w' = environ w /\
  launches w' = launches w ++ [Launch cmd None (environ w)].
Proof.
  unfold run_command, mbind, M_bind, Py.bind, Sys.subprocess_run.
  destruct (engine w (length (launches w))) as [seconds rc out err| |what];
    cbn; [destruct (rc =? 0)|..]; cbn; repeat split.
Qed.

Lemma detect_threads_auto (w : W) :
  threads (self w) <= 0 ->
  detect_threads cpu_count w =
  Py.Val tt
    (Sys.set_self (set_threads optimal_threads (self w))
       (Sys.set_environ
          (<["OPENBLAS_NUM_THREADS" := str_int optimal_threads]>
           (<["MKL_NUM_THREADS" := str_int optimal_threads]>
            (<["OMP_NUM_THREADS" := str_int optimal_threads]> (environ w)))) w)).
Proof.
  intros H. unfold detect_threads.
  erewrite bind_val by reflexivity.
  destruct (Z.leb_spec (threads (self w)) 0) as [_|Hlt]; [|lia].
  reflexivity.
Qed.

Lemma detect_threads_given (w : W) :
  0 < threads (self w) -> detect_threads cpu_count w = Py.Val tt w.
Proof.
  intros H. unfold detect_threads.
  erewrite bind_val by reflexivity.
  destruct (Z.leb_spec (threads (self w)) 0) as [Hle|_]; [lia|].
  reflexivity.
Qed.

End facts.
End RunInferenceFacts.

(** C9.  [run_inference] with a thread count that is not positive sets the
    thread count to [min(cpu_count, 10)] and the three environment variables
    to that value, and launches the engine with that value after [-t] and
    with those variables in its environment.  With a positive thread count
    it launches the engine with that count after [-t] and leaves the
    environment as it was: a variable that was not set stays unset. *)
Theorem thread_count_detection {F : Type} (str_float : F -> text) (cpu_count : Z)
    (windows : bool) (path_exists : text -> bool)
    (w : world (RunInference.args (F := F))) :
  let w' := Py.state (RunInference.run_inference str_float cpu_count windows path_exists w) in
  let n := Z.min cpu_count 10 in
  (RunInference.threads (self w) <= 0 ->
   RunInference.threads (self w') = n /\
   environ w' !! "OMP_NUM_THREADS" = Some (str_int n) /\
   environ w' !! "MKL_NUM_THREADS" = Some (str_int n) /\
   environ w' !! "OPENBLAS_NUM_THREADS" = Some (str_int n) /\
   exists cmd,
     last (launches w') = Some (Launch cmd None (environ w')) /\
     cmd !! 5%nat = Some (txt "-t") /\ cmd !! 6%nat = Some (str_int n)) /\
  (0 < RunInference.threads (self w) ->
   RunInference.threads (self w') = RunInference.threads (self w) /\
   environ w' = environ w /\
   exists cmd,
     last (launches w') = Some (Launch cmd None (environ w)) /\
     cmd !! 5%nat = Some (txt "-t") /\
     cmd !! 6%nat = Some (str_int (RunInference.threads (self w)))).
Proof.
  intros w' n. subst w'. unfold RunInference.run_inference. split; intros H.
  - erewrite Run.bind_val
      by (apply RunInferenceFacts.detect_threads_auto; exact H).
    erewrite Run.bind_val by reflexivity.
    match goal with
    | |- context [RunInference.run_command ?c ?s] =>
        destruct (RunInferenceFacts.run_command_state c s) as (Hs & He & Hl)
    end.
    rewrite Hs, He, Hl. cbn [self environ Sys.set_self Sys.set_environ
                             RunInference.threads RunInference.set_threads].
    split; [reflexivity|].
    split; [rewrite lookup_insert_ne, lookup_insert_ne, lookup_insert_eq by discriminate; reflexivity|].
    split; [rewrite lookup_insert_ne, lookup_insert_eq by discriminate; reflexivity|].
    split; [rewrite lookup_insert_eq; reflexivity|].
    eexists. rewrite last_snoc. repeat split.
  - erewrite Run.bind_val
      by (apply RunInferenceFacts.detect_threads_given; exact H).
    erewrite Run.bind_val by reflexivity.
    match goal with
    | |- context [RunInference.run_command ?c ?s] =>
        destruct (RunInferenceFacts.run_command_state c s) as (Hs & He & Hl)
    end.
    rewrite Hs, He, Hl.
    split; [reflexivity|]. split; [reflexivity|].
    eexists. rewrite last_snoc. repeat split.
Qed.

Lemma thread_count_detection_witness :
  let w := Example.host Example.default_args [] Example.answers in
  RunInference.threads (self w) <= 0 /\
  environ (Py.state (RunInference.run_inference Example.str_float 16 false
                       (fun _ => true) w)) !! "OMP_NUM_THREADS"
  = Some (txt "10").
Proof.
  intros w. split; [discriminate|].
  apply (proj1 (thread_count_detection Example.str_float 16 false (fun _ => true) w)).
  discriminate.
Defined.

(** C8.  Each of the three named strategies of [parallel_inference] uses
    twelve threads in all, more than the budget of ten that the function
    prints next to that total. *)
Theorem strategies_exceed_budget :
  Forall (fun strategy =>
            Parallel.total_threads strategy = 12%nat /\
            (Parallel.thread_budget < Parallel.total_threads strategy)%nat)
         ["balanced"; "concurrent"; "power"]%string /\
  Parallel.configuration_line "balanced" = Line (txt "   Total threads used: 12/10").
Proof.
  split; [|reflexivity].
  repeat constructor; vm_compute; lia.
Qed.

(** ** The performance pattern *)

Module ReFacts.
Import Re.

(** What the greedy repetition passes over is a run of the class. *)
Lemma star_run (cls : ascii -> bool) (s rest : text) :
  In rest (star cls s) ->
  exists run, s = run ++ rest /\ forallb cls run = true.
Proof.
  induction s as [|c s IH]; simpl.
  - intros [<-|[]]. exists []. split; reflexivity.
  - destruct (cls c) eqn:E.
    + rewrite in_app_iff. intros [H|[<-|[]]].
      * destruct (IH H) as (run & -> & Hrun).
        exists (c :: run). split; [reflexivity|]. simpl. rewrite E. exact Hrun.
      * exists []. split; reflexivity.
    + intros [<-|[]]. exists []. split; reflexivity.
Qed.

Lemma head_In {A} (l : list A) (x : A) : head l = Some x -> In x l.
Proof. destruct l; simpl; [discriminate|]. intros [= ->]. left. reflexivity. Qed.

(** Every way the pattern matches captures a numeral in group 1 and
    nothing else. *)
Lemma perf_pattern_groups (s : text) (groups : list text) (rest : text) :
  In (groups, rest) (matches perf_pattern s) ->
  exists t whole point frac,
    groups = [t] /\ numeral_parts t whole point frac.
Proof.
  unfold perf_pattern.
  cbn [matches]. rewrite in_flat_map.
  intros ((g1 & rest1) & Hgroup & Htail).
  rewrite in_map_iff in Hgroup. destruct Hgroup as ((g0 & r0) & Heq & Hinner).
  injection Heq as <- <-.
  rewrite in_map_iff in Htail. destruct Htail as ((g2 & r2) & Heq & Htail).
  injection Heq as <- <-.
  (* the tail captures nothing *)
  rewrite in_flat_map in Htail. destruct Htail as ((g3 & r3) & Hws & Hlit).
  rewrite in_map_iff in Hws. destruct Hws as (r & [= <- <-] & _).
  rewrite in_map_iff in Hlit. destruct Hlit as ((g4 & r4) & [= <- <-] & Hlit).
  destruct (Str.startswith _ r) in Hlit; [|destruct Hlit].
  destruct Hlit as [[= <- <-]|[]].
  (* the group: digits, optional point, digits *)
  rewrite in_flat_map in Hinner. destruct Hinner as ((g5 & r5) & Hplus & Hrest).
  rewrite in_map_iff in Hrest. destruct Hrest as ((g6 & r6) & [= <- <-] & Hrest).
  rewrite in_flat_map in Hrest. destruct Hrest as ((g7 & r7) & Hopt & Hstar).
  rewrite in_map_iff in Hstar. destruct Hstar as ((g8 & r8) & [= <- <-] & Hstar).
  rewrite in_map_iff in Hstar. destruct Hstar as (r9 & [= <- <-] & Hstar).
  destruct (star_run _ _ _ Hstar) as (frac & -> & Hfrac).
  assert (Hpoint : g7 = [] /\ exists point, r5 = point ++ frac ++ r9 /\
                                  (point = [] \/ point = ["."%char])).
  { destruct r5 as [|c r5].
    - destruct Hopt as [H|[]]. injection H as H1 H2. split; [congruence|].
      exists []. split; [exact H2 | left; reflexivity].
    - destruct (Char.eqb "." c) eqn:E.
      + apply Ascii.eqb_eq in E. subst c.
        destruct Hopt as [H|[H|[]]]; injection H as H1 H2.
        * split; [congruence|]. exists ["."%char].
          split; [simpl; f_equal; exact H2 | right; reflexivity].
        * split; [congruence|]. exists []. split; [exact H2|left; reflexivity].
      + destruct Hopt as [H|[]]. injection H as H1 H2.
        split; [congruence|]. exists []. split; [exact H2|left; reflexivity]. }
  destruct Hpoint as (-> & point & -> & Hpoint).
  destruct s as [|c s]; [destruct Hplus|].
  destruct (Char.isdecimal c) eqn:Ec; [|destruct Hplus].
  rewrite in_map_iff in Hplus. destruct Hplus as (r10 & [= <- ->] & Hplus).
  destruct (star_run _ _ _ Hplus) as (digits & -> & Hdigits).
  exists (c :: digits ++ point ++ frac), (c :: digits), point, frac.
  split.
  - simpl app. f_equal.
    replace (c :: digits ++ point ++ frac ++ r9)
      with ((c :: digits ++ point ++ frac) ++ r9)
      by (simpl; rewrite <- !app_assoc; reflexivity).
    rewrite length_app.
    replace (length (c :: digits ++ point ++ frac) + length r9 - length r9)%nat
      with (length (c :: digits ++ point ++ frac)) by lia.
    apply take_app_length.
  - repeat split; try assumption; try discriminate.
    simpl. rewrite Ec. exact Hdigits.
Qed.

Lemma search_unfold (r : regex) (s : text) :
  search r s =
  match match_at r s with
  | Some (groups, _) => Some groups
  | None => match s with
            | [] => None
            | _ :: s' => search r s'
            end
  end.
Proof. destruct s; reflexivity. Qed.

Lemma findall_go_unfold (r : regex) (skip : nat) (s : text) :
  findall_go r skip s =
  match skip with
  | S k => match s with
           | [] => []
           | _ :: s' => findall_go r k s'
           end
  | O =>
      match match_at r s with
      | Some (groups, rest) =>
          hd [] groups ::
          match s with
          | [] => []
          | _ :: s' => findall_go r (length s - length rest - 1) s'
          end
      | None => match s with
                | [] => []
                | _ :: s' => findall_go r 0 s'
                end
      end
  end.
Proof. destruct skip, s; reflexivity. Qed.

Lemma match_at_numeral (s : text) (groups : list text) (rest : text) :
  match_at perf_pattern s = Some (groups, rest) ->
  exists whole point frac, numeral_parts (group1 groups) whole point frac.
Proof.
  intros E. unfold match_at in E. apply head_In in E.
  apply perf_pattern_groups in E.
  destruct E as (t & whole & point & frac & -> & H). eauto.
Qed.

Lemma search_numeral (s : text) (groups : list text) :
  search perf_pattern s = Some groups ->
  exists whole point frac, numeral_parts (group1 groups) whole point frac.
Proof.
  induction s as [|c s IH]; rewrite search_unfold;
    destruct (match_at perf_pattern _) as [[g rest]|] eqn:E;
    try discriminate; try exact IH;
    intros [= <-]; exact (match_at_numeral _ _ _ E).
Qed.

Lemma findall_go_numeral (s : text) (skip : nat) (t : text) :
  In t (findall_go perf_pattern skip s) ->
  exists whole point frac, numeral_parts t whole point frac.
Proof.
  revert skip. induction s as [|c s IH]; intros skip; rewrite findall_go_unfold.
  - destruct skip; [|intros []].
    destruct (match_at perf_pattern []) as [[g rest]|] eqn:E; [|intros []].
    intros [<-|[]]. exact (match_at_numeral _ _ _ E).
  - destruct skip as [|k]; [|apply IH].
    destruct (match_at perf_pattern (c :: s)) as [[g rest]|] eqn:E; [|apply IH].
    intros [<-|H]; [|exact (IH _ H)].
    exact (match_at_numeral _ _ _ E).
Qed.


End ReFacts.

Module DecimalFacts.
Import Decimal.

Lemma digit_nonneg (c : ascii) : Char.isdecimal c = true -> 0 <= digit c.
Proof.
  unfold Char.isdecimal, Char.between, digit. intros H.
  apply andb_prop in H as [H _]. apply N.leb_le in H. lia.
Qed.

Lemma read_nonneg (s : text) (acc : Z) (scale : positive) (frac : bool) :
  0 <= acc -> (0 <= read acc scale frac s)%Q.
Proof.
  revert acc scale frac. induction s as [|c s IH]; intros acc scale frac H.
  - simpl. rewrite Qred_correct. unfold Qle. simpl. lia.
  - simpl. destruct (Char.isdecimal c) eqn:E.
    + apply IH. pose proof (digit_nonneg c E). lia.
    + apply IH, H.
Qed.

Lemma float_nonneg (s : text) : (0 <= float s)%Q.
Proof. apply read_nonneg. lia. Qed.

End DecimalFacts.


(** ** Cutting the response *)

Module CutFacts.
Import Str StrFacts.

Lemma split_go_first (sep cur s : text) :
  first (split_go sep 0 cur s) = cur ++ first (split_go sep 0 [] s).
Proof.
  revert cur. induction s as [|c s IH]; intros cur.
  - simpl. rewrite app_nil_r. reflexivity.
  - simpl. destruct (startswith sep (c :: s)).
    + simpl. rewrite app_nil_r. reflexivity.
    + rewrite IH. rewrite (IH [c]). rewrite <- app_assoc. reflexivity.
Qed.

(** [s.split(sep)[0]] is a prefix of [s]. *)
Lemma first_split_prefix (sep s : text) :
  exists rest, s = first (split sep s) ++ rest.
Proof.
  unfold split. induction s as [|c s [rest IH]].
  - exists []. reflexivity.
  - simpl. destruct (startswith sep (c :: s)).
    + exists (c :: s). reflexivity.
    + rewrite split_go_first. exists rest. simpl. f_equal. exact IH.
Qed.

(** [s.split(sep)[0]] does not contain [sep]. *)
Lemma first_split_free (sep s : text) :
  sep <> [] -> contains sep (first (split sep s)) = false.
Proof.
  intros Hne. unfold split. induction s as [|c s IH].
  - destruct sep; [congruence|reflexivity].
  - simpl split_go. destruct (startswith sep (c :: s)) eqn:E.
    + destruct sep; [congruence|reflexivity].
    + rewrite split_go_first. simpl app. rewrite contains_cons, IH, orb_false_r.
      destruct (startswith sep (c :: first (split_go sep 0 [] s))) eqn:E'; [|reflexivity].
      destruct (first_split_prefix sep s) as [rest Hrest].
      apply (startswith_weaken _ _ rest) in E'.
      simpl app in E'. unfold split in Hrest. rewrite <- Hrest in E'. congruence.
Qed.

(** Cutting at a marker removes it and brings back no other text. *)
Lemma cut_at_free (marker response : text) :
  marker <> [] -> contains marker (cut_at marker response) = false.
Proof.
  intros Hne. unfold cut_at. destruct (contains marker response) eqn:E; [|exact E].
  apply contains_strip, first_split_free, Hne.
Qed.

(** What [cut_at] returns is a part of what it was given. *)
Lemma cut_at_part (marker response : text) :
  exists a b, response = a ++ cut_at marker response ++ b.
Proof.
  unfold cut_at. destruct (contains marker response).
  - destruct (first_split_prefix marker response) as [rest Hrest].
    destruct (strip_middle (first (split marker response))) as (a & b & Hab).
    exists a, (b ++ rest). rewrite Hrest at 1. rewrite Hab at 1.
    rewrite <- !app_assoc. reflexivity.
  - exists [], []. rewrite app_nil_r. reflexivity.
Qed.

Lemma cut_at_keeps_free (m marker response : text) :
  contains m response = false -> contains m (cut_at marker response) = false.
Proof.
  intros H. destruct (cut_at_part marker response) as (a & b & E).
  rewrite E in H. apply contains_false_app in H as [_ H].
  apply contains_false_app in H as [H _]. exact H.
Qed.

Lemma clean_technical_keeps_free (m : text) (markers : list text) (response : text) :
  contains m response = false ->
  contains m (clean_technical markers response) = false.
Proof.
  unfold clean_technical. revert response.
  induction markers as [|marker markers IH]; intros response H; [exact H|].
  simpl. apply IH, cut_at_keeps_free, H.
Qed.

(** After the loop over the markers none of them is left in the response. *)
Lemma clean_technical_free (markers : list text) (response m : text) :
  In m markers -> m <> [] ->
  contains m (clean_technical markers response) = false.
Proof.
  unfold clean_technical. revert response.
  induction markers as [|marker markers IH]; intros response [] Hne.
  - subst marker. simpl.
    apply (clean_technical_keeps_free m markers), cut_at_free, Hne.
  - simpl. apply IH; assumption.
Qed.

Lemma clean_technical_part (markers : list text) (response : text) :
  exists a b, response = a ++ clean_technical markers response ++ b.
Proof.
  unfold clean_technical. revert response.
  induction markers as [|marker markers IH]; intros response.
  - exists [], []. rewrite app_nil_r. reflexivity.
  - simpl. destruct (IH (cut_at marker response)) as (a & b & E).
    destruct (cut_at_part marker response) as (a' & b' & E').
    exists (a' ++ a), (b ++ b'). rewrite E' at 1. rewrite E at 1.
    rewrite <- !app_assoc. reflexivity.
Qed.

End CutFacts.

(** ** More on the response extractors *)

Module ExtractFacts.
Import Str StrFacts CutFacts.

Lemma find_present (sub s : text) : contains sub s = true -> 0 <= find sub s.
Proof.
  induction s as [|c s IH]; intros H.
  - simpl in H. rewrite orb_false_r in H. simpl. rewrite H. lia.
  - rewrite find_cons. destruct (startswith sub (c :: s)) eqn:E; [lia|].
    rewrite contains_cons, E in H. simpl in H. specialize (IH H).
    destruct (Z.ltb_spec (find sub s) 0); lia.
Qed.

Lemma slice_from_part (i : Z) (s : text) : exists a, s = a ++ slice_from i s.
Proof.
  unfold slice_from. destruct (0 <=? i).
  - exists (take (Z.to_nat i) s). symmetry. apply take_drop.
  - exists (take (Z.to_nat (len s + i)) s). symmetry. apply take_drop.
Qed.

Lemma forallb_part (f : ascii -> bool) (a s b : text) :
  forallb f (a ++ s ++ b) = true -> forallb f s = true.
Proof.
  rewrite !forallb_app. intros H.
  apply andb_prop in H as [_ H]. apply andb_prop in H as [H _]. exact H.
Qed.

Lemma forallb_printable_only (s : text) : forallb keep (printable_only s) = true.
Proof.
  unfold printable_only. induction s as [|c s IH]; [reflexivity|].
  simpl. destruct (keep c) eqn:E; [|exact IH]. simpl. rewrite E. exact IH.
Qed.

(** The text the response is made of, before the final trimming, when every
    character of the output is kept by the filter. *)
Lemma cleaned_printable (markers : list text) (i : Z) (out : text) :
  forallb keep out = true ->
  printable_only (clean_technical markers (strip (slice_from i out)))
  = clean_technical markers (strip (slice_from i out)).
Proof.
  intros H. apply printable_only_id.
  destruct (clean_technical_part markers (strip (slice_from i out))) as (a & b & E).
  destruct (strip_middle (slice_from i out)) as (a' & b' & E').
  destruct (slice_from_part i out) as (a'' & E'').
  rewrite E'', forallb_app in H. apply andb_prop in H as [_ H].
  rewrite E' in H. apply forallb_part in H.
  rewrite E in H. apply forallb_part in H. exact H.
Qed.

(** In the text after the delimiter the delimiter cannot start again before
    its own end: none of its later characters is its first one. *)
Lemma marker_borderless (body : text) :
  contains assistant_marker (txt "ssistant:" ++ body)
  = contains assistant_marker body.
Proof. reflexivity. Qed.

(** [rfind] finds the delimiter after which no other one follows. *)
Lemma rfind_last_marker (pre body : text) :
  contains assistant_marker body = false ->
  rfind assistant_marker (pre ++ assistant_marker ++ body) = Z.of_nat (length pre).
Proof.
  intros H. induction pre as [|c pre IH].
  - change ([] ++ assistant_marker ++ body)
      with ("A"%char :: (txt "ssistant:" ++ body)).
    rewrite rfind_cons, rfind_absent by (rewrite marker_borderless; exact H).
    reflexivity.
  - change ((c :: pre) ++ assistant_marker ++ body)
      with (c :: (pre ++ assistant_marker ++ body)).
    rewrite rfind_cons, IH.
    destruct (Z.leb_spec 0 (Z.of_nat (length pre))); [|lia].
    simpl length. lia.
Qed.

Lemma startswith_long (p s x : text) :
  (length p <= length s)%nat -> startswith p (s ++ x) = startswith p s.
Proof.
  revert s. induction p as [|a p IH]; intros s H; [reflexivity|].
  destruct s as [|b s]; [simpl in H; lia|].
  simpl. rewrite IH by (simpl in H; lia). reflexivity.
Qed.

(** The delimiter cannot start in the text before an occurrence and end
    inside that occurrence. *)
Lemma marker_no_straddle (pre rest : text) :
  pre <> [] -> startswith assistant_marker pre = false ->
  startswith assistant_marker (pre ++ assistant_marker ++ rest) = false.
Proof.
  intros Hne H.
  destruct (Nat.le_gt_cases (length assistant_marker) (length pre)) as [Hlen|Hlen].
  - rewrite startswith_long by exact Hlen. exact H.
  - clear H. change (length assistant_marker) with 10%nat in Hlen.
    do 10 (destruct pre as [|? pre];
           [try congruence; cbn; rewrite ?andb_false_r; reflexivity|]).
    simpl in Hlen. lia.
Qed.

(** [find] finds the delimiter before which there is none. *)
Lemma find_first_marker (pre rest : text) :
  contains assistant_marker pre = false ->
  find assistant_marker (pre ++ assistant_marker ++ rest) = Z.of_nat (length pre).
Proof.
  induction pre as [|c pre IH]; intros H.
  - change ([] ++ assistant_marker ++ rest)
      with ("A"%char :: (txt "ssistant:" ++ rest)).
    rewrite find_cons.
    change ("A"%char :: (txt "ssistant:" ++ rest)) with (assistant_marker ++ rest).
    rewrite startswith_app. reflexivity.
  - rewrite contains_cons in H. apply orb_false_elim in H as [H1 H2].
    change ((c :: pre) ++ assistant_marker ++ rest)
      with (c :: (pre ++ assistant_marker ++ rest)).
    rewrite find_cons.
    change (c :: (pre ++ assistant_marker ++ rest))
      with ((c :: pre) ++ assistant_marker ++ rest).
    rewrite marker_no_straddle by (congruence || exact H1).
    rewrite (IH H2).
    destruct (Z.ltb_spec (Z.of_nat (length pre)) 0); [lia|].
    simpl length. lia.
Qed.

End ExtractFacts.

(** X1.  Whatever the text, what [re.search] and [re.findall] capture with
    the performance pattern is a numeral: one or more digits, possibly a
    point, possibly more digits.  So [float] is never applied to a text it
    rejects. *)
Theorem captured_speed_is_numeral (s : text) :
  match Re.search perf_pattern s with
  | Some groups =>
      exists whole point frac, numeral_parts (Re.group1 groups) whole point frac
  | None => True
  end /\
  Forall (fun t => exists whole point frac, numeral_parts t whole point frac)
         (Re.findall perf_pattern s).
Proof.
  split.
  - destruct (Re.search perf_pattern s) as [groups|] eqn:E; [|exact I].
    exact (ReFacts.search_numeral s groups E).
  - apply List.Forall_forall. intros t Ht.
    exact (ReFacts.findall_go_numeral s 0 t Ht).
Qed.



(** X3.  No extractor reports a negative speed. *)
Theorem speed_never_negative (p : completed) (err : option text) :
  match Advanced.tokens_per_second (Advanced.extract p) with
  | Some q => (0 <= q)%Q
  | None => True
  end /\
  (0 <= Streaming.tokens_per_second
          (Streaming.extract_response_streaming (stdout p) err))%Q /\
  (0 <= Benchmark.tokens_per_sec (Benchmark.parse p))%Q.
Proof.
  split; [|split].
  - unfold Advanced.extract.
    destruct (returncode p =? 0); [|exact I].
    destruct (Str.contains assistant_marker (stdout p)); [|exact I].
    cbn [Advanced.tokens_per_second].
    destruct (Re.search _ _); [apply DecimalFacts.float_nonneg|apply Qle_refl].
  - unfold Streaming.extract_response_streaming.
    destruct (Streaming.read_loop _ _) as [st remaining].
    cbn [Streaming.tokens_per_second].
    destruct (Re.search _ _); [apply DecimalFacts.float_nonneg|apply Qle_refl].
  - unfold Benchmark.parse. cbn [Benchmark.tokens_per_sec].
    destruct (Benchmark.last_match _); [apply DecimalFacts.float_nonneg|apply Qle_refl].
Qed.

(** X4.  When every character of the output is printable, a line feed or a
    tab, the response [generate_response] returns on success contains none
    of the diagnostic prefixes, in [chat_advanced.py] and in [chat.py]. *)
Theorem response_has_no_diagnostic_prefix (p : completed) (marker : text) :
  forallb Str.keep (stdout p) = true ->
  returncode p = 0 ->
  Str.contains assistant_marker (stdout p) = true ->
  (In marker Advanced.tech_markers ->
   Str.contains marker (Advanced.response (Advanced.extract p)) = false) /\
  (In marker Basic.tech_markers ->
   Str.contains marker (fst (Basic.extract p)) = false).
Proof.
  intros Hkeep Hrc Hfound.
  unfold Advanced.extract, Basic.extract. rewrite Hrc, Hfound.
  change (0 =? 0) with true. cbv iota.
  pose proof (ExtractFacts.find_present _ _ Hfound) as Hfind.
  destruct (Z.ltb_spec (Str.len assistant_marker - 1)
              (Str.find assistant_marker (stdout p) + Str.len assistant_marker)) as [_|E];
    [|lia].
  rewrite !(ExtractFacts.cleaned_printable _ _ _ Hkeep).
  cbn [Advanced.response fst].
  split; intros Hin.
  - apply StrFacts.contains_strip, CutFacts.clean_technical_free; [exact Hin|].
    unfold Advanced.tech_markers in Hin. simpl in Hin.
    intuition (subst; discriminate).
  - assert (Hfree : forall r, Str.contains marker
                      (clean_technical Basic.tech_markers r) = false).
    { intros r. apply CutFacts.clean_technical_free; [exact Hin|].
      unfold Basic.tech_markers in Hin. simpl in Hin.
      intuition (subst; discriminate). }
    pose proof (Hfree (Str.strip (Str.slice_from
                  (Str.find assistant_marker (stdout p) + Str.len assistant_marker)
                  (stdout p)))) as H1.
    apply StrFacts.contains_strip in H1.
    rewrite StrFacts.printable_only_id; [exact H1|].
    apply StrFacts.forallb_strip.
    rewrite <- (ExtractFacts.cleaned_printable _ _ _ Hkeep).
    apply ExtractFacts.forallb_printable_only.
Qed.

Lemma response_has_no_diagnostic_prefix_witness :
  let p := Completed 0 (txt "Assistant: fine. ggml_init: done. main: exit") [] in
  forallb Str.keep (stdout p) = true /\
  Str.contains (txt "main:") (Advanced.response (Advanced.extract p)) = false.
Proof.
  intros p. split; [reflexivity|].
  apply (response_has_no_diagnostic_prefix p (txt "main:")); try reflexivity.
  right. left. reflexivity.
Defined.

(** X5.  With several delimiters in the output, [generate_response] of
    [chat_advanced.py] answers from the text after the last one: when no
    delimiter occurs in [body], the response is made of [body] alone, trimmed,
    cut at the diagnostic prefixes and filtered. *)
Theorem answer_follows_last_delimiter (pre body err : text) :
  Str.contains assistant_marker body = false ->
  let p := Completed 0 (pre ++ assistant_marker ++ body) err in
  Advanced.success (Advanced.extract p) = true /\
  Advanced.response (Advanced.extract p) =
  Str.strip (Str.printable_only
               (clean_technical Advanced.tech_markers (Str.strip body))).
Proof.
  intros H p. subst p. unfold Advanced.extract. cbn [returncode stdout stderr].
  rewrite contains_of_occurrence, (ExtractFacts.rfind_last_marker pre body H).
  change (0 =? 0) with true. cbv iota.
  replace (Str.slice_from (Z.of_nat (length pre) + Str.len assistant_marker)
             (pre ++ assistant_marker ++ body)) with body.
  - split; reflexivity.
  - unfold Str.len. rewrite <- Nat2Z.inj_add, <- length_app, app_assoc.
    symmetry. apply StrFacts.slice_from_app.
Qed.

Lemma answer_follows_last_delimiter_witness :
  let out := txt "Assistant: old. User: more? " ++ assistant_marker ++ txt " new" in
  Str.occurrences assistant_marker out = 2%nat /\
  Advanced.response (Advanced.extract (Completed 0 out [])) = txt "new".
Proof.
  intros out. split; [reflexivity|].
  apply (answer_follows_last_delimiter
           (txt "Assistant: old. User: more? ") (txt " new") []).
  reflexivity.
Defined.

(** X6.  With several delimiters in the output, [generate_response] of
    [chat.py] answers from the text after the first one: when no delimiter
    occurs in [pre], the response is made of everything that follows the
    delimiter after [pre], later delimiters included. *)
Theorem answer_follows_first_delimiter (pre rest err : text) :
  Str.contains assistant_marker pre = false ->
  fst (Basic.extract (Completed 0 (pre ++ assistant_marker ++ rest) err)) =
  Str.printable_only
    (Str.strip (clean_technical Basic.tech_markers (Str.strip rest))).
Proof.
  intros H. unfold Basic.extract. cbn [returncode stdout stderr].
  rewrite (ExtractFacts.find_first_marker pre rest H).
  change (0 =? 0) with true. cbv iota.
  destruct (Z.ltb_spec (Str.len assistant_marker - 1)
              (Z.of_nat (length pre) + Str.len assistant_marker)) as [_|E];
    [|unfold Str.len in E; lia].
  replace (Str.slice_from (Z.of_nat (length pre) + Str.len assistant_marker)
             (pre ++ assistant_marker ++ rest)) with rest.
  - reflexivity.
  - unfold Str.len. rewrite <- Nat2Z.inj_add, <- length_app, app_assoc.
    symmetry. apply StrFacts.slice_from_app.
Qed.

Lemma answer_follows_first_delimiter_witness :
  let out := txt "User: hi. " ++ assistant_marker
             ++ txt " old. User: more? Assistant: new" in
  Str.occurrences assistant_marker out = 2%nat /\
  fst (Basic.extract (Completed 0 out [])) = txt "old. User: more? Assistant: new".
Proof.
  intros out. split; [reflexivity|].
  apply (answer_follows_first_delimiter (txt "User: hi. ")
           (txt " old. User: more? Assistant: new") []).
  reflexivity.
Defined.

(** X7.  A response that [generate_response] of [chat_advanced.py] returns
    with [success] true is trimmed, and it holds only printable characters,
    line feeds and tabs; the response of the streaming extractor holds only
    such characters too. *)
Theorem response_is_clean (p : completed) (err : option text) :
  Advanced.success (Advanced.extract p) = true ->
  Str.strip (Advanced.response (Advanced.extract p))
    = Advanced.response (Advanced.extract p) /\
  forallb Str.keep (Advanced.response (Advanced.extract p)) = true /\
  forallb Str.keep
    (Streaming.response (Streaming.extract_response_streaming (stdout p) err))
    = true.
Proof.
  intros H. split; [|split].
  - unfold Advanced.extract in *.
    destruct (returncode p =? 0); [|discriminate].
    destruct (Str.contains assistant_marker (stdout p)); [|discriminate].
    cbn [Advanced.response]. apply StrFacts.strip_idempotent.
  - unfold Advanced.extract in *.
    destruct (returncode p =? 0); [|discriminate].
    destruct (Str.contains assistant_marker (stdout p)); [|discriminate].
    cbn [Advanced.response].
    apply StrFacts.forallb_strip, ExtractFacts.forallb_printable_only.
  - unfold Streaming.extract_response_streaming.
    destruct (Streaming.read_loop _ _) as [st remaining].
    cbn [Streaming.response]. apply ExtractFacts.forallb_printable_only.
Qed.

Lemma response_is_clean_witness :
  let p := Completed 0 (txt "Assistant:  spaced  ") [] in
  Advanced.success (Advanced.extract p) = true /\
  Str.strip (Advanced.response (Advanced.extract p))
    = Advanced.response (Advanced.extract p).
Proof.
  intros p. split; [reflexivity|].
  apply (response_is_clean p None). reflexivity.
Defined.

(** ** Computations that cannot fail *)

Module Tame.
Section tame.
Context {S : Type}.

Lemma tame_ret {A} (a : A) : tame (mret a : Py.M S A).
Proof. intros s. exact I. Qed.

Lemma tame_raise {A} (e : Py.exn) :
  Py.is_Exception e = true -> tame (Py.raise e : Py.M S A).
Proof. intros H s. exact H. Qed.

Lemma tame_modify (f : S -> S) : tame (Py.modify f).
Proof. intros s. exact I. Qed.

Lemma tame_bind {A B} (m : Py.M S A) (k : A -> Py.M S B) :
  tame m -> (forall a, tame (k a)) -> tame (m ≫= k).
Proof.
  intros Hm Hk s. specialize (Hm s). unfold mbind, M_bind, Py.bind.
  destruct (m s) as [a s'|e s'|s']; [apply Hk|exact Hm|exact Hm].
Qed.

Lemma tame_try {A} (m : Py.M S A) (h : Py.exn -> option (Py.M S A)) :
  tame m -> (forall e handler, h e = Some handler -> tame handler) ->
  tame (Py.try m h).
Proof.
  intros Hm Hh s. specialize (Hm s). unfold Py.try.
  destruct (m s) as [a s'|e s'|s']; [exact I| |exact Hm].
  destruct (h e) as [handler|] eqn:E; [|exact Hm].
  exact (Hh e handler E s').
Qed.

Lemma total_ret {A} (a : A) : total (mret a : Py.M S A).
Proof. intros s. eexists _, _. reflexivity. Qed.

Lemma total_bind {A B} (m : Py.M S A) (k : A -> Py.M S B) :
  total m -> (forall a, total (k a)) -> total (m ≫= k).
Proof.
  intros Hm Hk s. destruct (Hm s) as (a & s' & E).
  destruct (Hk a s') as (b & s'' & E').
  exists b, s''. unfold mbind, M_bind, Py.bind. rewrite E. exact E'.
Qed.

(** A handler for every exception of a tame body makes the whole total. *)
Lemma total_try {A} (m : Py.M S A) (h : Py.exn -> option (Py.M S A)) :
  tame m ->
  (forall e, Py.is_Exception e = true ->
             exists handler, h e = Some handler /\ total handler) ->
  total (Py.try m h).
Proof.
  intros Hm Hh s. specialize (Hm s). unfold Py.try.
  destruct (m s) as [a s'|e s'|s']; [eauto| |destruct Hm].
  destruct (Hh e Hm) as (handler & -> & Ht). apply Ht.
Qed.

End tame.

Section system.
Context {Obj : Type}.

Lemma tame_input : tame (@Sys.input Obj).
Proof. intros w. unfold Sys.input. destruct (stdin w); [reflexivity|exact I]. Qed.

Lemma tame_print (m : msg) : tame (@Sys.print Obj m).
Proof. intros w. exact I. Qed.

Lemma tame_say (s : string) : tame (@Sys.say Obj s).
Proof. intros w. exact I. Qed.

Lemma tame_print_all (ms : list msg) : tame (@Sys.print_all Obj ms).
Proof. intros w. exact I. Qed.

Lemma tame_now : tame (@Sys.now Obj).
Proof. intros w. exact I. Qed.

Lemma tame_setenv (k : string) (v : text) : tame (@Sys.setenv Obj k v).
Proof. intros w. exact I. Qed.

Lemma tame_environ_copy : tame (@Sys.environ_copy Obj).
Proof. intros w. exact I. Qed.

Lemma tame_this : tame (@Sys.this Obj).
Proof. intros w. exact I. Qed.

Lemma tame_update (f : Obj -> Obj) : tame (Sys.update f).
Proof. intros w. exact I. Qed.

Lemma tame_subprocess_run cmd (t : nat) e :
  tame (@Sys.subprocess_run Obj cmd (Some t) e).
Proof.
  intros w. unfold Sys.subprocess_run.
  destruct (engine w _) as [seconds rc out err| |what]; try reflexivity.
  destruct (t <? seconds)%nat; [reflexivity|exact I].
Qed.

Lemma total_print (m : msg) : total (@Sys.print Obj m).
Proof. intros w. eexists _, _. reflexivity. Qed.

Lemma total_say (s : string) : total (@Sys.say Obj s).
Proof. intros w. eexists _, _. reflexivity. Qed.

End system.
End Tame.

Create HintDb tame.

#[global] Hint Resolve Tame.tame_ret Tame.tame_modify Tame.tame_input
  Tame.tame_print Tame.tame_say Tame.tame_print_all Tame.tame_now
  Tame.tame_setenv Tame.tame_environ_copy Tame.tame_this Tame.tame_update
  Tame.tame_subprocess_run : tame.

#[global] Hint Extern 1 (tame (Py.raise _)) =>
  (apply Tame.tame_raise; reflexivity) : tame.

Ltac tame :=
  repeat first
    [ apply Tame.tame_bind; [|intros]
    | apply Tame.tame_try; [|intros ? ? ?]
    | solve [auto with tame]
    | match goal with
      | |- tame (if ?b then _ else _) => destruct b
      | |- tame (match ?x with _ => _ end) => destruct x
      | H : (match ?e with _ => _ end) = Some _ |- _ => destruct e; simplify_eq
      | H : (if ?b then _ else _) = Some _ |- _ => destruct b; simplify_eq
      end ].

(** ** The loop of [chat_advanced.py] never fails *)

Module LoopFacts.
Section facts.
Import Advanced Run.
Context {F : Type}.
Variable py_float : text -> option F.
Variable py_int : text -> option Z.
Variable literal : Q -> F.
Variable str_float : F -> text.

Local Abbreviation W := (world (BitNetChatAdvanced (F := F))).
Local Abbreviation generate_response := (generate_response literal str_float).
Local Abbreviation turn := (turn py_float py_int literal str_float).
Local Abbreviation ask := (ask literal str_float).

(** [generate_response] turns every failure into a result. *)
Lemma total_generate_response (prompt : text) : total (generate_response prompt).
Proof.
  unfold Advanced.generate_response.
  apply Tame.total_bind; [intros w; eexists _, _; reflexivity|intros c].
  apply Tame.total_try; [tame|].
  intros e He. destruct e; try discriminate He;
    (eexists; split; [reflexivity|]);
    (apply Tame.total_bind; [apply Tame.total_print|intros; apply Tame.total_ret]).
Qed.

Lemma tame_turn_body :
  tame (line ← Sys.input;
        let user_input := Str.strip line in
        if negb (Str.nonempty user_input) then mret Continue
        else if Str.startswith (txt "/") user_input
             then command py_float py_int str_float user_input
             else ask user_input : Py.M W ctl).
Proof.
  unfold Advanced.ask, Advanced.command, Advanced.change_settings,
    Advanced.read_value, Advanced.export_conversation, Advanced.show_help,
    Advanced.print_banner, Advanced.show_settings, Advanced.generate_response.
  tame.
Qed.

(** Every iteration of the loop of [run] ends with [Continue] or [Break]. *)
Lemma total_turn : total turn.
Proof.
  unfold Advanced.turn. apply Tame.total_try; [apply tame_turn_body|].
  intros e He. destruct e; try discriminate He;
    (eexists; split; [reflexivity|]);
    (apply Tame.total_bind;
     [first [apply Tame.total_say | apply Tame.total_print]
     |intros; apply Tame.total_ret]).
Qed.

End facts.
End LoopFacts.

(** ** Sessions end *)

Module Reads.
Section system.
Import Run.
Context {Obj : Type}.
Variable n : nat.

Lemma reads_input : preserves (stdin_at_most n) (@Sys.input Obj).
Proof.
  intros w H. unfold stdin_at_most, Sys.input in *.
  destruct (stdin w) as [|line rest] eqn:E; simpl in *; rewrite ?E; simpl; lia.
Qed.

Lemma reads_print (m : msg) : preserves (stdin_at_most n) (@Sys.print Obj m).
Proof. intros w H. exact H. Qed.

Lemma reads_say (s : string) : preserves (stdin_at_most n) (@Sys.say Obj s).
Proof. intros w H. exact H. Qed.

Lemma reads_print_all (ms : list msg) :
  preserves (stdin_at_most n) (@Sys.print_all Obj ms).
Proof. intros w H. exact H. Qed.

Lemma reads_now : preserves (stdin_at_most n) (@Sys.now Obj).
Proof. intros w H. exact H. Qed.

Lemma reads_setenv (k : string) (v : text) :
  preserves (stdin_at_most n) (@Sys.setenv Obj k v).
Proof. intros w H. exact H. Qed.

Lemma reads_environ_copy : preserves (stdin_at_most n) (@Sys.environ_copy Obj).
Proof. intros w H. exact H. Qed.

Lemma reads_this : preserves (stdin_at_most n) (@Sys.this Obj).
Proof. intros w H. exact H. Qed.

Lemma reads_update (f : Obj -> Obj) : preserves (stdin_at_most n) (Sys.update f).
Proof. intros w H. exact H. Qed.

Lemma reads_subprocess_run cmd t e :
  preserves (stdin_at_most n) (@Sys.subprocess_run Obj cmd t e).
Proof.
  intros w H. unfold Sys.subprocess_run.
  destruct (engine w _) as [seconds rc out err| |what]; [|destruct t|]; try exact H.
  destruct t as [t|]; [destruct (t <? seconds)%nat|]; exact H.
Qed.

End system.
End Reads.

Create HintDb reads.

#[global] Hint Resolve Run.preserves_ret Run.preserves_raise Reads.reads_input
  Reads.reads_print Reads.reads_say Reads.reads_print_all Reads.reads_now
  Reads.reads_setenv Reads.reads_environ_copy Reads.reads_this
  Reads.reads_update Reads.reads_subprocess_run : reads.

Ltac reads :=
  repeat first
    [ apply Run.preserves_bind; [|intros]
    | apply Run.preserves_try; [|intros ? ? ?]
    | solve [auto with reads]
    | match goal with
      | |- preserves _ (if ?b then _ else _) => destruct b
      | |- preserves _ (match ?x with _ => _ end) => destruct x
      | H : (match ?e with _ => _ end) = Some _ |- _ => destruct e; simplify_eq
      | H : (if ?b then _ else _) = Some _ |- _ => destruct b; simplify_eq
      end ].

Module EndFacts.
Section facts.
Import Advanced Run.
Context {F : Type}.
Variable py_float : text -> option F.
Variable py_int : text -> option Z.
Variable literal : Q -> F.
Variable str_float : F -> text.

Local Abbreviation W := (world (BitNetChatAdvanced (F := F))).
Local Abbreviation turn := (turn py_float py_int literal str_float).

Ltac open_turn :=
  unfold Advanced.turn, Advanced.ask, Advanced.command, Advanced.change_settings,
    Advanced.read_value, Advanced.export_conversation, Advanced.show_help,
    Advanced.print_banner, Advanced.show_settings, Advanced.generate_response.

(** At the end of input the loop says goodbye and stops. *)
Lemma turn_at_eof (w : W) :
  stdin w = [] ->
  turn w = Py.Val Break
             (Sys.set_console (console w ++ [Line (txt "Goodbye! Thanks for chatting!")]) w).
Proof.
  intros H. unfold Advanced.turn.
  erewrite try_caught; cycle 1.
  { erewrite bind_raise; [reflexivity|]. unfold Sys.input. rewrite H. reflexivity. }
  { reflexivity. }
  reflexivity.
Qed.

(** A guarded block that starts by reading a line goes on with that line. *)
Lemma try_input {A} (k : text -> Py.M W A) h (w : W) (line : text) (rest : list text) :
  stdin w = line :: rest ->
  Py.try (Sys.input ≫= k) h w = Py.try (k line) h (Sys.set_stdin rest w).
Proof.
  intros H. unfold Py.try, mbind, M_bind, Py.bind, Sys.input. rewrite H.
  reflexivity.
Qed.

(** An iteration that reads a line leaves fewer lines to read. *)
Lemma turn_consumes (w : W) (line : text) (rest : list text) :
  stdin w = line :: rest -> stdin_at_most (length rest) (Py.state (turn w)).
Proof.
  intros H. unfold Advanced.turn. rewrite (try_input _ _ _ _ _ H).
  match goal with
  | |- stdin_at_most _ (Py.state (?m ?w1)) =>
      assert (P : preserves (stdin_at_most (length rest)) m)
  end.
  { open_turn. reads. }
  apply P. unfold stdin_at_most. simpl. lia.
Qed.

(** A session ends: with [n] lines left to read, the loop has stopped after
    at most [n + 1] iterations. *)
Lemma session_ends (n : nat) (w : W) :
  (length (stdin w) < n)%nat -> exists w', iterate turn n w = Py.Val Break w'.
Proof.
  revert w. induction n as [|n IH]; intros w H; [lia|].
  simpl iterate.
  destruct (LoopFacts.total_turn py_float py_int literal str_float w) as (c & w1 & E).
  rewrite (bind_val _ _ _ _ _ E).
  destruct c; [|eexists; reflexivity].
  destruct (stdin w) as [|line rest] eqn:Hin.
  - rewrite (turn_at_eof w Hin) in E. discriminate E.
  - pose proof (turn_consumes w line rest Hin) as Hc.
    rewrite E in Hc. unfold stdin_at_most in Hc. simpl in Hc, H.
    apply IH. lia.
Qed.

End facts.
End EndFacts.

(** X8.  No iteration of the loop of [run] in [chat_advanced.py] raises an
    exception or waits forever: whatever is typed and whatever the engine
    does, it ends by continuing or by leaving the loop. *)
Theorem chat_loop_never_fails {F : Type}
    (py_float : text -> option F) (py_int : text -> option Z)
    (literal : Q -> F) (str_float : F -> text)
    (w : world (Advanced.BitNetChatAdvanced (F := F))) :
  exists c w', Advanced.turn py_float py_int literal str_float w = Py.Val c w'.
Proof. apply LoopFacts.total_turn. Qed.

(** X9.  A session of [chat_advanced.py] ends: when [n] lines are left to be
    typed, [run] has left its loop after at most [n + 1] iterations, the end
    of input being answered with the goodbye. *)
Theorem chat_session_ends {F : Type}
    (py_float : text -> option F) (py_int : text -> option Z)
    (literal : Q -> F) (str_float : F -> text)
    (w : world (Advanced.BitNetChatAdvanced (F := F))) :
  exists w',
    Advanced.run py_float py_int literal str_float (S (length (stdin w))) w
    = Py.Val Break w'.
Proof.
  unfold Advanced.run, Advanced.print_banner.
  erewrite Run.bind_val by reflexivity.
  apply EndFacts.session_ends. simpl. lia.
Qed.

(** ** What is recorded in the transcript *)

Module RecordFacts.
Section advanced.
Import Advanced Run.
Context {F : Type}.
Variable literal : Q -> F.
Variable str_float : F -> text.

Local Abbreviation W := (world (BitNetChatAdvanced (F := F))).
Local Abbreviation generate_response := (generate_response literal str_float).
Local Abbreviation ask := (ask literal str_float).

(** [generate_response] leaves the object as it is. *)
Lemma generate_response_self (prompt : text) (w : W) :
  self (Py.state (generate_response prompt w)) = self w.
Proof.
  assert (P : preserves (on_self (fun c => c = self w)) (generate_response prompt)).
  { unfold Advanced.generate_response. keeps. }
  apply P. reflexivity.
Qed.

(** A question and its answer are appended, with one time, exactly when the
    generation succeeded. *)
Lemma ask_records (user_input : text) (w w1 : W) (r : result) :
  generate_response user_input w = Py.Val r w1 ->
  exists w2,
    ask user_input w = Py.Val Continue w2 /\
    self w2 =
      if success r
      then append (txt "assistant", response r, clock w1 (ticks w1))
             (append (txt "user", user_input, clock w1 (ticks w1)) (self w))
      else self w.
Proof.
  intros E.
  pose proof (generate_response_self user_input w) as Hself.
  rewrite E in Hself. simpl in Hself.
  unfold Advanced.ask. rewrite (bind_val _ _ _ _ _ E).
  destruct (success r); [destruct (shows_speed r)|];
    (eexists; split; [reflexivity | cbn; rewrite ?Hself; reflexivity]).
Qed.

End advanced.

Section basic.
Import Basic Run.

Local Abbreviation W := (world BitNetChat).

Lemma generate_response_self_basic (prompt : text) (w : W) :
  self (Py.state (generate_response prompt w)) = self w.
Proof.
  assert (P : preserves (on_self (fun c => c = self w)) (generate_response prompt)).
  { unfold Basic.generate_response. keeps. }
  apply P. reflexivity.
Qed.

(** [chat.py] appends the question and whatever text came back, then
    truncates. *)
Lemma ask_records_basic (user_input : text) (w w1 : W) (response perf_info : text) :
  generate_response user_input (Sys.set_console (console w ++ [Thinking]) w)
    = Py.Val (response, perf_info) w1 ->
  exists w2,
    ask user_input w = Py.Val Continue w2 /\
    self w2 = truncate (append (txt "assistant", response)
                          (append (txt "user", user_input) (self w))).
Proof.
  intros E.
  pose proof (generate_response_self_basic user_input
                (Sys.set_console (console w ++ [Thinking]) w)) as Hself.
  rewrite E in Hself. simpl in Hself.
  unfold Basic.ask.
  erewrite bind_val by reflexivity.
  rewrite (bind_val _ _ _ _ _ E).
  destruct (Str.nonempty perf_info);
    (eexists; split; [reflexivity | cbn; rewrite ?Hself; reflexivity]).
Qed.

End basic.
End RecordFacts.

(** ** Questions and answers come in pairs in [chat.py] *)

Module PairFacts.
Import Basic Run.

Lemma two_step_ind {A} (P : list A -> Prop) :
  P [] -> (forall a, P [a]) -> (forall a b l, P l -> P (a :: b :: l)) ->
  forall l, P l.
Proof.
  intros H0 H1 H2.
  assert (H : forall l, P l /\ forall a, P (a :: l)).
  { induction l as [|b l [IH1 IH2]]; [split; [exact H0|exact H1]|].
    split; [apply IH2|]. intros a. apply H2, IH1. }
  intros l. apply H.
Qed.

Lemma paired_app (h1 h2 : list entry) :
  paired h1 = true -> paired h2 = true -> paired (h1 ++ h2) = true.
Proof.
  revert h1. apply (two_step_ind (fun h1 => paired h1 = true -> _ -> paired (h1 ++ h2) = true)).
  - intros _ H. exact H.
  - intros [a x]. discriminate.
  - intros [a x] [b y] l IH H12 H2. simpl in *.
    apply andb_prop in H12 as [Hab Hl]. rewrite Hab. simpl. apply IH; assumption.
Qed.

Lemma paired_even (h : list entry) : paired h = true -> Nat.even (length h) = true.
Proof.
  revert h. apply (two_step_ind (fun h => paired h = true -> Nat.even (length h) = true)).
  - reflexivity.
  - intros [a x]. discriminate.
  - intros [a x] [b y] l IH H. simpl in *. apply andb_prop in H as [_ Hl]. apply IH, Hl.
Qed.

Lemma paired_drop (k : nat) (h : list entry) :
  paired h = true -> paired (drop (2 * k) h) = true.
Proof.
  revert h. induction k as [|k IH]; intros h H; [rewrite drop_0; exact H|].
  replace (2 * S k)%nat with (S (S (2 * k))) by lia.
  destruct h as [|[a x] [|[b y] h]]; try discriminate H; [reflexivity|].
  simpl in H. apply andb_prop in H as [_ Hl]. simpl drop. apply IH, Hl.
Qed.

(** Cutting a transcript of pairs to its last twenty entries never splits a
    pair. *)
Lemma paired_truncate (c : BitNetChat) :
  paired (conversation_history c) = true ->
  paired (conversation_history (truncate c)) = true.
Proof.
  intros H. unfold truncate.
  destruct (Nat.ltb_spec 20 (length (conversation_history c))) as [Hlt|Hle]; [|exact H].
  simpl. unfold last_n.
  pose proof (paired_even _ H) as He.
  apply Nat.even_spec in He as [m Hm].
  replace (length (conversation_history c) - 20)%nat with (2 * (m - 10))%nat by lia.
  apply paired_drop, H.
Qed.

Lemma keeps_record_pair (question answer : text) :
  preserves (on_self pairs)
    (Sys.update (append (txt "user", question));;
     Sys.update (append (txt "assistant", answer));;
     Sys.update truncate;;
     (mret Continue : Py.M (world BitNetChat) ctl)).
Proof.
  intros w H. unfold on_self, pairs in *. cbn.
  apply paired_truncate. simpl. rewrite <- app_assoc.
  apply paired_app; [exact H|reflexivity].
Qed.

Lemma keeps_generate_response_pairs (prompt : text) :
  preserves (on_self pairs) (generate_response prompt).
Proof. unfold generate_response. keeps. Qed.

Lemma keeps_ask_pairs (user_input : text) :
  preserves (on_self pairs) (ask user_input).
Proof.
  unfold ask.
  apply preserves_bind; [keeps|intros _].
  apply preserves_bind; [apply keeps_generate_response_pairs|intros [response perf_info]].
  apply preserves_bind; [keeps|intros _].
  apply preserves_bind; [keeps|intros _].
  apply preserves_bind; [keeps|intros _].
  apply keeps_record_pair.
Qed.

Lemma keeps_command_pairs (user_input : text) :
  preserves (on_self pairs) (command user_input).
Proof.
  unfold command, save_conversation, change_system_prompt, show_system, print_header.
  keeps; apply keeps_update; intros c Hc; try exact Hc; reflexivity.
Qed.

Lemma keeps_turn_pairs : preserves (on_self pairs) turn.
Proof.
  unfold turn.
  apply preserves_bind; [keeps|intros [user_input|]]; [|keeps].
  destruct (negb _); [keeps|].
  destruct (Str.startswith _ _); [apply keeps_command_pairs | apply keeps_ask_pairs].
Qed.

Lemma keeps_run_pairs (n : nat) : preserves (on_self pairs) (run n).
Proof.
  unfold run, print_header, show_system. keeps.
  apply preserves_iterate, keeps_turn_pairs.
Qed.

(** [chat.py] turns every failure of the engine into a reply. *)
Lemma total_generate_response_basic (prompt : text) : total (generate_response prompt).
Proof.
  unfold generate_response.
  apply Tame.total_bind; [intros w; eexists _, _; reflexivity|intros c].
  apply Tame.total_try; [tame|].
  intros e He. destruct e; try discriminate He;
    (eexists; split; [reflexivity|]); apply Tame.total_ret.
Qed.

End PairFacts.

(** ** The six settings of [chat_advanced.py] keep their kinds *)

Module KindFacts.
Section facts.
Import Advanced Run.
Context {F : Type}.
Variable py_float : text -> option F.
Variable py_int : text -> option Z.
Variable literal : Q -> F.
Variable str_float : F -> text.

Local Abbreviation W := (world (BitNetChatAdvanced (F := F))).
Local Abbreviation Value := (value (F := F)).

Lemma key_inj (a b : text) : key a = key b -> a = b.
Proof.
  unfold key. intros H.
  rewrite <- (list_ascii_of_string_of_list_ascii a),
          <- (list_ascii_of_string_of_list_ascii b), H.
  reflexivity.
Qed.

Lemma parse_value_kind (name line : text) (v : Value) :
  parse_value py_float py_int name line = Some v -> kind_ok name v.
Proof.
  unfold parse_value. case_bool_decide as Hin.
  - destruct (py_float line); intros [= <-]. exact Hin.
  - destruct (py_int line); intros [= <-]. exact Hin.
Qed.

Lemma typed_insert (m : gmap string Value) (name : text) (v : Value) :
  typed m -> kind_ok name v -> typed (<[key name := v]> m).
Proof.
  intros Hm Hv other Hother. specialize (Hm other Hother).
  destruct (decide (key name = key other)) as [E|N].
  - rewrite E, lookup_insert_eq. apply key_inj in E. subst other. exact Hv.
  - rewrite lookup_insert_ne by exact N. exact Hm.
Qed.

Lemma typed_default : typed (default_settings literal).
Proof.
  intros name. unfold numeric_settings. rewrite !elem_of_cons, elem_of_nil.
  intros [->|[->|[->|[->|[->|[->|[]]]]]]];
    match goal with
    | |- context [key ?t] =>
        let k := eval vm_compute in (key t) in change (key t) with k
    end;
    unfold default_settings;
    repeat first [rewrite lookup_insert_eq | rewrite lookup_insert_ne by discriminate];
    unfold float_settings; rewrite !elem_of_cons, elem_of_nil.
  all: try (intros [H|[H|[H|[]]]]; discriminate H).
  all: auto.
Qed.

Lemma keeps_read_then {A} (name : text) (k : Value -> Py.M W A) :
  (forall v, kind_ok name v -> preserves (on_self kinds) (k v)) ->
  preserves (on_self kinds) (read_value py_float py_int name ≫= k).
Proof.
  intros Hk w H. unfold read_value, mbind, M_bind, Py.bind, Sys.input.
  destruct (stdin w) as [|line rest]; [exact H|].
  destruct (parse_value py_float py_int name line) as [v|] eqn:E; [|exact H].
  apply Hk; [exact (parse_value_kind _ _ _ E)|exact H].
Qed.

Lemma keeps_change_settings :
  preserves (on_self kinds) (change_settings py_float py_int str_float).
Proof.
  unfold Advanced.change_settings, show_settings.
  apply preserves_bind; [keeps|intros _].
  apply preserves_bind; [keeps|intros _].
  apply preserves_bind; [keeps|intros _].
  apply preserves_bind; [keeps|intros line].
  cbv zeta. destruct (_ || _); [keeps|].
  apply preserves_bind; [keeps|intros c].
  apply preserves_bind; [|intros _; keeps].
  destruct (Str.eqb _ _).
  { keeps. apply keeps_update. intros c' Hc'. exact Hc'. }
  destruct (settings c !! _); [|keeps].
  apply preserves_bind; [keeps|intros _].
  apply preserves_try; [|intros e h He; destruct e; simplify_eq; keeps].
  apply keeps_read_then. intros new_value Hv.
  apply preserves_bind; [|intros _; keeps].
  apply keeps_update. intros c' Hc'. apply typed_insert; assumption.
Qed.

Lemma keeps_command_kinds (user_input : text) :
  preserves (on_self kinds) (command py_float py_int str_float user_input).
Proof.
  unfold Advanced.command. cbv zeta.
  destruct (Str.eqb _ _); [keeps|].
  apply preserves_bind; [|intros _; keeps].
  repeat (destruct (Str.eqb _ _);
          [try solve [unfold export_conversation, show_help, print_banner;
                      keeps; try apply keeps_change_settings;
                      apply keeps_update; intros c Hc; exact Hc] |]).
  all: try solve [keeps].
  - apply preserves_bind; [apply keeps_change_settings|intros _; unfold print_banner; keeps].
  - destruct (py_float _) as [x|]; [|keeps].
    apply preserves_bind; [|intros _; keeps].
    apply keeps_update. intros c Hc.
    apply (typed_insert (settings c) (txt "temperature") (VFloat x) Hc).
    vm_compute. left.
  - destruct (py_int _) as [n|]; [|keeps].
    apply preserves_bind; [|intros _; keeps].
    apply keeps_update. intros c Hc.
    apply (typed_insert (settings c) (txt "max_tokens") (VInt n) Hc).
    unfold kind_ok, float_settings. rewrite !elem_of_cons, elem_of_nil.
    intros [H|[H|[H|[]]]]; discriminate H.
Qed.

Lemma keeps_turn_kinds :
  preserves (on_self kinds) (turn py_float py_int literal str_float).
Proof.
  unfold Advanced.turn.
  apply preserves_try.
  - apply preserves_bind; [keeps|intros line]. cbv zeta.
    destruct (negb _); [keeps|].
    destruct (Str.startswith _ _); [apply keeps_command_kinds|].
    unfold Advanced.ask, Advanced.generate_response.
    keeps; apply keeps_update; intros c Hc; exact Hc.
  - intros e h He. destruct e; simplify_eq; keeps.
Qed.

Lemma keeps_run_kinds (n : nat) :
  preserves (on_self kinds) (run py_float py_int literal str_float n).
Proof.
  unfold Advanced.run, print_banner. keeps.
  apply preserves_iterate, keeps_turn_kinds.
Qed.

End facts.
End KindFacts.

(** ** Invariants of the object, the environment and the launches *)

Module Frame.
Section system.
Import Run.
Context {Obj : Type}.
Variable I : world Obj -> Prop.
Hypothesis HI : framed I.

Lemma framed_input : preserves I (@Sys.input Obj).
Proof.
  intros w H. unfold Sys.input.
  destruct (stdin w); simpl; [exact H|]. eapply HI; [..|exact H]; reflexivity.
Qed.

Lemma framed_print (m : msg) : preserves I (@Sys.print Obj m).
Proof. intros w H. eapply HI; [..|exact H]; reflexivity. Qed.

Lemma framed_say (s : string) : preserves I (@Sys.say Obj s).
Proof. intros w H. eapply HI; [..|exact H]; reflexivity. Qed.

Lemma framed_print_all (ms : list msg) : preserves I (@Sys.print_all Obj ms).
Proof. intros w H. eapply HI; [..|exact H]; reflexivity. Qed.

Lemma framed_now : preserves I (@Sys.now Obj).
Proof. intros w H. eapply HI; [..|exact H]; reflexivity. Qed.

Lemma framed_this : preserves I (@Sys.this Obj).
Proof. intros w H. exact H. Qed.

End system.
End Frame.

Create HintDb framed.

#[global] Hint Resolve Run.preserves_ret Run.preserves_raise Frame.framed_input
  Frame.framed_print Frame.framed_say Frame.framed_print_all Frame.framed_now
  Frame.framed_this : framed.

Ltac framed :=
  repeat first
    [ apply Run.preserves_bind; [|intros]
    | apply Run.preserves_try; [|intros ? ? ?]
    | solve [auto with framed]
    | match goal with
      | |- preserves _ (if ?b then _ else _) => destruct b
      | |- preserves _ (match ?x with _ => _ end) => destruct x
      | H : (match ?e with _ => _ end) = Some _ |- _ => destruct e; simplify_eq
      | H : (if ?b then _ else _) = Some _ |- _ => destruct b; simplify_eq
      end ].

Module SyncFacts.
Section facts.
Import Advanced Run.
Context {F : Type}.
Variable py_float : text -> option F.
Variable py_int : text -> option Z.
Variable literal : Q -> F.
Variable str_float : F -> text.
Variable k : nat.

Local Abbreviation W := (world (BitNetChatAdvanced (F := F))).
Local Abbreviation J := (agree_from str_float k).

Lemma framed_agree : framed J.
Proof.
  intros w w' Hself Henv Hl ([Ho Hm] & Hk & Hall).
  unfold agree_from, synced. rewrite Hself, Henv, Hl. repeat split; assumption.
Qed.

#[local] Hint Resolve framed_agree : framed.

(** An update of the object that leaves the thread setting alone. *)
Lemma update_agree (f : BitNetChatAdvanced -> BitNetChatAdvanced) :
  (forall c, settings (f c) !! "threads" = settings c !! "threads") ->
  preserves J (Sys.update f).
Proof.
  intros Hf w ([Ho Hm] & Hk & Hall). unfold agree_from, synced, threads_text, setting.
  cbn. rewrite Hf. repeat split; assumption.
Qed.

Lemma key_threads (name : text) :
  Str.eqb name (txt "threads") = false -> key name <> "threads"%string.
Proof.
  intros Hne E. apply (KindFacts.key_inj name (txt "threads")) in E.
  subst name. unfold Str.eqb in Hne. case_bool_decide; congruence.
Qed.

Lemma eqb_threads (name : text) :
  Str.eqb name (txt "threads") = true -> key name = "threads"%string.
Proof. unfold Str.eqb. intros H. case_bool_decide; [subst name; reflexivity|discriminate]. Qed.

(** The launch of [generate_response] carries the setting and the
    environment of the moment. *)
Lemma generate_response_agree (prompt : text) :
  preserves J (generate_response literal str_float prompt).
Proof.
  intros w ([Ho Hm] & Hk & Hall).
  assert (Hl : launch_agrees (Launch (cmd literal str_float (self w) prompt)
                                     (Some 120%nat) (environ w))).
  { exists (threads_text str_float (self w)). repeat split; assumption. }
  assert (Hall' : Forall launch_agrees
            (drop k (launches w ++ [Launch (cmd literal str_float (self w) prompt)
                                           (Some 120%nat) (environ w)]))).
  { rewrite drop_app_le by exact Hk. apply Forall_app. split; [exact Hall|].
    constructor; [exact Hl|constructor]. }
  assert (Hk' : (k <= length (launches w ++
            [Launch (cmd literal str_float (self w) prompt) (Some 120%nat) (environ w)]))%nat).
  { rewrite length_app. lia. }
  unfold Advanced.generate_response, Py.try, mbind, M_bind, Py.bind,
    Sys.this, Sys.print, Sys.subprocess_run, Py.modify.
  cbn [self console launches engine environ Sys.set_console Sys.set_launches default].
  destruct (engine w (length (launches w))) as [seconds rc out err| |what];
    [destruct (120 <? seconds)%nat|..]; cbn;
    (split; [split; assumption|split; assumption]).
Qed.

(** Storing a new value and, for the thread count, exporting it. *)
Lemma store_agree (name : text) :
  preserves J
    (new_value ← read_value py_float py_int name;
     Sys.update (fun c => set_settings (<[key name := new_value]> (settings c)) c);;
     (if Str.eqb name (txt "threads")
      then Sys.setenv "OMP_NUM_THREADS" (str_value str_float new_value);;
           Sys.setenv "MKL_NUM_THREADS" (str_value str_float new_value)
      else mret tt);;
     Sys.print (Line (name ++ txt " updated to " ++ str_value str_float new_value
                      ++ txt "!"))).
Proof.
  intros w HJ.
  unfold read_value, mbind, M_bind, Py.bind, Sys.input.
  destruct (stdin w) as [|line rest]; [exact HJ|].
  assert (HJ' : J (Sys.set_stdin rest w)).
  { eapply framed_agree; [..|exact HJ]; reflexivity. }
  destruct (parse_value py_float py_int name line) as [v|]; [|exact HJ'].
  destruct HJ as ([Ho Hm] & Hk & Hall).
  destruct (Str.eqb name (txt "threads")) eqn:E; cbn;
    unfold agree_from, synced, threads_text, setting; cbn.
  - rewrite (eqb_threads _ E), lookup_insert_eq. cbn.
    rewrite lookup_insert_ne by discriminate.
    rewrite !lookup_insert_eq. repeat split; assumption.
  - rewrite lookup_insert_ne by exact (key_threads _ E).
    repeat split; assumption.
Qed.

Lemma change_settings_agree :
  preserves J (change_settings py_float py_int str_float).
Proof.
  unfold Advanced.change_settings, show_settings.
  apply preserves_bind; [framed|intros _].
  apply preserves_bind; [framed|intros _].
  apply preserves_bind; [framed|intros _].
  apply preserves_bind; [framed|intros line].
  cbv zeta. destruct (_ || _); [framed|].
  apply preserves_bind; [framed|intros c].
  apply preserves_bind; [|intros _; framed].
  destruct (Str.eqb _ _).
  { framed. apply update_agree. reflexivity. }
  destruct (settings c !! _); [|framed].
  apply preserves_bind; [framed|intros _].
  apply preserves_try; [|intros e h He; destruct e; simplify_eq; framed].
  apply store_agree.
Qed.

Lemma command_agree (user_input : text) :
  preserves J (command py_float py_int str_float user_input).
Proof.
  unfold Advanced.command. cbv zeta.
  destruct (Str.eqb _ _); [framed|].
  apply preserves_bind; [|intros _; framed].
  repeat (destruct (Str.eqb _ _);
          [try solve [unfold export_conversation, show_help, print_banner;
                      framed; apply update_agree; reflexivity] |]).
  all: try solve [framed].
  - apply preserves_bind; [apply change_settings_agree|intros _; unfold print_banner; framed].
  - destruct (py_float _) as [x|]; [|framed].
    apply preserves_bind; [|intros _; framed].
    apply update_agree. intros c. cbn. apply lookup_insert_ne. discriminate.
  - destruct (py_int _) as [n|]; [|framed].
    apply preserves_bind; [|intros _; framed].
    apply update_agree. intros c. cbn. apply lookup_insert_ne. discriminate.
Qed.

Lemma turn_agree : preserves J (turn py_float py_int literal str_float).
Proof.
  unfold Advanced.turn.
  apply preserves_try.
  - apply preserves_bind; [framed|intros line]. cbv zeta.
    destruct (negb _); [framed|].
    destruct (Str.startswith _ _); [apply command_agree|].
    unfold Advanced.ask.
    apply preserves_bind; [apply generate_response_agree|intros r].
    framed; apply update_agree; reflexivity.
  - intros e h He. destruct e; simplify_eq; framed.
Qed.

Lemma run_agree (n : nat) : preserves J (run py_float py_int literal str_float n).
Proof.
  unfold Advanced.run, print_banner. framed.
  apply preserves_iterate, turn_agree.
Qed.

End facts.

(** A new object exports the thread count it starts with. *)
Lemma init_agree {F : Type} (literal : Q -> F) (str_float : F -> text)
    (path : text) (w : world (Advanced.BitNetChatAdvanced (F := F))) :
  agree_from str_float (length (launches w)) (Py.state (Advanced.init literal path w)).
Proof.
  assert (E : Advanced.init literal path w =
    Py.Val tt (Sys.set_environ
      (<["MKL_NUM_THREADS" := str_int 10]>
         (<["OMP_NUM_THREADS" := str_int 10]> (environ w)))
      (Sys.set_self (Advanced.Chat path [] (txt "You are a helpful AI assistant.")
                       (Advanced.default_settings literal) []) w))) by reflexivity.
  rewrite E. clear E.
  assert (T : forall m : text, threads_text str_float
            (Advanced.Chat path [] m (Advanced.default_settings literal) []) = str_int 10).
  { intros m. unfold threads_text, Advanced.setting, Advanced.default_settings. cbn.
    rewrite !(lookup_insert_ne _ _ "threads"%string) by discriminate.
    rewrite lookup_insert_eq. reflexivity. }
  unfold agree_from, synced. cbn. rewrite T.
  rewrite lookup_insert_ne by discriminate. rewrite !lookup_insert_eq.
  split; [split; reflexivity|].
  split; [lia|]. rewrite drop_all. constructor.
Qed.

End SyncFacts.

(** X14.  Throughout a session of [chat_advanced.py], from [__init__] on and
    whatever is typed, the environment variables [OMP_NUM_THREADS] and
    [MKL_NUM_THREADS] hold the text of the [threads] setting; so every engine
    launched by the session gets with [-t] the very thread count that its
    inherited environment names. *)
Theorem thread_flag_matches_environment {F : Type}
    (py_float : text -> option F) (py_int : text -> option Z)
    (literal : Q -> F) (str_float : F -> text)
    (path : text) (n : nat) (w : world (Advanced.BitNetChatAdvanced (F := F))) :
  let w' := Py.state ((Advanced.init literal path;;
                       Advanced.run py_float py_int literal str_float n) w) in
  synced str_float w' /\
  Forall launch_agrees (drop (length (launches w)) (launches w')).
Proof.
  intros w'. subst w'. unfold mbind, M_bind, Py.bind.
  pose proof (SyncFacts.init_agree literal str_float path w) as Hinit.
  destruct (Advanced.init literal path w) as [[] w1|e w1|w1] eqn:E; [|discriminate E..].
  destruct (SyncFacts.run_agree py_float py_int literal str_float _ n w1 Hinit)
    as (Hs & _ & Hall).
  split; assumption.
Qed.

(** ** The transcript and the settings over a session *)

(** X10.  In [chat_advanced.py] a question always gets a result, and question
    and answer enter the transcript, with one time stamp, exactly when the
    result is a success: an error text, the apology for a missing delimiter
    or the notice of a timeout is printed but never recorded. *)
Theorem only_answers_are_recorded {F : Type}
    (literal : Q -> F) (str_float : F -> text) (question : text)
    (w : world (Advanced.BitNetChatAdvanced (F := F))) :
  exists r w1 w2,
    Advanced.generate_response literal str_float question w = Py.Val r w1 /\
    Advanced.ask literal str_float question w = Py.Val Continue w2 /\
    Advanced.conversation_history (self w2) =
      Advanced.conversation_history (self w) ++
      (if Advanced.success r
       then [(txt "user", question, clock w1 (ticks w1));
             (txt "assistant", Advanced.response r, clock w1 (ticks w1))]
       else []).
Proof.
  destruct (LoopFacts.total_generate_response literal str_float question w)
    as (r & w1 & E).
  destruct (RecordFacts.ask_records literal str_float question w w1 r E)
    as (w2 & Hask & Hself).
  exists r, w1, w2. split; [exact E|split; [exact Hask|]].
  rewrite Hself. destruct (Advanced.success r); simpl.
  - rewrite <- app_assoc. reflexivity.
  - rewrite app_nil_r. reflexivity.
Qed.

(** What [truncate] leaves is the last twenty entries. *)
Lemma truncate_last_n (c : Basic.BitNetChat) :
  Basic.conversation_history (Basic.truncate c) =
  last_n 20 (Basic.conversation_history c).
Proof.
  unfold Basic.truncate.
  destruct (Nat.ltb_spec 20 (length (Basic.conversation_history c))) as [Hlt|Hle];
    [reflexivity|].
  unfold last_n. replace (_ - 20)%nat with 0%nat by lia. rewrite drop_0. reflexivity.
Qed.

(** X11.  In [chat.py] a question always gets a reply, and question and
    reply enter the transcript whatever the reply is, the text of an error
    or of a timeout included; the transcript is then its last twenty
    entries. *)
Theorem every_reply_is_recorded (question : text) (w : world Basic.BitNetChat) :
  exists reply perf_info w1 w2,
    Basic.generate_response question (Sys.set_console (console w ++ [Thinking]) w)
      = Py.Val (reply, perf_info) w1 /\
    Basic.ask question w = Py.Val Continue w2 /\
    Basic.conversation_history (self w2) =
      last_n 20 (Basic.conversation_history (self w)
                 ++ [(txt "user", question); (txt "assistant", reply)]).
Proof.
  destruct (PairFacts.total_generate_response_basic question
              (Sys.set_console (console w ++ [Thinking]) w))
    as ([reply perf_info] & w1 & E).
  destruct (RecordFacts.ask_records_basic question w w1 reply perf_info E)
    as (w2 & Hask & Hself).
  exists reply, perf_info, w1, w2. split; [exact E|split; [exact Hask|]].
  rewrite Hself, truncate_last_n. cbn [Basic.append Basic.conversation_history].
  rewrite <- app_assoc. reflexivity.
Qed.

(** X12.  The transcript of a session of [chat.py] is at every moment a
    sequence of pairs, a user entry followed by an assistant entry: entries
    are appended two at a time and the cut to the last twenty never splits
    a pair. *)
Theorem transcript_stays_paired (path : text) (n : nat) (w : world Basic.BitNetChat) :
  paired (Basic.conversation_history
            (self (Py.state ((Basic.init path;; Basic.run n) w)))) = true.
Proof.
  unfold mbind, M_bind, Py.bind.
  assert (Hinit : on_self pairs (Py.state (Basic.init path w))) by reflexivity.
  destruct (Basic.init path w) as [[] w'|e w'|w'] eqn:E; [|discriminate E..].
  exact (PairFacts.keeps_run_pairs n w' Hinit).
Qed.

(** X13.  After [__init__] and any number of turns of [chat_advanced.py],
    each of the six settings is present, the three float settings with a
    float and the other three with an integer: no command removes a key or
    stores a value of the other kind, so the lookups of the command line
    never miss. *)
Theorem settings_keep_their_kinds {F : Type}
    (py_float : text -> option F) (py_int : text -> option Z)
    (literal : Q -> F) (str_float : F -> text)
    (path : text) (n : nat) (w : world (Advanced.BitNetChatAdvanced (F := F))) :
  typed (Advanced.settings
           (self (Py.state ((Advanced.init literal path;;
                             Advanced.run py_float py_int literal str_float n) w)))).
Proof.
  unfold mbind, M_bind, Py.bind.
  assert (Hinit : on_self kinds (Py.state (Advanced.init literal path w))).
  { apply (KindFacts.typed_default literal). }
  destruct (Advanced.init literal path w) as [[] w'|e w'|w'] eqn:E; [|discriminate E..].
  exact (KindFacts.keeps_run_kinds py_float py_int literal str_float n w' Hinit).
Qed.

(** ** Word wrapping in [chat_advanced.py] *)

Module FormatFacts.
Import Format.

Local Abbreviation nonspace := (fun c => negb (Char.isspace c)).

Lemma words_go_app (w cur s : text) :
  forallb nonspace w = true -> words_go cur (w ++ s) = words_go (cur ++ w) s.
Proof.
  revert cur. induction w as [|c w IH]; intros cur H.
  - rewrite app_nil_r. reflexivity.
  - simpl in H. apply andb_prop in H as [Hc Hw].
    simpl. destruct (Char.isspace c); [discriminate Hc|].
    rewrite IH by exact Hw. rewrite <- app_assoc. reflexivity.
Qed.

Lemma words_go_space (c : ascii) (cur s : text) :
  Char.isspace c = true ->
  words_go cur (c :: s) = (if Str.nonempty cur then [cur] else []) ++ words_go [] s.
Proof. intros H. simpl. rewrite H. reflexivity. Qed.

(** A space at the end adds no word. *)
Lemma words_go_trailing (c : ascii) (s cur : text) :
  Char.isspace c = true -> words_go cur (s ++ [c]) = words_go cur s.
Proof.
  intros H. revert cur. induction s as [|d s IH]; intros cur.
  - simpl. rewrite H. rewrite app_nil_r. reflexivity.
  - simpl. destruct (Char.isspace d); rewrite IH; reflexivity.
Qed.

Lemma solid_nonempty (w : text) : solid w -> Str.nonempty w = true.
Proof. intros [Hne _]. destruct w; [congruence|reflexivity]. Qed.

(** The pieces that [split] returns are words. *)
Lemma words_go_solid (s cur : text) :
  forallb nonspace cur = true -> Forall solid (words_go cur s).
Proof.
  revert cur. induction s as [|c s IH]; intros cur H.
  - simpl. destruct cur as [|d cur]; constructor; [|constructor].
    split; [discriminate|exact H].
  - simpl. destruct (Char.isspace c) eqn:E.
    + apply Forall_app. split; [|apply IH; reflexivity].
      destruct cur as [|d cur]; constructor; [|constructor].
      split; [discriminate|exact H].
    + apply IH. rewrite forallb_app, H. simpl. rewrite E. reflexivity.
Qed.

Lemma words_solid (s : text) : Forall solid (words s).
Proof. apply words_go_solid. reflexivity. Qed.

(** The words of a line of words that a whitespace character ends. *)
Lemma words_line (sep c : ascii) (g : list text) (rest : text) :
  Char.isspace sep = true -> Char.isspace c = true -> Forall solid g ->
  words_go [] (Str.join [sep] g ++ c :: rest) = g ++ words_go [] rest.
Proof.
  intros Hsep Hc. induction g as [|p g IH]; intros Hg.
  - simpl. rewrite Hc. reflexivity.
  - apply Forall_cons in Hg as [Hp Hg].
    destruct g as [|q g].
    + simpl Str.join. rewrite words_go_app by apply Hp.
      rewrite words_go_space by exact Hc.
      change ([] ++ p) with p. rewrite (solid_nonempty p Hp). reflexivity.
    + change (Str.join [sep] (p :: q :: g))
        with (p ++ [sep] ++ Str.join [sep] (q :: g)).
      rewrite <- !app_assoc. rewrite words_go_app by apply Hp.
      change ([sep] ++ ?r) with (sep :: r).
      rewrite words_go_space by exact Hsep.
      change ([] ++ p) with p. rewrite (solid_nonempty p Hp).
      rewrite IH by exact Hg. reflexivity.
Qed.

(** Splitting undoes joining. *)
Lemma words_join (sep : ascii) (g : list text) :
  Char.isspace sep = true -> Forall solid g -> words (Str.join [sep] g) = g.
Proof.
  intros Hsep Hg. unfold words.
  rewrite <- (words_go_trailing sep) by exact Hsep.
  change (Str.join [sep] g ++ [sep]) with (Str.join [sep] g ++ sep :: []).
  rewrite (words_line sep sep) by assumption.
  simpl. apply app_nil_r.
Qed.

(** The normalisation of [format_response] changes no word. *)
Lemma words_normalised (s : text) : words (Str.join (txt " ") (words s)) = words s.
Proof. apply (words_join " "%char); [reflexivity|apply words_solid]. Qed.

(** The words of lines of words. *)
Lemma words_lines (groups : list (list text)) :
  Forall (Forall solid) groups ->
  words (Str.join [NL] (map (Str.join (txt " ")) groups)) = concat groups.
Proof.
  induction groups as [|g groups IH]; intros H; [reflexivity|].
  apply Forall_cons in H as [Hg H].
  destruct groups as [|g2 groups].
  - simpl. rewrite app_nil_r. apply (words_join " "%char); [reflexivity|exact Hg].
  - change (Str.join [NL] (map (Str.join (txt " ")) (g :: g2 :: groups)))
      with (Str.join (txt " ") g ++ [NL]
            ++ Str.join [NL] (map (Str.join (txt " ")) (g2 :: groups))).
    unfold words.
    change (Str.join (txt " ") g ++ [NL] ++ ?r) with (Str.join (txt " ") g ++ NL :: r).
    rewrite (words_line " "%char NL) by (reflexivity || exact Hg).
    simpl concat. f_equal. apply IH, H.
Qed.

(** What the loop has built after some words: lines made of groups of
    words, and the words of the line under way. *)
Lemma step_groups (w : text) (st : wrap) (groups : list (list text)) :
  lines st = map (Str.join (txt " ")) groups ->
  exists groups',
    lines (step st w) = map (Str.join (txt " ")) groups' /\
    concat groups' ++ current_line (step st w)
    = concat groups ++ current_line st ++ [w].
Proof.
  intros H. unfold step. destruct (80 <? line_length st + Str.len w + 1).
  - exists (groups ++ [current_line st]). simpl. split.
    + rewrite H, map_app. reflexivity.
    + rewrite concat_app. simpl. rewrite app_nil_r, <- app_assoc. reflexivity.
  - exists groups. simpl. split; [exact H|]. reflexivity.
Qed.

Lemma fold_groups (ws : list text) (st : wrap) (groups : list (list text)) :
  lines st = map (Str.join (txt " ")) groups ->
  exists groups',
    lines (fold_left step ws st) = map (Str.join (txt " ")) groups' /\
    concat groups' ++ current_line (fold_left step ws st)
    = concat groups ++ current_line st ++ ws.
Proof.
  revert st groups. induction ws as [|w ws IH]; intros st groups H.
  - exists groups. rewrite app_nil_r. split; [exact H|reflexivity].
  - simpl fold_left.
    destruct (step_groups w st groups H) as (groups1 & Hl1 & Hc1).
    destruct (IH (step st w) groups1 Hl1) as (groups' & Hl & Hc).
    exists groups'. split; [exact Hl|].
    rewrite Hc, app_assoc, Hc1, <- !app_assoc. reflexivity.
Qed.

(** The lines of [format_response] are groups of the words of the text, in
    order. *)
Lemma format_lines_groups (s : text) :
  exists groups,
    format_lines s = map (Str.join (txt " ")) groups /\ concat groups = words s.
Proof.
  unfold format_lines. cbv zeta. rewrite words_normalised.
  destruct (fold_groups (words s) (Wrap [] [] 0) []) as (groups & Hl & Hc);
    [reflexivity|].
  simpl in Hc.
  destruct (current_line (fold_left step (words s) (Wrap [] [] 0))) as [|w cur] eqn:E.
  - exists groups. rewrite app_nil_r in Hc. split; assumption.
  - exists (groups ++ [w :: cur]). split.
    + rewrite Hl, map_app. reflexivity.
    + rewrite concat_app. simpl. rewrite app_nil_r. exact Hc.
Qed.

Lemma join_snoc_length (sep : text) (l : list text) (w : text) :
  (length (Str.join sep (l ++ [w])) <= length (Str.join sep l) + length sep + length w)%nat.
Proof.
  induction l as [|p l IH]; [simpl; lia|].
  destruct l as [|q l].
  - simpl. rewrite !length_app. lia.
  - change (Str.join sep ((p :: q :: l) ++ [w]))
      with (p ++ sep ++ Str.join sep ((q :: l) ++ [w])).
    change (Str.join sep (p :: q :: l)) with (p ++ sep ++ Str.join sep (q :: l)).
    rewrite !length_app in *. lia.
Qed.

(** The loop keeps every finished line within the width, a word too long to
    fit apart, and counts at least the length of the line under way. *)
Lemma step_fits (all : list text) (w : text) (st : wrap) :
  w ∈ all ->
  Forall (fun l => fits l \/ l ∈ all) (lines st) ->
  Str.len (Str.join (txt " ") (current_line st)) <= line_length st ->
  line_length st <= 80 \/ (exists x, current_line st = [x] /\ x ∈ all) ->
  Forall (fun l => fits l \/ l ∈ all) (lines (step st w)) /\
  Str.len (Str.join (txt " ") (current_line (step st w))) <= line_length (step st w) /\
  (line_length (step st w) <= 80
   \/ (exists x, current_line (step st w) = [x] /\ x ∈ all)).
Proof.
  intros Hw Hl Hlen Hc. unfold step.
  destruct (Z.ltb_spec 80 (line_length st + Str.len w + 1)) as [Hflush|Hroom];
    cbn [lines current_line line_length].
  - split; [|split; [reflexivity|right; eauto]].
    apply Forall_app. split; [exact Hl|]. constructor; [|constructor].
    destruct Hc as [H80|(x & -> & Hx)]; [left|right; exact Hx].
    unfold fits, Str.len in *. lia.
  - split; [exact Hl|split; [|left; lia]].
    pose proof (join_snoc_length (txt " ") (current_line st) w) as Hj.
    change (length (txt " ")) with 1%nat in Hj.
    unfold Str.len in *. lia.
Qed.

Lemma fold_fits (all : list text) (ws : list text) (st : wrap) :
  (forall w, w ∈ ws -> w ∈ all) ->
  Forall (fun l => fits l \/ l ∈ all) (lines st) ->
  Str.len (Str.join (txt " ") (current_line st)) <= line_length st ->
  line_length st <= 80 \/ (exists w, current_line st = [w] /\ w ∈ all) ->
  let st' := fold_left step ws st in
  Forall (fun l => fits l \/ l ∈ all) (lines st') /\
  (fits (Str.join (txt " ") (current_line st'))
   \/ Str.join (txt " ") (current_line st') ∈ all).
Proof.
  revert st. induction ws as [|w ws IH]; intros st Hin Hl Hlen Hc.
  - cbn [fold_left]. split; [exact Hl|].
    destruct Hc as [H80|(x & -> & Hx)]; [left|right; exact Hx].
    unfold fits, Str.len in *. lia.
  - simpl fold_left.
    destruct (step_fits all w st) as (Hl1 & Hlen1 & Hc1); try assumption.
    { apply Hin. left. }
    apply IH; try assumption.
    intros x Hx. apply Hin. right. exact Hx.
Qed.

(** A line is longer than eighty characters only when it is one word. *)
Lemma format_lines_fit (s : text) :
  Forall (fun l => fits l \/ l ∈ words s) (format_lines s).
Proof.
  unfold format_lines. cbv zeta. rewrite words_normalised.
  destruct (fold_fits (words s) (words s) (Wrap [] [] 0)) as [Hl Hc].
  - auto.
  - constructor.
  - reflexivity.
  - left. cbn [line_length]. lia.
  - destruct (current_line (fold_left step (words s) (Wrap [] [] 0))) as [|w cur];
      [exact Hl|].
    apply Forall_app. split; [exact Hl|]. constructor; [exact Hc|constructor].
Qed.

Lemma groups_solid (groups : list (list text)) (s : text) :
  concat groups = words s -> Forall (Forall solid) groups.
Proof.
  intros H. pose proof (words_solid s) as Hs. rewrite <- H in Hs. clear H.
  induction groups as [|g groups IH]; [constructor|].
  simpl in Hs. apply Forall_app in Hs as [Hg Hs].
  constructor; [exact Hg|apply IH, Hs].
Qed.

Lemma words_format_response (s : text) : words (format_response s) = words s.
Proof.
  destruct (format_lines_groups s) as (groups & Hl & Hc).
  unfold format_response. rewrite Hl, words_lines by exact (groups_solid _ _ Hc).
  exact Hc.
Qed.

(** [format_response] looks at the words of its argument only. *)
Lemma format_lines_words (s t : text) :
  words s = words t -> format_lines s = format_lines t.
Proof. intros H. unfold format_lines. cbv zeta. rewrite H. reflexivity. Qed.

(** The function on two texts, as Python computes it. *)
Example wraps_and_trims :
  format_response (txt "  a  b" ++ [NL] ++ txt " c" ++ [TAB]) = txt "a b c".
Proof. reflexivity. Qed.

Example long_first_word :
  map length (format_lines (concat (replicate 80 (txt "x")) ++ txt " y"))
  = [0; 80; 1]%nat.
Proof. vm_compute. reflexivity. Qed.

End FormatFacts.

(** X15.  [format_response] of [chat_advanced.py] breaks the response into
    lines of at most eighty characters; a line is longer only when it is a
    single word that is longer. *)
Theorem wrapped_lines_fit (response : text) :
  Forall (fun line => (length line <= 80)%nat \/ line ∈ Format.words response)
         (Format.format_lines response).
Proof. exact (FormatFacts.format_lines_fit response). Qed.

(** X16.  [format_response] changes the white space only: the words of the
    text it returns are the words of the response, in order; hence
    formatting a formatted text changes nothing. *)
Theorem wrapping_keeps_words (response : text) :
  Format.words (Format.format_response response) = Format.words response /\
  Format.format_response (Format.format_response response)
  = Format.format_response response.
Proof.
  split; [apply FormatFacts.words_format_response|].
  unfold Format.format_response at 1 3. f_equal.
  apply FormatFacts.format_lines_words, FormatFacts.words_format_response.
Qed.

(** ** The session of [chat_streaming.py] *)

Module StreamingFacts.
Section facts.
Import StreamingChat Run.
Context {F : Type}.
Variable py_float : text -> option F.
Variable py_int : text -> option Z.
Variable literal : Q -> F.
Variable str_float : F -> text.
Variable windows : bool.
Variable path_exists : text -> bool.

Local Abbreviation Chat := (Advanced.BitNetChatAdvanced (F := F)).
Local Abbreviation W := (world Chat).
Local Abbreviation generate_response_streaming :=
  (generate_response_streaming literal str_float windows path_exists).
Local Abbreviation ask := (ask literal str_float windows path_exists).
Local Abbreviation command := (command py_float py_int str_float).
Local Abbreviation turn := (turn py_float py_int literal str_float windows path_exists).
Local Abbreviation run := (run py_float py_int literal str_float windows path_exists).

(** A successful result of the extractor has a response. *)
Lemma success_response (out : text) (err : option text) :
  Streaming.success (Streaming.extract_response_streaming out err) = true ->
  Streaming.response (Streaming.extract_response_streaming out err) <> [].
Proof.
  unfold Streaming.extract_response_streaming.
  destruct (Streaming.read_loop Streaming.start out) as [st remaining]. cbn.
  destruct (Str.printable_only _); [discriminate|]. intros _. discriminate.
Qed.

(** [generate_response_streaming] returns a result or waits forever; it
    leaves the object as it is. *)
Lemma generate_cases (prompt : text) (w : W) :
  (exists r w1, generate_response_streaming prompt w = Py.Val r w1 /\
                self w1 = self w /\
                (Streaming.success r = true -> Streaming.response r <> [])) \/
  (exists w1, generate_response_streaming prompt w = Py.Hang w1 /\
              self w1 = self w /\
              engine w (length (launches w)) = NeverExits).
Proof.
  unfold StreamingChat.generate_response_streaming, Py.try, mbind, M_bind, Py.bind,
    Sys.this, Sys.subprocess_run.
  destruct (engine w (length (launches w))) as [seconds rc out err| |what]; cbn.
  - left. eexists _, _. split; [reflexivity|]. split; [reflexivity|].
    apply success_response.
  - right. eexists. repeat split.
  - left. eexists _, _. split; [reflexivity|]. split; [reflexivity|]. discriminate.
Qed.

Lemma truncate_tidy (c : Chat) :
  Advanced.fifo c ->
  Forall (fun e : Advanced.entry => e.1.2 <> []) (Advanced.conversation_history c) ->
  tidy (truncate c).
Proof.
  intros Hs Hall. unfold truncate, tidy, Advanced.fifo in *.
  destruct (Nat.ltb_spec 20 (length (Advanced.conversation_history c))) as [Hlt|Hle].
  - cbn. split; [apply BasicFacts.last_n_length|].
    split; [etrans; [apply suffix_drop | exact Hs]|].
    apply Forall_drop, Hall.
  - split; [lia|]. split; assumption.
Qed.

(** A question that is not empty, with its answer, is recorded within the
    bound. *)
Lemma keeps_ask_tidy (user_input : text) :
  user_input <> [] -> preserves (on_self tidy) (ask user_input).
Proof.
  intros Hne w (Hlen & Hs & Hall). unfold StreamingChat.ask.
  destruct (generate_cases user_input w)
    as [(r & w1 & E & Hself & Hr)|(w1 & E & Hself & _)].
  - rewrite (bind_val _ _ _ _ _ E).
    destruct (Streaming.success r) eqn:Es.
    + destruct (negb (Qle_bool (Streaming.tokens_per_second r) 0));
        unfold on_self, mbind, M_bind, Py.bind, mret, M_ret, Py.ret, Sys.print,
          Sys.say, Sys.now, Sys.update, Py.modify; cbn; rewrite Hself;
        (apply truncate_tidy;
         [ apply (suffix_app _ _ [_]), (suffix_app _ _ [_]), Hs
         | cbn; rewrite !Forall_app; repeat split;
           [exact Hall | constructor; [exact Hne|constructor]
           | constructor; [exact (Hr eq_refl)|constructor]] ]).
    + unfold on_self, mbind, M_bind, Py.bind, mret, M_ret, Py.ret, Sys.print,
        Py.modify. cbn. rewrite Hself. repeat split; assumption.
  - rewrite (bind_hang _ _ _ _ E). unfold on_self. cbn. rewrite Hself.
    repeat split; assumption.
Qed.

Lemma clear_tidy (c : Chat) : tidy (Advanced.set_history [] c).
Proof. split; [cbn; lia|]. split; [apply suffix_nil|constructor]. Qed.

Lemma keep_tidy (f : Chat -> Chat) :
  (forall c, Advanced.conversation_history (f c) = Advanced.conversation_history c) ->
  (forall c, Advanced.appended (f c) = Advanced.appended c) ->
  preserves (on_self tidy) (Sys.update f).
Proof.
  intros Hh Ha w H. unfold on_self, tidy, Advanced.fifo in *. cbn.
  rewrite Hh, Ha. exact H.
Qed.

Lemma keeps_command_tidy (user_input : text) :
  preserves (on_self tidy) (command user_input).
Proof.
  unfold StreamingChat.command, save_conversation, StreamingChat.print_banner,
    Advanced.show_help, Advanced.change_settings, Advanced.read_value,
    Advanced.show_settings.
  keeps; first [apply keep_tidy; reflexivity
               |apply keeps_update; intros c _; apply clear_tidy].
Qed.

Lemma strip_nonempty (s : text) : Str.nonempty s = true -> s <> [].
Proof. destruct s; [discriminate|]. intros _. discriminate. Qed.

Lemma keeps_turn_tidy : preserves (on_self tidy) turn.
Proof.
  unfold StreamingChat.turn.
  apply preserves_try.
  - apply preserves_bind; [keeps|intros line]. cbv zeta.
    destruct (Str.nonempty (Str.strip line)) eqn:E; cbn [negb]; [|keeps].
    destruct (Str.startswith _ _); [apply keeps_command_tidy|].
    apply keeps_ask_tidy, strip_nonempty, E.
  - intros e h He. destruct e; simplify_eq; keeps.
Qed.

Lemma keeps_run_tidy (n : nat) : preserves (on_self tidy) (run n).
Proof.
  unfold StreamingChat.run, StreamingChat.print_banner. keeps.
  apply preserves_iterate, keeps_turn_tidy.
Qed.

Lemma init_tidy (path : text) (w : W) :
  on_self tidy (Py.state (init literal path w)).
Proof.
  split; [apply Nat.le_0_l|]. split; [apply suffix_nil|apply Forall_nil_2].
Qed.

(** Without a timeout, a question waits for the engine for ever. *)
Lemma turn_hangs (w : W) (line : text) (rest : list text) :
  stdin w = line :: rest ->
  Str.nonempty (Str.strip line) = true ->
  Str.startswith (txt "/") (Str.strip line) = false ->
  engine w (length (launches w)) = NeverExits ->
  exists w', turn w = Py.Hang w' /\ self w' = self w.
Proof.
  intros Hin Hne Hcmd Hengine.
  destruct (generate_cases (Str.strip line) (Sys.set_stdin rest w))
    as [(r & w1 & E & _)|(w1 & E & Hself & _)].
  { exfalso. revert E.
    unfold StreamingChat.generate_response_streaming, Py.try, mbind, M_bind, Py.bind,
      Sys.this, Sys.subprocess_run. cbn. rewrite Hengine. discriminate. }
  exists w1. split; [|exact Hself].
  unfold StreamingChat.turn, Py.try.
  erewrite bind_val; cycle 1.
  { unfold Sys.input. rewrite Hin. reflexivity. }
  cbv zeta. rewrite Hne, Hcmd. cbn [negb].
  unfold StreamingChat.ask. rewrite (bind_hang _ _ _ _ E). reflexivity.
Qed.

End facts.
End StreamingFacts.

(** X17.  In a session of [chat_streaming.py], from [__init__] on and after
    any number of turns, the transcript holds at most twenty entries, it is a
    suffix of the sequence of all entries appended, and no entry has an empty
    message: a question is recorded only when it is not empty and its answer
    only when the extractor found a response. *)
Theorem streaming_transcript_tidy {F : Type}
    (py_float : text -> option F) (py_int : text -> option Z)
    (literal : Q -> F) (str_float : F -> text)
    (windows : bool) (path_exists : text -> bool)
    (path : text) (n : nat) (w : world (Advanced.BitNetChatAdvanced (F := F))) :
  let c := self (Py.state ((StreamingChat.init literal path;;
                            StreamingChat.run py_float py_int literal str_float
                              windows path_exists n) w)) in
  (length (Advanced.conversation_history c) <= 20)%nat /\
  Advanced.conversation_history c `suffix_of` Advanced.appended c /\
  Forall (fun e : Advanced.entry => e.1.2 <> []) (Advanced.conversation_history c).
Proof.
  intros c. subst c. unfold mbind, M_bind, Py.bind.
  pose proof (StreamingFacts.init_tidy literal path w) as Hinit.
  destruct (StreamingChat.init literal path w) as [[] w'|e w'|w'] eqn:E;
    [|discriminate E..].
  exact (StreamingFacts.keeps_run_tidy py_float py_int literal str_float
           windows path_exists n w' Hinit).
Qed.

(** X18.  [chat_streaming.py] starts the engine without a timeout: when the
    engine launched for a question never exits, the iteration of the loop
    never ends, and the transcript is as it was. *)
Theorem streaming_waits_forever {F : Type}
    (py_float : text -> option F) (py_int : text -> option Z)
    (literal : Q -> F) (str_float : F -> text)
    (windows : bool) (path_exists : text -> bool)
    (w : world (Advanced.BitNetChatAdvanced (F := F)))
    (line : text) (rest : list text) :
  stdin w = line :: rest ->
  Str.nonempty (Str.strip line) = true ->
  Str.startswith (txt "/") (Str.strip line) = false ->
  engine w (length (launches w)) = NeverExits ->
  let r := StreamingChat.turn py_float py_int literal str_float windows path_exists w in
  Py.returns r = false /\
  (forall e, r <> Py.Raise e (Py.state r)) /\
  self (Py.state r) = self w.
Proof.
  intros Hin Hne Hcmd Hengine r. subst r.
  destruct (StreamingFacts.turn_hangs py_float py_int literal str_float windows
              path_exists w line rest Hin Hne Hcmd Hengine) as (w' & E & Hself).
  rewrite E. split; [reflexivity|]. split; [discriminate|exact Hself].
Qed.

Lemma streaming_waits_forever_witness :
  let w := Example.host Example.blank [txt "hi"] NeverExits in
  engine w (length (launches w)) = NeverExits /\
  Py.returns (StreamingChat.turn Example.py_float Example.py_int Example.literal
                Example.str_float false (fun _ => true) w) = false.
Proof.
  intros w. split; [reflexivity|].
  apply (streaming_waits_forever Example.py_float Example.py_int Example.literal
           Example.str_float false (fun _ => true) w (txt "hi") []);
    reflexivity.
Defined.

(** ** Invariants of the object and the environment *)

Module Steady.
Section system.
Import Run.
Context {Obj : Type}.
Variable I : world Obj -> Prop.
Hypothesis HI : steady I.

Lemma steady_input : preserves I (@Sys.input Obj).
Proof.
  intros w H. unfold Sys.input.
  destruct (stdin w); simpl; [exact H|]. eapply HI; [..|exact H]; reflexivity.
Qed.

Lemma steady_print (m : msg) : preserves I (@Sys.print Obj m).
Proof. intros w H. eapply HI; [..|exact H]; reflexivity. Qed.

Lemma steady_say (s : string) : preserves I (@Sys.say Obj s).
Proof. intros w H. eapply HI; [..|exact H]; reflexivity. Qed.

Lemma steady_print_all (ms : list msg) : preserves I (@Sys.print_all Obj ms).
Proof. intros w H. eapply HI; [..|exact H]; reflexivity. Qed.

Lemma steady_now : preserves I (@Sys.now Obj).
Proof. intros w H. eapply HI; [..|exact H]; reflexivity. Qed.

Lemma steady_this : preserves I (@Sys.this Obj).
Proof. intros w H. exact H. Qed.

Lemma steady_environ_copy : preserves I (@Sys.environ_copy Obj).
Proof. intros w H. exact H. Qed.

Lemma steady_subprocess_run cmd t e :
  preserves I (@Sys.subprocess_run Obj cmd t e).
Proof.
  intros w H. unfold Sys.subprocess_run.
  destruct (engine w _) as [seconds rc out err| |what]; [|destruct t|];
    try (eapply HI; [..|exact H]; reflexivity).
  destruct t as [t|]; [destruct (t <? seconds)%nat|];
    (eapply HI; [..|exact H]; reflexivity).
Qed.

End system.

Lemma steady_settled {Obj} (o : Obj) (e : gmap string text) : steady (settled o e).
Proof. intros w w' Hs He [H1 H2]. split; congruence. Qed.

End Steady.

Create HintDb steady.

#[global] Hint Resolve Run.preserves_ret Run.preserves_raise Steady.steady_input
  Steady.steady_print Steady.steady_say Steady.steady_print_all Steady.steady_now
  Steady.steady_this Steady.steady_environ_copy Steady.steady_subprocess_run
  Steady.steady_settled : steady.

Ltac steady :=
  repeat first
    [ apply Run.preserves_bind; [|intros]
    | apply Run.preserves_try; [|intros ? ? ?]
    | solve [auto with steady]
    | match goal with
      | |- preserves _ (if ?b then _ else _) => destruct b
      | |- preserves _ (match ?x with _ => _ end) => destruct x
      | H : (match ?e with _ => _ end) = Some _ |- _ => destruct e; simplify_eq
      | H : (if ?b then _ else _) = Some _ |- _ => destruct b; simplify_eq
      | H : Some _ = Some _ |- _ => simplify_eq
      end ].

(** ** [run_inference_optimized.py] *)

Module OptimizedFacts.
Section facts.
Import RunOptimized Run.
Context {F : Type}.
Variable str_float : F -> text.
Variable truthy : F -> bool.
Variable cpu_count : Z.
Variable system : text.
Variable path_exists : text -> bool.

Local Abbreviation W := (world (args (F := F))).
Local Abbreviation run_inference :=
  (run_inference str_float truthy cpu_count system path_exists).
Local Abbreviation command := (command str_float truthy system path_exists).
Local Abbreviation auto := (get_optimal_thread_count cpu_count).

Local Abbreviation count a := (if 0 <? threads a then threads a else auto).

Lemma set_performance_env_state (w : W) :
  set_performance_env cpu_count w =
  Py.Val auto (Sys.set_environ (tuned auto (environ w)) w).
Proof. reflexivity. Qed.

Lemma choose_threads_state (w : W) (a : args) :
  exists w',
    choose_threads a auto w = Py.Val (count a) w' /\
    self w' = self w /\ launches w' = launches w /\
    engine w' = engine w /\
    environ w' = (if 0 <? threads a
                  then <["MKL_NUM_THREADS" := str_int (threads a)]>
                         (<["OMP_NUM_THREADS" := str_int (threads a)]> (environ w))
                  else environ w).
Proof.
  unfold choose_threads. destruct (0 <? threads a); eexists; repeat split.
Qed.

(** The probe comes back unless its process never exits; whatever else
    happens to it is ignored. *)
Lemma check_cpu_governor_state (w : W) :
  (Str.eqb system (txt "Linux") = true ->
   engine w (length (launches w)) <> NeverExits) ->
  exists w',
    check_cpu_governor system w = Py.Val tt w' /\
    self w' = self w /\ environ w' = environ w /\ engine w' = engine w /\
    launches w' = launches w ++
      (if Str.eqb system (txt "Linux")
       then [Launch governor_probe None (environ w)] else []).
Proof.
  intros H. unfold check_cpu_governor.
  destruct (Str.eqb system (txt "Linux")).
  - specialize (H eq_refl).
    unfold Py.try, mbind, M_bind, Py.bind, Sys.subprocess_run.
    destruct (engine w (length (launches w))) as [seconds rc out err| |what];
      [|congruence|]; cbn.
    + destruct (rc =? 0); [destruct (negb _)|]; eexists; repeat split.
    + eexists; repeat split.
  - eexists. rewrite app_nil_r. repeat split.
Qed.

Lemma optimized_run_command_state (cmd : list text) (w : W) :
  let w' := Py.state (run_command cmd w) in
  self w' = self w /\ environ w' = environ w /\
  launches w' = launches w ++ [Launch cmd None (environ w)].
Proof.
  unfold run_command, mbind, M_bind, Py.bind, Sys.subprocess_run.
  destruct (engine w (length (launches w))) as [seconds rc out err| |what];
    cbn; [destruct (rc =? 0)|..]; cbn; repeat split.
Qed.

(** Nothing after the choice of the thread count touches the arguments or
    the environment. *)
Lemma tail_settled (a a0 : args) (e : gmap string text) (n : Z) :
  preserves (settled a0 e)
    (Sys.print (Line (txt "Running BitNet inference with " ++ str_int n
                      ++ txt " threads"));;
     Sys.say "Model";;
     Sys.print (Line []);;
     check_cpu_governor system;;
     run_command (command a n) : Py.M W unit).
Proof. unfold check_cpu_governor, run_command. steady. Qed.

Lemma run_inference_settled (w : W) :
  settled (self w) (tuned_for auto (threads (self w)) (environ w))
          (Py.state (run_inference w)).
Proof.
  unfold RunOptimized.run_inference.
  rewrite (bind_val _ _ _ _ _ (set_performance_env_state w)).
  erewrite bind_val by reflexivity.
  destruct (choose_threads_state (Sys.set_environ (tuned auto (environ w)) w) (self w))
    as (w1 & E & Hself & _ & _ & Henv).
  cbn [self] in E. rewrite (bind_val _ _ _ _ _ E).
  apply tail_settled. split; [exact Hself|].
  rewrite Henv. unfold tuned_for. reflexivity.
Qed.

(** When the probe comes back, the engine is launched after it. *)
Lemma run_inference_launches (w : W) :
  (Str.eqb system (txt "Linux") = true ->
   engine w (length (launches w)) <> NeverExits) ->
  launches (Py.state (run_inference w)) =
  launches w
  ++ (if Str.eqb system (txt "Linux")
      then [Launch governor_probe None (tuned_for auto (threads (self w)) (environ w))]
      else [])
  ++ [Launch (command (self w) (count (self w))) None
        (tuned_for auto (threads (self w)) (environ w))].
Proof.
  intros Hprobe. unfold RunOptimized.run_inference.
  rewrite (bind_val _ _ _ _ _ (set_performance_env_state w)).
  erewrite bind_val by reflexivity.
  destruct (choose_threads_state (Sys.set_environ (tuned auto (environ w)) w) (self w))
    as (w1 & E & Hself & Hl & Hengine & Henv).
  cbn [self] in E. rewrite (bind_val _ _ _ _ _ E).
  do 3 (erewrite bind_val by reflexivity).
  set (w2 := Sys.set_console _ _).
  destruct (check_cpu_governor_state w2) as (w3 & E3 & Hself3 & Henv3 & Hengine3 & Hl3).
  { subst w2. cbn. rewrite Hengine, Hl. exact Hprobe. }
  rewrite (bind_val _ _ _ _ _ E3).
  match goal with
  | |- launches (Py.state (run_command ?c ?w0)) = _ =>
      destruct (optimized_run_command_state c w0) as (_ & _ & Hl4)
  end.
  rewrite Hl4, Hl3, Henv3. subst w2. cbn. rewrite Hl, Henv.
  unfold tuned_for. cbn. rewrite <- app_assoc. reflexivity.
Qed.

End facts.
End OptimizedFacts.

(** X19.  [run_inference] of [run_inference_optimized.py] leaves
    [OMP_NUM_THREADS] and [MKL_NUM_THREADS] at the thread count of the run,
    the count given with [-t] when it is positive and [min(cpu_count, 12)]
    otherwise, and the three other thread variables at [min(cpu_count, 12)]
    in every case, whatever the environment it is started in and whatever
    becomes of the processes it launches. *)
Theorem optimized_thread_environment {F : Type}
    (str_float : F -> text) (truthy : F -> bool) (cpu_count : Z) (system : text)
    (path_exists : text -> bool) (w : world (RunOptimized.args (F := F))) :
  let w' := Py.state (RunOptimized.run_inference str_float truthy cpu_count system
                        path_exists w) in
  let auto := Z.min cpu_count 12 in
  let n := if 0 <? RunOptimized.threads (self w)
           then RunOptimized.threads (self w) else auto in
  self w' = self w /\
  environ w' !! "OMP_NUM_THREADS" = Some (str_int n) /\
  environ w' !! "MKL_NUM_THREADS" = Some (str_int n) /\
  environ w' !! "OPENBLAS_NUM_THREADS" = Some (str_int auto) /\
  environ w' !! "VECLIB_MAXIMUM_THREADS" = Some (str_int auto) /\
  environ w' !! "NUMEXPR_NUM_THREADS" = Some (str_int auto).
Proof.
  intros w' auto n. subst w' auto n.
  destruct (OptimizedFacts.run_inference_settled str_float truthy cpu_count system
              path_exists w) as [Hself Henv].
  rewrite Henv. split; [exact Hself|].
  unfold tuned_for, tuned, RunOptimized.get_optimal_thread_count.
  destruct (0 <? RunOptimized.threads (self w));
    repeat split;
    repeat first [rewrite lookup_insert_eq | rewrite lookup_insert_ne by discriminate];
    reflexivity.
Qed.

(** X20.  Unless the governor probe never exits, [run_inference] of
    [run_inference_optimized.py] launches the engine, after the probe on
    Linux and as its only process elsewhere, with the thread count of the
    run after [-t] and in the environment it has prepared; a probe that
    fails or cannot be launched is ignored. *)
Theorem optimized_engine_launch {F : Type}
    (str_float : F -> text) (truthy : F -> bool) (cpu_count : Z) (system : text)
    (path_exists : text -> bool) (w : world (RunOptimized.args (F := F))) :
  (Str.eqb system (txt "Linux") = true ->
   engine w (length (launches w)) <> NeverExits) ->
  let w' := Py.state (RunOptimized.run_inference str_float truthy cpu_count system
                        path_exists w) in
  let n := if 0 <? RunOptimized.threads (self w)
           then RunOptimized.threads (self w) else Z.min cpu_count 12 in
  exists cmd,
    launches w' =
      launches w
      ++ (if Str.eqb system (txt "Linux")
          then [Launch RunOptimized.governor_probe None (environ w')] else [])
      ++ [Launch cmd None (environ w')] /\
    cmd !! 5%nat = Some (txt "-t") /\ cmd !! 6%nat = Some (str_int n).
Proof.
  intros Hprobe w' n. subst w' n.
  destruct (OptimizedFacts.run_inference_settled str_float truthy cpu_count system
              path_exists w) as [_ Henv].
  rewrite Henv.
  rewrite (OptimizedFacts.run_inference_launches str_float truthy cpu_count system
             path_exists w Hprobe).
  eexists. split; [reflexivity|]. split; reflexivity.
Qed.

Lemma optimized_engine_launch_witness :
  let w := Sample.barren Sample.optimized_args in
  engine w (length (launches w)) <> NeverExits /\
  exists cmd,
    last (launches (Py.state (RunOptimized.run_inference Example.str_float
                                (fun _ => true) 16 (txt "Linux") (fun _ => true) w)))
    = Some (Launch cmd None
              (environ (Py.state (RunOptimized.run_inference Example.str_float
                                    (fun _ => true) 16 (txt "Linux") (fun _ => true) w)))) /\
    cmd !! 6%nat = Some (txt "4").
Proof.
  intros w. split; [discriminate|].
  destruct (optimized_engine_launch Example.str_float (fun _ => true) 16 (txt "Linux")
              (fun _ => true) w) as (cmd & Hl & _ & Ht).
  { intros _. discriminate. }
  exists cmd. split; [|exact Ht].
  rewrite Hl, app_assoc. apply last_snoc.
Defined.

(** ** What becomes of the processes launched *)

Module ExitFacts.
Section facts.
Import RunInference Run.
Context {F : Type}.
Variable str_float : F -> text.
Variable cpu_count : Z.
Variable windows : bool.
Variable path_exists : text -> bool.

Local Abbreviation W := (world (args (F := F))).
Local Abbreviation run_inference := (run_inference str_float cpu_count windows path_exists).

(** The thread detection launches nothing and always returns. *)
Lemma detect_threads_quiet (w : W) :
  exists w', detect_threads cpu_count w = Py.Val tt w' /\
             engine w' = engine w /\ launches w' = launches w /\
             console w' = console w.
Proof.
  unfold detect_threads, mbind, M_bind, Py.bind, Sys.this.
  destruct (threads (self w) <=? 0); eexists; repeat split.
Qed.

(** Every way [run_inference] ends, by what becomes of the engine; the line
    it prints on a failure names the command launched and its exit status. *)
Lemma run_inference_result (w : W) :
  match engine w (length (launches w)) with
  | Exits _ rc _ _ =>
      if rc =? 0 then exists w', run_inference w = Py.Val tt w'
      else exists w' command,
             run_inference w = Py.Raise (Py.SystemExit 1) w' /\
             last (launches w') = Some (Launch command None (environ w')) /\
             console w' = console w ++ [CommandFailed command rc]
  | NeverExits => exists w', run_inference w = Py.Hang w'
  | LaunchFails what => exists w', run_inference w = Py.Raise (Py.OSError what) w'
  end.
Proof.
  unfold RunInference.run_inference.
  destruct (detect_threads_quiet w) as (w1 & E & Hengine & Hl & Hc).
  rewrite (bind_val _ _ _ _ _ E).
  erewrite bind_val by reflexivity.
  unfold run_command, mbind, M_bind, Py.bind, Sys.subprocess_run.
  rewrite Hengine, Hl.
  destruct (engine w (length (launches w))) as [seconds rc out err| |what]; cbn.
  - destruct (rc =? 0); cbn; [eexists; reflexivity|].
    eexists _, _. split; [reflexivity|]. cbn. rewrite Hc.
    split; [apply last_snoc|reflexivity].
  - eexists. reflexivity.
  - eexists. reflexivity.
Qed.

End facts.
End ExitFacts.

Module WrapperFacts.
Section facts.
Import Run.
Context {Obj : Type}.

Local Abbreviation W := (world Obj).

Lemma run_single_inference_state (prompt : text) (max_tokens n : Z) (w : W) :
  let w' := Py.state (Parallel.run_single_inference prompt max_tokens n w) in
  self w' = self w /\ environ w' = environ w /\
  launches w' = launches w ++
    [Launch (Parallel.cmd prompt max_tokens n) (Some 60%nat)
            (Parallel.child_env n (environ w))].
Proof.
  unfold Parallel.run_single_inference, Py.try, mbind, M_bind, Py.bind,
    Sys.environ_copy, Sys.subprocess_run.
  cbn -[Nat.ltb].
  destruct (engine w (length (launches w))) as [seconds rc out err| |what]; cbn -[Nat.ltb].
  - destruct (60 <? seconds)%nat; cbn -[Nat.ltb]; [repeat split|].
    destruct (Str.contains prompt out); [destruct (Str.nonempty prompt)|]; cbn -[Nat.ltb];
      repeat split.
  - repeat split.
  - repeat split.
Qed.

Lemma run_single_benchmark_state (prompt : text) (n num_tokens : Z)
    (performance_mode : bool) (w : W) :
  let w' := Py.state (Benchmark.run_single_benchmark prompt n num_tokens
                        performance_mode w) in
  self w' = self w /\ environ w' = environ w /\
  launches w' = launches w ++
    [Launch (Benchmark.cmd prompt n num_tokens performance_mode) None
            (Benchmark.child_env n (environ w))].
Proof.
  unfold Benchmark.run_single_benchmark, mbind, M_bind, Py.bind,
    Sys.environ_copy, Sys.subprocess_run.
  cbn -[Nat.ltb].
  destruct (engine w (length (launches w))) as [seconds rc out err| |what]; cbn -[Nat.ltb];
    repeat split.
Qed.

(** What [run_single_inference] returns when it returns. *)
Lemma run_single_inference_outcome (prompt : text) (max_tokens n : Z) (w w' : W)
    (r : Parallel.outcome) :
  Parallel.run_single_inference prompt max_tokens n w = Py.Val r w' ->
  (length (Parallel.output r) <= 200)%nat /\
  Parallel.prompt_of r = prompt /\ Parallel.threads r = n /\
  (Parallel.success r = true ->
   exists seconds out err,
     engine w (length (launches w)) = Exits seconds 0 out err /\ (seconds <= 60)%nat).
Proof.
  unfold Parallel.run_single_inference, Py.try, mbind, M_bind, Py.bind,
    Sys.environ_copy, Sys.subprocess_run.
  cbn -[Nat.ltb].
  destruct (engine w (length (launches w))) as [seconds rc out err| |what]; cbn -[Nat.ltb].
  - destruct (Nat.ltb_spec 60 seconds) as [Hlt|Hle]; cbn -[Nat.ltb].
    + intros [= <- <-]. cbn -[Nat.ltb]. repeat split; [lia|discriminate].
    + assert (Hr : forall output (r0 : Parallel.outcome),
                r0 = Parallel.Outcome prompt (Str.slice_to 200 output) (rc =? 0) n ->
                (length (Parallel.output r0) <= 200)%nat /\
                Parallel.prompt_of r0 = prompt /\ Parallel.threads r0 = n /\
                (Parallel.success r0 = true ->
                 exists seconds0 out0 err0,
                   Exits seconds rc out err = Exits seconds0 0 out0 err0 /\
                   (seconds0 <= 60)%nat)).
      { intros output r0 ->. cbn -[Nat.ltb]. unfold Str.slice_to. rewrite length_take.
        repeat split; [lia|].
        intros Hrc. apply Z.eqb_eq in Hrc. subst rc. eauto. }
      destruct (Str.contains prompt out); [destruct (Str.nonempty prompt)|]; cbn -[Nat.ltb];
        try discriminate; intros [= <- <-]; eapply Hr; reflexivity.
  - intros [= <- <-]. cbn -[Nat.ltb]. repeat split; [lia|discriminate].
  - discriminate.
Qed.

End facts.
End WrapperFacts.

(** X21.  [run_inference] of [run_inference.py] ends as its engine does: it
    returns when the engine exits with status 0; when the engine exits with
    another status it prints, as the only thing it prints, the line
    [Error occurred while running command: {e}] for the command it launched
    and that status, and exits with status 1; the failure to launch the
    engine is raised to the caller; and, since the engine runs without a
    timeout, it waits for ever for an engine that never exits. *)
Theorem inference_exit_status {F : Type} (str_float : F -> text) (cpu_count : Z)
    (windows : bool) (path_exists : text -> bool)
    (w : world (RunInference.args (F := F))) :
  let r := RunInference.run_inference str_float cpu_count windows path_exists w in
  match engine w (length (launches w)) with
  | Exits _ rc _ _ =>
      if rc =? 0 then exists w', r = Py.Val tt w'
      else exists w' command,
             r = Py.Raise (Py.SystemExit 1) w' /\
             last (launches w') = Some (Launch command None (environ w')) /\
             console w' = console w ++ [CommandFailed command rc]
  | NeverExits => exists w', r = Py.Hang w'
  | LaunchFails what => exists w', r = Py.Raise (Py.OSError what) w'
  end.
Proof.
  exact (ExitFacts.run_inference_result str_float cpu_count windows path_exists w).
Qed.

(** X22.  [run_single_inference] and [run_single_benchmark] never change
    [os.environ]: whatever becomes of it, the one process each of them
    launches, the first with a timeout of sixty seconds and the second with
    none, runs in a copy in which the thread variables hold the count passed
    with [-t] and every variable that the function does not set is as in
    [os.environ]. *)
Theorem children_run_in_a_copy {Obj : Type} (prompt : text) (tokens n : Z)
    (performance_mode : bool) (w : world Obj) :
  let w1 := Py.state (Parallel.run_single_inference prompt tokens n w) in
  let w2 := Py.state (Benchmark.run_single_benchmark prompt n tokens
                        performance_mode w) in
  (environ w1 = environ w /\
   exists l,
     launches w1 = launches w ++ [l] /\ timeout l = Some 60%nat /\
     argv l !! 8%nat = Some (txt "-t") /\ argv l !! 9%nat = Some (str_int n) /\
     env l !! "OMP_NUM_THREADS" = Some (str_int n) /\
     forall k : string,
       k ∉ ["OMP_NUM_THREADS"; "OMP_PROC_BIND"; "OMP_PLACES"]%string ->
       env l !! k = environ w !! k) /\
  (environ w2 = environ w /\
   exists l,
     launches w2 = launches w ++ [l] /\ timeout l = None /\
     argv l !! 10%nat = Some (txt "-t") /\ argv l !! 11%nat = Some (str_int n) /\
     env l !! "OMP_NUM_THREADS" = Some (str_int n) /\
     env l !! "MKL_NUM_THREADS" = Some (str_int n) /\
     env l !! "OPENBLAS_NUM_THREADS" = Some (str_int n) /\
     forall k : string,
       k ∉ ["OMP_NUM_THREADS"; "MKL_NUM_THREADS"; "OPENBLAS_NUM_THREADS";
            "OMP_PROC_BIND"; "OMP_PLACES"]%string ->
       env l !! k = environ w !! k).
Proof.
  intros w1 w2. subst w1 w2. split.
  - destruct (WrapperFacts.run_single_inference_state prompt tokens n w)
      as (_ & Henv & Hl).
    split; [exact Henv|]. eexists. split; [exact Hl|].
    cbn. unfold Parallel.child_env.
    repeat split;
      try (repeat first [rewrite lookup_insert_eq
                        | rewrite lookup_insert_ne by discriminate]; reflexivity).
    intros k Hk. rewrite !not_elem_of_cons in Hk. destruct Hk as (H1 & H2 & H3 & _).
    rewrite !lookup_insert_ne by congruence. reflexivity.
  - destruct (WrapperFacts.run_single_benchmark_state prompt n tokens
                performance_mode w) as (_ & Henv & Hl).
    split; [exact Henv|]. eexists. split; [exact Hl|].
    cbn. unfold Benchmark.child_env.
    repeat split;
      try (repeat first [rewrite lookup_insert_eq
                        | rewrite lookup_insert_ne by discriminate]; reflexivity).
    intros k Hk. rewrite !not_elem_of_cons in Hk.
    destruct Hk as (H1 & H2 & H3 & H4 & H5 & _).
    rewrite !lookup_insert_ne by congruence. reflexivity.
Qed.

(** X23.  A result that [run_single_inference] returns names the prompt and
    the thread count it was called with, its [output] has at most two
    hundred characters, and [success] is true only when the engine exited
    with status 0 within the sixty seconds. *)
Theorem single_inference_outcome {Obj : Type} (prompt : text) (max_tokens n : Z)
    (w w' : world Obj) (r : Parallel.outcome) :
  Parallel.run_single_inference prompt max_tokens n w = Py.Val r w' ->
  (length (Parallel.output r) <= 200)%nat /\
  Parallel.prompt_of r = prompt /\ Parallel.threads r = n /\
  (Parallel.success r = true ->
   exists seconds out err,
     engine w (length (launches w)) = Exits seconds 0 out err /\ (seconds <= 60)%nat).
Proof. apply WrapperFacts.run_single_inference_outcome. Qed.

Lemma single_inference_outcome_witness :
  let w := Example.host tt [] (Exits 1 0 (txt "Hello there") []) in
  exists r w',
    Parallel.run_single_inference (txt "Hello") 50 4 w = Py.Val r w' /\
    (length (Parallel.output r) <= 200)%nat.
Proof.
  intros w. eexists _, _. split; [reflexivity|].
  eapply (single_inference_outcome (txt "Hello") 50 4 w). reflexivity.
Defined.

(** ** What escapes the loop of [chat.py] *)

Module BasicLoop.
Import Basic Run.

Local Abbreviation W := (world BitNetChat).

Lemma lower_slash (c : ascii) : Char.lower c = "/"%char -> c = "/"%char.
Proof.
  destruct c as [[] [] [] [] [] [] [] []]; vm_compute; intros H;
    first [reflexivity | discriminate H].
Qed.

(** At the end of the input, the prompt that follows a command is not
    guarded. *)
Lemma turn_unguarded (w : W) (line : text) :
  stdin w = [line] ->
  Str.lower (Str.strip line) = txt "/save" \/ Str.lower (Str.strip line) = txt "/system" ->
  exists w', turn w = Py.Raise Py.EOFError w' /\ self w' = self w.
Proof.
  intros Hin Hcmd. unfold turn.
  erewrite bind_val; cycle 1.
  { unfold Py.try, mbind, M_bind, Py.bind, Sys.input. rewrite Hin. reflexivity. }
  assert (Hne : Str.nonempty (Str.strip line) = true).
  { destruct (Str.strip line); [|reflexivity]. destruct Hcmd; discriminate. }
  assert (Hslash : Str.startswith (txt "/") (Str.strip line) = true).
  { destruct (Str.strip line) as [|c s]; [discriminate Hne|].
    assert (Hc : Char.lower c = "/"%char) by (destruct Hcmd as [H|H]; injection H; auto).
    apply lower_slash in Hc. subst c. reflexivity. }
  cbv beta iota. rewrite Hne, Hslash. cbn [negb].
  unfold command. cbv zeta.
  destruct Hcmd as [H|H]; rewrite H;
    (eexists; split; [reflexivity|reflexivity]).
Qed.

End BasicLoop.

(** X24.  The loop of [chat.py] guards only its first [input]: when the
    input ends right after the command [/save] (once the file is written) or
    [/system], the [input] that the command calls raises [EOFError], which
    [run] does not catch, so the exception leaves the loop; the object is as
    it was. *)
Theorem command_prompt_unguarded (w : world Basic.BitNetChat) (line : text) :
  stdin w = [line] ->
  Str.lower (Str.strip line) = txt "/save" \/ Str.lower (Str.strip line) = txt "/system" ->
  exists w', Basic.turn w = Py.Raise Py.EOFError w' /\ self w' = self w.
Proof. apply BasicLoop.turn_unguarded. Qed.

Lemma command_prompt_unguarded_witness :
  let w := Example.host (Basic.Chat [] [] [] []) [txt " /Save "] Example.answers in
  exists w', Basic.turn w = Py.Raise Py.EOFError w'.
Proof.
  intros w.
  destruct (command_prompt_unguarded w (txt " /Save ")) as (w' & E & _);
    [reflexivity|left; reflexivity|].
  exists w'. exact E.
Defined.

(** ** A setting that is changed *)

Module ChangeFacts.
Section facts.
Import Advanced Run.
Context {F : Type}.
Variable py_float : text -> option F.
Variable py_int : text -> option Z.
Variable str_float : F -> text.

Local Abbreviation W := (world (BitNetChatAdvanced (F := F))).
Local Abbreviation change_settings := (change_settings py_float py_int str_float).
Local Abbreviation parse_value := (parse_value py_float py_int).

(** The dialogue of [change_settings] on a value that parses. *)
Lemma change_settings_valid (w : W) (name_line value_line : text)
    (rest : list text) (current new_value : value) :
  stdin w = name_line :: value_line :: rest ->
  Str.lower (Str.strip name_line) ∈ numeric_settings ->
  settings (self w) !! key (Str.lower (Str.strip name_line)) = Some current ->
  parse_value (Str.lower (Str.strip name_line)) value_line = Some new_value ->
  let name := Str.lower (Str.strip name_line) in
  let w' := Py.state (change_settings w) in
  self w' = set_settings (<[key name := new_value]> (settings (self w))) (self w) /\
  environ w' =
    (if Str.eqb name (txt "threads")
     then <["MKL_NUM_THREADS" := str_value str_float new_value]>
            (<["OMP_NUM_THREADS" := str_value str_float new_value]> (environ w))
     else environ w) /\
  console w' = console w ++
    [SettingsTable;
     Line (txt "Which setting would you like to change?");
     Line (txt "(Enter setting name or 'cancel' to go back)");
     Line (txt "Current " ++ name ++ txt ": " ++ str_value str_float current);
     Line (name ++ txt " updated to " ++ str_value str_float new_value ++ txt "!")].
Proof.
  intros Hin Hname Hcur Hparse name.
  destruct (SettingsFacts.numeric_name_tests _ Hname) as [Hcancel Hprompt].
  fold name in Hcancel, Hprompt, Hcur, Hparse.
  unfold Advanced.change_settings, show_settings.
  do 3 (erewrite bind_val by reflexivity).
  erewrite bind_val; cycle 1.
  { unfold Sys.input. cbn [stdin Sys.set_console]. rewrite Hin. reflexivity. }
  cbv zeta. fold name. rewrite Hcancel.
  erewrite bind_val by reflexivity.
  rewrite Hprompt.
  cbn [self Sys.set_stdin Sys.set_console]. rewrite Hcur.
  destruct (Str.eqb name (txt "threads"));
    (erewrite (bind_val (_ ≫= _));
     [|erewrite bind_val by reflexivity;
       erewrite try_val; [reflexivity|];
       erewrite bind_val;
       [|unfold read_value; erewrite bind_val by reflexivity;
         rewrite Hparse; reflexivity];
       reflexivity]);
    unfold mbind, M_bind, Py.bind, Sys.input;
    cbn [stdin Sys.set_stdin Sys.set_console];
    destruct rest as [|enter rest]; cbn; rewrite <- !app_assoc; repeat split.
Qed.

End facts.
End ChangeFacts.

(** X25.  In [chat_advanced.py], when the value typed for one of the six
    numeric settings parses as the setting's type, the dialogue of
    [change_settings] stores it under that name and leaves every other
    setting, the transcript and the system prompt as they were; it prints
    that the setting was updated, and it touches the environment only for
    [threads]. *)
Theorem valid_setting_stored {F : Type}
    (py_float : text -> option F) (py_int : text -> option Z)
    (str_float : F -> text) (w : world (Advanced.BitNetChatAdvanced (F := F)))
    (name_line value_line : text) (rest : list text)
    (current new_value : Advanced.value) :
  stdin w = name_line :: value_line :: rest ->
  Str.lower (Str.strip name_line) ∈ Advanced.numeric_settings ->
  Advanced.settings (self w) !! Advanced.key (Str.lower (Str.strip name_line))
    = Some current ->
  Advanced.parse_value py_float py_int (Str.lower (Str.strip name_line)) value_line
    = Some new_value ->
  let name := Str.lower (Str.strip name_line) in
  let w' := Py.state (Advanced.change_settings py_float py_int str_float w) in
  Advanced.settings (self w') !! Advanced.key name = Some new_value /\
  (forall other, other <> Advanced.key name ->
     Advanced.settings (self w') !! other = Advanced.settings (self w) !! other) /\
  Advanced.conversation_history (self w') = Advanced.conversation_history (self w) /\
  Advanced.system_prompt (self w') = Advanced.system_prompt (self w) /\
  last (console w')
  = Some (Line (name ++ txt " updated to " ++ Advanced.str_value str_float new_value
                ++ txt "!")) /\
  (name <> txt "threads" -> environ w' = environ w).
Proof.
  intros Hin Hname Hcur Hparse name w'.
  destruct (ChangeFacts.change_settings_valid py_float py_int str_float
              w name_line value_line rest current new_value Hin Hname Hcur Hparse)
    as (Hself & Henv & Hconsole).
  fold name in Hself, Henv, Hconsole. fold w' in Hself, Henv, Hconsole.
  rewrite Hself, Henv, Hconsole. cbn [Advanced.settings Advanced.set_settings
    Advanced.conversation_history Advanced.system_prompt].
  split; [apply lookup_insert_eq|].
  split; [intros other Hother; apply lookup_insert_ne; congruence|].
  split; [reflexivity|]. split; [reflexivity|].
  split.
  - rewrite last_app. reflexivity.
  - intros Hne. unfold Str.eqb. case_bool_decide; [contradiction|reflexivity].
Qed.

Lemma valid_setting_stored_witness :
  let w := Example.advanced_session [txt " Temperature"; txt "0.5"] Example.answers in
  Advanced.parse_value Example.py_float Example.py_int (txt "temperature") (txt "0.5")
    = Some (Advanced.VFloat (1 # 2)%Q) /\
  Advanced.settings
    (self (Py.state
             (Advanced.change_settings Example.py_float Example.py_int
                Example.str_float w))) !! "temperature"
  = Some (Advanced.VFloat (1 # 2)%Q).
Proof.
  intros w. split; [reflexivity|].
  apply (valid_setting_stored Example.py_float Example.py_int Example.str_float w
           (txt " Temperature") (txt "0.5") [] (Advanced.VFloat (7 # 10))
           (Advanced.VFloat (1 # 2))).
  - reflexivity.
  - vm_compute. left.
  - vm_compute. reflexivity.
  - reflexivity.
Defined.

(** ** Smaller facts about the command lines *)

Module PlanFacts.

(** The table has three entries; any other name gets the default. *)
Lemma plan_cases (strategy : string) :
  (strategy = "balanced"%string /\ Parallel.plan strategy = (3, 4)%nat) \/
  (strategy = "concurrent"%string /\ Parallel.plan strategy = (6, 2)%nat) \/
  (strategy = "power"%string /\ Parallel.plan strategy = (2, 6)%nat) \/
  ((strategy ∉ ["balanced"; "concurrent"; "power"]%string) /\
   Parallel.plan strategy = (3, 4)%nat).
Proof.
  unfold Parallel.plan, Parallel.strategies.
  destruct (decide (strategy = "balanced"%string)) as [->|H1];
    [left; split; [reflexivity|]; rewrite lookup_insert_eq; reflexivity|].
  destruct (decide (strategy = "concurrent"%string)) as [->|H2];
    [right; left; split; [reflexivity|];
     rewrite lookup_insert_ne by discriminate; rewrite lookup_insert_eq; reflexivity|].
  destruct (decide (strategy = "power"%string)) as [->|H3];
    [right; right; left; split; [reflexivity|];
     rewrite !lookup_insert_ne by discriminate; rewrite lookup_insert_eq; reflexivity|].
  right; right; right. split.
  - rewrite !not_elem_of_cons. repeat split; try assumption. apply not_elem_of_nil.
  - rewrite !lookup_insert_ne by congruence. reflexivity.
Qed.

End PlanFacts.

(** X26.  Whatever name [parallel_inference] is given for its strategy, a
    name that is not in its table included, it plans twelve threads in all;
    an unknown name gets three workers of four threads. *)
Theorem every_strategy_plans_twelve (strategy : string) :
  Parallel.total_threads strategy = 12%nat /\
  (strategy ∉ ["balanced"; "concurrent"; "power"]%string ->
   Parallel.max_workers strategy = 3%nat /\
   Parallel.threads_per_worker strategy = 4%nat).
Proof.
  unfold Parallel.total_threads, Parallel.max_workers, Parallel.threads_per_worker.
  destruct (PlanFacts.plan_cases strategy)
    as [[-> E]|[[-> E]|[[-> E]|[H E]]]]; rewrite E; (split; [reflexivity|]).
  - intros Hn. exfalso. apply Hn. left.
  - intros Hn. exfalso. apply Hn. right. left.
  - intros Hn. exfalso. apply Hn. right. right. left.
  - intros _. split; reflexivity.
Qed.

Lemma every_strategy_plans_twelve_witness :
  ("fast"%string ∉ ["balanced"; "concurrent"; "power"]%string) /\
  Parallel.max_workers "fast" = 3%nat.
Proof.
  assert (H : "fast"%string ∉ ["balanced"; "concurrent"; "power"]%string).
  { rewrite !not_elem_of_cons. repeat split; try discriminate. apply not_elem_of_nil. }
  split; [exact H|].
  apply (proj2 (every_strategy_plans_twelve "fast") H).
Defined.

(** X27.  [run_inference_optimized.py] tests its sampling options for truth:
    an option given as zero is dropped, so the engine is launched exactly as
    if the option had not been given. *)
Theorem zero_sampling_option_dropped {F : Type} (str_float : F -> text)
    (truthy : F -> bool) (system : text) (path_exists : text -> bool)
    (model prompt : text) (n_predict threads ctx_size n : Z) (temperature zero : F)
    (conversation performance_mode : bool)
    (top_k : option Z) (top_p repeat_penalty : option F) :
  truthy zero = false ->
  let command := RunOptimized.command str_float truthy system path_exists in
  let args := RunOptimized.Args model n_predict prompt threads ctx_size temperature
                conversation performance_mode in
  command (args (Some 0) top_p repeat_penalty) n = command (args None top_p repeat_penalty) n /\
  command (args top_k (Some zero) repeat_penalty) n = command (args top_k None repeat_penalty) n /\
  command (args top_k top_p (Some zero)) n = command (args top_k top_p None) n.
Proof.
  intros Hzero command args. subst command args.
  unfold RunOptimized.command. cbn. rewrite Hzero. repeat split.
Qed.

Lemma zero_sampling_option_dropped_witness :
  let command := RunOptimized.command Example.str_float
                   (fun x => negb (Qeq_bool x 0)) (txt "Linux") (fun _ => true) in
  let args := RunOptimized.Args (txt "m.gguf") 128 (txt "Hello") 4 2048 (4 # 5)
                false false (Some 40) in
  negb (Qeq_bool 0 0) = false /\
  command (args (Some 0%Q) None) 4 = command (args None None) 4.
Proof.
  intros command args. split; [reflexivity|].
  apply (zero_sampling_option_dropped Example.str_float
           (fun x => negb (Qeq_bool x 0)) (txt "Linux") (fun _ => true)
           (txt "m.gguf") (txt "Hello") 128 4 2048 4 (4 # 5)%Q 0%Q false false
           (Some 40) None None).
  reflexivity.
Defined.

(** ** The context that [chat.py] sends *)

Module ContextFacts.
Import Basic.

(** In a transcript of pairs an odd number of entries stops before an
    answer. *)
Lemma paired_drop_odd (k : nat) (h : list entry) :
  paired h = true -> (2 * k + 1 < length h)%nat ->
  exists answer rest, drop (2 * k + 1) h = (txt "assistant", answer) :: rest.
Proof.
  intros Hp Hlen.
  pose proof (PairFacts.paired_drop k h Hp) as Hd.
  rewrite <- drop_drop.
  assert (Hl : (1 < length (drop (2 * k) h))%nat) by (rewrite length_drop; lia).
  destruct (drop (2 * k) h) as [|[asker question] [|[answerer answer] rest]];
    try (simpl in Hl; lia).
  simpl in Hd. apply andb_prop in Hd as [Hd _]. apply andb_prop in Hd as [_ Ha].
  unfold Str.eqb in Ha. case_bool_decide; [subst answerer|discriminate].
  exists answer, rest. reflexivity.
Qed.

(** The prompt grows at its end only. *)
Lemma context_extends (entries : list entry) (acc : text) :
  exists more,
    fold_left
      (fun acc '(role, message) =>
         if Str.eqb role (txt "user")
         then acc ++ NLNL ++ txt "User: " ++ message
         else acc ++ NLNL ++ txt "Assistant: " ++ message)
      entries acc = acc ++ more.
Proof.
  revert acc. induction entries as [|[role message] entries IH]; intros acc.
  - exists []. cbn [fold_left]. rewrite app_nil_r. reflexivity.
  - cbn [fold_left].
    match goal with
    | |- exists _, fold_left _ _ ?a = _ => destruct (IH a) as [more E]; rewrite E
    end.
    destruct (Str.eqb role (txt "user")); eexists; rewrite <- app_assoc; reflexivity.
Qed.

Lemma session_paired (path : text) (n : nat) (w : world BitNetChat) :
  paired (conversation_history (self (Py.state ((init path;; run n) w)))) = true.
Proof.
  unfold mbind, M_bind, Py.bind.
  assert (Hinit : on_self pairs (Py.state (init path w))) by reflexivity.
  destruct (init path w) as [[] w'|e w'|w'] eqn:E; [|discriminate E..].
  exact (PairFacts.keeps_run_pairs n w' Hinit).
Qed.

Lemma last_five (h : list entry) :
  paired h = true -> (5 <= length h)%nat ->
  exists answer rest, last_n 5 h = (txt "assistant", answer) :: rest.
Proof.
  intros Hp Hlen. unfold last_n.
  pose proof (PairFacts.paired_even h Hp) as He.
  apply Nat.even_spec in He as [m Hm].
  replace (length h - 5)%nat with (2 * (m - 3) + 1)%nat by lia.
  apply paired_drop_odd; [exact Hp|lia].
Qed.

End ContextFacts.

(** X28.  [chat.py] puts the last five entries of the transcript into the
    prompt.  As the transcript is made of pairs, from the third exchange on
    the context starts with an answer whose question is left out: the prompt
    begins with the system prompt followed by an [Assistant:] paragraph. *)
Theorem context_starts_with_answer (path : text) (n : nat) (w : world Basic.BitNetChat) :
  let c := self (Py.state ((Basic.init path;; Basic.run n) w)) in
  (5 <= length (Basic.conversation_history c))%nat ->
  exists answer rest,
    last_n 5 (Basic.conversation_history c) = (txt "assistant", answer) :: rest /\
    forall prompt,
      Str.startswith (Basic.system_prompt c ++ NLNL ++ txt "Assistant: " ++ answer)
                     (Basic.full_prompt c prompt) = true.
Proof.
  intros c Hlen.
  destruct (ContextFacts.last_five (Basic.conversation_history c)
              (ContextFacts.session_paired path n w) Hlen) as (answer & rest & E).
  exists answer, rest. split; [exact E|]. intros prompt.
  unfold Basic.full_prompt. rewrite E. cbn [fold_left].
  change (Str.eqb (txt "assistant") (txt "user")) with false. cbv iota.
  destruct (ContextFacts.context_extends rest
              (Basic.system_prompt c ++ NLNL ++ txt "Assistant: " ++ answer))
    as [more Emore].
  rewrite Emore, <- app_assoc. apply StrFacts.startswith_app.
Qed.

Lemma context_starts_with_answer_witness :
  (5 <= length (Basic.conversation_history (self Example.twelve_questions)))%nat /\
  exists answer rest,
    last_n 5 (Basic.conversation_history (self Example.twelve_questions))
    = (txt "assistant", answer) :: rest.
Proof.
  unfold Example.twelve_questions.
  pose proof (context_starts_with_answer (txt "model.gguf") 12
                (Example.host (Basic.Chat [] [] [] []) (replicate 12 (txt "hi"))
                   Example.answers)) as T.
  cbv zeta in T.
  match type of T with
  | ?P -> _ => assert (H : P) by (vm_compute; lia)
  end.
  split; [exact H|].
  destruct (T H) as (answer & rest & E & _).
  exists answer, rest. exact E.
Defined.

(** ** Calls under a timeout *)

Module TimeoutFacts.
Section advanced.
Import Advanced Run.
Context {F : Type}.
Variable literal : Q -> F.
Variable str_float : F -> text.

Local Abbreviation W := (world (BitNetChatAdvanced (F := F))).
Local Abbreviation generate_response := (generate_response literal str_float).
Local Abbreviation cmd := (cmd literal str_float).





End advanced.

Section parallel.
Import Run.
Context {Obj : Type}.


End parallel.
End TimeoutFacts.


